(** * Additional-companies product linker: a shallow embedding

    The development follows the Python sources module by module:

    - [models.py]: the enumerations and the dataclasses;
    - [exceptions.py]: the exception classes, as one inductive type with the
      subclass tests the [except] clauses perform;
    - [config.py]: the fields of [Config] the linker and the client read,
      the conservative profile and [validate];
    - [pipedrive_client.py]: [_make_request] with its retry loop, and the
      methods of the client on top of it;
    - [product_linker.py]: every method of [ProductLinker];
    - [mongodb_client.py]: the filter on submissions and the parsers of
      the companies;
    - [reporter.py]: the statistics of a run.

    Python [int] is [Z], Python [float] is the kernel's binary64 [float],
    [Optional] is [option], a [dict] keyed by strings is a [gmap string].
    Code that performs remote calls or raises is written in a state and
    exception monad: the state survives a raised exception, as in Python.
    An exception is raised by an operation of the code or by a call it
    makes, which may raise any class, [KeyboardInterrupt] included; an
    interrupt delivered between two operations is outside the model.

    [ProductLinker] is given its client as an object; it is modelled over
    the record [Client] of the six methods it calls, so that what is proved
    of the linker holds for every client.  Two clients are defined to run
    it: an in-memory remote store and a stub.

    The file has three parts: the embedding, the vocabulary of the
    properties, and the properties with their proofs. *)

From Stdlib Require Import ZArith List String Ascii Bool Lia Floats.
From stdpp Require Import base gmap strings pretty.

Set Warnings "-register-all,-inexact-float".
Open Scope Z_scope.

(** ** Decoded JSON values, as [response.json()] returns them *)

Inductive json : Type :=
| JNull
| JBool (b : bool)
| JInt (z : Z)
| JFloat (f : float)
| JStr (s : string)
| JList (l : list json)
| JDict (d : gmap string json).

(** Python truth value of a decoded JSON value ([if not x]). *)
Definition py_truthy (j : json) : bool :=
  match j with
  | JNull => false
  | JBool b => b
  | JInt z => negb (z =? 0)
  | JFloat f => negb (PrimFloat.eqb f 0%float)
  | JStr s => negb (String.eqb s "")
  | JList l => match l with [] => false | _ :: _ => true end
  | JDict d => negb (bool_decide (map_to_list d = []))
  end.

(** ** exceptions.py (and the exceptions of [requests] and of the builtins
    that the modelled code can meet) *)

Inductive exn : Type :=
| APIError (message : string) (status_code : option Z)
| RateLimitError (message : string) (status_code : option Z)
| OrphanedDealError (message : string) (deal_id : Z) (submission_id : string)
| HTTPError (message : string) (status_code : Z)
| Timeout (message : string)
| RequestException (message : string)
| BuiltinError (class_name message : string).

(** [class RateLimitError(APIError)]. *)
Definition isinstance_APIError (e : exn) : bool :=
  match e with
  | APIError _ _ | RateLimitError _ _ => true
  | _ => false
  end.

(** [requests.exceptions.Timeout] and [requests.exceptions.HTTPError] are
    both subclasses of [requests.exceptions.RequestException]. *)
Definition isinstance_Timeout (e : exn) : bool :=
  match e with Timeout _ => true | _ => false end.

Definition isinstance_HTTPError (e : exn) : bool :=
  match e with HTTPError _ _ => true | _ => false end.

Definition isinstance_RequestException (e : exn) : bool :=
  match e with
  | HTTPError _ _ | Timeout _ | RequestException _ => true
  | _ => false
  end.

(** [except Exception]: every class of exceptions.py and of [requests]
    derives from [Exception]; the builtin classes that do not are
    [BaseException] itself, [BaseExceptionGroup], [GeneratorExit],
    [KeyboardInterrupt] and [SystemExit]. *)
Definition isinstance_Exception (e : exn) : bool :=
  match e with
  | BuiltinError class_name _ =>
      negb (String.eqb class_name "KeyboardInterrupt"
            || String.eqb class_name "SystemExit"
            || String.eqb class_name "GeneratorExit"
            || String.eqb class_name "BaseException"
            || String.eqb class_name "BaseExceptionGroup")
  | _ => true
  end.

(** [str(e)]. *)
Definition str_exn (e : exn) : string :=
  match e with
  | APIError m _ | RateLimitError m _ | OrphanedDealError m _ _
  | HTTPError m _ | Timeout m | RequestException m | BuiltinError _ m => m
  end.

(** ** The monad of the effectful code *)

Inductive result (A : Type) : Type :=
| Ret (a : A)
| Raise (e : exn).
Arguments Ret {A} a.
Arguments Raise {A} e.

Definition M (W A : Type) : Type := W -> result A * W.

Definition ret {W A} (a : A) : M W A := fun w => (Ret a, w).

Definition raise {W A} (e : exn) : M W A := fun w => (Raise e, w).

Definition bind {W A B} (m : M W A) (k : A -> M W B) : M W B :=
  fun w =>
    match m w with
    | (Ret a, w') => k a w'
    | (Raise e, w') => (Raise e, w')
    end.

(** [try: m  except <class> as e: h e], the class given by its test. *)
Definition try_except {W A} (m : M W A) (catches : exn -> bool)
    (h : exn -> M W A) : M W A :=
  fun w =>
    match m w with
    | (Ret a, w') => (Ret a, w')
    | (Raise e, w') => if catches e then h e w' else (Raise e, w')
    end.

(** A pure computation that may raise, run inside the monad. *)
Definition lift {W A} (r : result A) : M W A := fun w => (r, w).

Declare Scope py_scope.
Delimit Scope py_scope with py.
Notation "'let*' x ':=' m 'in' k" := (bind m (fun x => k))
  (at level 10, x pattern, m at level 100, k at level 200) : py_scope.
Open Scope py_scope.

(** ** Python numbers *)

(** [float(n)] for an [int]: rounding to nearest even; [OverflowError] when
    the result does not fit a binary64. *)
Definition py_float_of_int (n : Z) : result float :=
  let f := SF2Prim (binary_normalize prec emax n 0 false) in
  if PrimFloat.eqb (PrimFloat.abs f) infinity
  then Raise (BuiltinError "OverflowError" "int too large to convert to float")
  else Ret f.

(** [n * x] for an [int] and a [float]. *)
Definition py_int_mul_float (n : Z) (x : float) : result float :=
  match py_float_of_int n with
  | Ret f => Ret (f * x)%float
  | Raise e => Raise e
  end.

(** The literal [0.01]: the binary64 nearest to one hundredth. *)
Definition price_tolerance : float := 0x1.47ae147ae147bp-7%float.

(** ** Python strings (code points below 256) *)

(** [str.isspace] on one character. *)
Definition py_isspace (c : ascii) : bool :=
  let n := N_of_ascii c in
  (((9 <=? n) && (n <=? 13)) || ((28 <=? n) && (n <=? 32))
   || (n =? 133) || (n =? 160))%N.

Fixpoint lstrip_with (p : ascii -> bool) (s : string) : string :=
  match s with
  | EmptyString => EmptyString
  | String c s' => if p c then lstrip_with p s' else s
  end.

Fixpoint rstrip_with (p : ascii -> bool) (s : string) : string :=
  match s with
  | EmptyString => EmptyString
  | String c s' =>
      match rstrip_with p s' with
      | EmptyString => if p c then EmptyString else String c EmptyString
      | r => String c r
      end
  end.

(** [s.strip()] *)
Definition py_strip (s : string) : string :=
  rstrip_with py_isspace (lstrip_with py_isspace s).

(** [s.rstrip(".")] *)
Definition py_rstrip_dot (s : string) : string :=
  rstrip_with (fun c => Ascii.eqb c "."%char) s.

(** ** models.py: enumerations *)

Inductive ProcessCompaniesMode := ADDITIONAL_ONLY | PRIMARY_ONLY | BOTH.

Inductive ProductNameFormat :=
  COMPANY_NAME | COMPANY_NAME_WITH_PREFIX | CUSTOM_FORMAT.

Module ValueCalculationMode.
Inductive t := W2_COUNT | W2_COUNT_TIMES_PRICE | FIXED_PRICE.
End ValueCalculationMode.

Module QuantityMode.
Inductive t := W2_COUNT | ALWAYS_ONE | CUSTOM.
End QuantityMode.

Module DuplicateAction.
Inductive t := UPDATE | SKIP | ERROR | FORCE_NEW.
End DuplicateAction.

Module W2ChangeAction.
Inductive t := UPDATE_QUANTITY | UPDATE_PRICE | UPDATE_BOTH | SKIP.
End W2ChangeAction.

Module LinkStatus.
Inductive t :=
  SUCCESS | UPDATED | SKIPPED | NO_DEAL_ID | NO_COMPANIES | ORPHANED
| FAILED_ERROR.
End LinkStatus.

Module ProductActionType.
Inductive t :=
  CREATED_CATALOG | FOUND_CATALOG | ATTACHED_NEW | UPDATED_QUANTITY
| UPDATED_PRICE | SKIPPED_EXISTS | ERROR.

(** The members are [str] values: [class ProductActionType(str, Enum)]. *)
Definition value (a : t) : string :=
  match a with
  | CREATED_CATALOG => "created_catalog"
  | FOUND_CATALOG => "found_catalog"
  | ATTACHED_NEW => "attached_new"
  | UPDATED_QUANTITY => "updated_quantity"
  | UPDATED_PRICE => "updated_price"
  | SKIPPED_EXISTS => "skipped_exists"
  | ERROR => "error"
  end.

Definition eqb (a b : t) : bool :=
  match a, b with
  | CREATED_CATALOG, CREATED_CATALOG | FOUND_CATALOG, FOUND_CATALOG
  | ATTACHED_NEW, ATTACHED_NEW | UPDATED_QUANTITY, UPDATED_QUANTITY
  | UPDATED_PRICE, UPDATED_PRICE | SKIPPED_EXISTS, SKIPPED_EXISTS
  | ERROR, ERROR => true
  | _, _ => false
  end.

(** [a in (ATTACHED_NEW, UPDATED_QUANTITY, UPDATED_PRICE)] *)
Definition is_attach_or_update (a : t) : bool :=
  eqb a ATTACHED_NEW || eqb a UPDATED_QUANTITY || eqb a UPDATED_PRICE.

(** Truth value of an optional member ([if catalog_action]): a member
    mixed with [str] is true when its string is not empty. *)
Definition truthy (o : option t) : bool :=
  match o with
  | None => false
  | Some a => negb (String.eqb (value a) "")
  end.
End ProductActionType.

(** ** models.py: dataclasses *)

Module AdditionalCompany.
Record t := mk {
  company_legal_name : string;
  w2_employee_count : option Z;
  raw_data : gmap string json;
}.
End AdditionalCompany.

Module Submission.
Record t := mk {
  id : string;
  deal_id : option Z;
  primary_company : option AdditionalCompany.t;
  additional_companies : list AdditionalCompany.t;
  email : string;
  raw_data : gmap string json;
}.
End Submission.

Module PipedriveProduct.
Record t := mk {
  id : Z;
  name : string;
  code : option string;
  active_flag : bool;
  prices : list (gmap string json);
}.
End PipedriveProduct.

Module DealProductAttachment.
Record t := mk {
  id : Z;
  product_id : Z;
  deal_id : Z;
  item_price : float;
  quantity : Z;
  sum : float;
  name : string;
  comments : option string;
}.
End DealProductAttachment.

Module ProductAction.
Record t := mk {
  company_name : string;
  w2_count : option Z;
  action_type : ProductActionType.t;
  product_id : option Z;
  attachment_id : option Z;
  old_quantity : option Z;
  new_quantity : option Z;
  old_price : option float;
  new_price : option float;
  error_message : option string;
}.

(** [action.action_type = a] *)
Definition set_action_type (a : ProductActionType.t) (x : t) : t :=
  mk (company_name x) (w2_count x) a (product_id x) (attachment_id x)
     (old_quantity x) (new_quantity x) (old_price x) (new_price x)
     (error_message x).
End ProductAction.

(** A [Deal] holds whatever the decoded body holds: a dataclass does not
    check its annotations, and the linker never reads the fields. *)
Module Deal.
Record t := mk {
  id : json;
  title : json;
  value : json;
  stage_id : json;
  pipeline_id : json;
  org_id : json;
}.
End Deal.

Module LinkResult.
Record t := mk {
  submission_id : string;
  deal_id : option Z;
  status : LinkStatus.t;
  companies_processed : Z;
  actions : list ProductAction.t;
  total_value_added : float;
  error_message : option string;
}.

Definition count_actions (p : ProductActionType.t -> bool) (r : t) : Z :=
  Z.of_nat (List.length (List.filter (fun a => p (ProductAction.action_type a))
                                     (actions r))).

Definition products_created (r : t) : Z :=
  count_actions (fun k => ProductActionType.eqb k ProductActionType.CREATED_CATALOG) r.

Definition products_found (r : t) : Z :=
  count_actions (fun k => ProductActionType.eqb k ProductActionType.FOUND_CATALOG) r.

Definition attachments_created (r : t) : Z :=
  count_actions (fun k => ProductActionType.eqb k ProductActionType.ATTACHED_NEW) r.

Definition attachments_updated (r : t) : Z :=
  count_actions
    (fun k => ProductActionType.eqb k ProductActionType.UPDATED_QUANTITY
              || ProductActionType.eqb k ProductActionType.UPDATED_PRICE) r.

Definition attachments_skipped (r : t) : Z :=
  count_actions (fun k => ProductActionType.eqb k ProductActionType.SKIPPED_EXISTS) r.

Definition errors (r : t) : Z :=
  count_actions (fun k => ProductActionType.eqb k ProductActionType.ERROR) r.
End LinkResult.

(** ** config.py: the fields the client and the linker read *)

Module Config.
Record t := mk {
  pipedrive_api_key : string;
  base_url : string;
  process_companies : ProcessCompaniesMode;
  product_name_format : ProductNameFormat;
  product_name_prefix : string;
  value_calculation_mode : ValueCalculationMode.t;
  item_price_per_employee : float;
  fixed_product_price : float;
  quantity_mode : QuantityMode.t;
  custom_quantity : Z;
  duplicate_attachment_action : DuplicateAction.t;
  w2_change_action : W2ChangeAction.t;
  auto_create_products : bool;
  product_visible_to : Z;
  product_active_flag : bool;
  skip_orphaned_deals : bool;
  skip_missing_w2 : bool;
  skip_zero_w2 : bool;
  min_w2_count : Z;
  max_w2_count : Z;
}.

(** [Config._get_standard_profile], on those fields. *)
Definition _get_standard_profile : t :=
  mk "" "" ADDITIONAL_ONLY COMPANY_NAME ""
     ValueCalculationMode.W2_COUNT_TIMES_PRICE 1.0%float 100.0%float
     QuantityMode.W2_COUNT 1
     DuplicateAction.UPDATE W2ChangeAction.UPDATE_BOTH
     true 3 true
     true true true 0 10000.
End Config.

(** ** pipedrive_client.py: the interface the linker uses

    [ProductLinker] holds a client object and calls six of its methods.  The
    linker is written over any object with these methods, acting on a world
    [W]; [traced] records the calls made, so that they can be counted. *)

Record Client (W : Type) : Type := mkClient {
  get_deal_by_id : Z -> M W (option Deal.t);
  get_deal_products : Z -> M W (list DealProductAttachment.t);
  search_product_by_name : string -> bool -> M W (option PipedriveProduct.t);
  create_product :
    string -> option string -> bool -> Z -> M W PipedriveProduct.t;
  attach_product_to_deal :
    Z -> Z -> float -> Z -> option string -> M W DealProductAttachment.t;
  update_deal_product_attachment :
    Z -> Z -> option float -> option Z -> option string ->
    M W DealProductAttachment.t;
}.
Arguments mkClient {W}.
Arguments get_deal_by_id {W}.
Arguments get_deal_products {W}.
Arguments search_product_by_name {W}.
Arguments create_product {W}.
Arguments attach_product_to_deal {W}.
Arguments update_deal_product_attachment {W}.

Inductive call : Type :=
| Call_get_deal_by_id (deal_id : Z)
| Call_get_deal_products (deal_id : Z)
| Call_search_product_by_name (product_name : string) (exact_match : bool)
| Call_create_product (name : string) (code : option string) (active : bool)
    (visible_to : Z)
| Call_attach_product_to_deal (deal_id product_id : Z) (item_price : float)
    (quantity : Z) (comments : option string)
| Call_update_deal_product_attachment (deal_id attachment_id : Z)
    (item_price : option float) (quantity : option Z)
    (comments : option string).

(** The calls that write to the remote store (POST and PUT). *)
Definition is_mutating (c : call) : bool :=
  match c with
  | Call_create_product _ _ _ _
  | Call_attach_product_to_deal _ _ _ _ _
  | Call_update_deal_product_attachment _ _ _ _ _ => true
  | _ => false
  end.

Definition is_update (c : call) : bool :=
  match c with
  | Call_update_deal_product_attachment _ _ _ _ _ => true
  | _ => false
  end.

Definition traced_op {W A} (c : call) (m : M W A) : M (W * list call) A :=
  fun wt =>
    match m (fst wt) with
    | (r, w') => (r, (w', snd wt ++ [c]))
    end.

Definition traced {W} (cl : Client W) : Client (W * list call) :=
  mkClient
    (fun d => traced_op (Call_get_deal_by_id d) (get_deal_by_id cl d))
    (fun d => traced_op (Call_get_deal_products d) (get_deal_products cl d))
    (fun n x =>
       traced_op (Call_search_product_by_name n x)
                 (search_product_by_name cl n x))
    (fun n c a v =>
       traced_op (Call_create_product n c a v) (create_product cl n c a v))
    (fun d p ip q c =>
       traced_op (Call_attach_product_to_deal d p ip q c)
                 (attach_product_to_deal cl d p ip q c))
    (fun d a ip q c =>
       traced_op (Call_update_deal_product_attachment d a ip q c)
                 (update_deal_product_attachment cl d a ip q c)).

(** ** product_linker.py *)

Section ProductLinker.
Context {W : Type}.
Variable pipedrive_client : Client W.
Variable config : Config.t.

(** [ProductAction(company_name=..., w2_count=..., action_type=ERROR,
    product_id=..., error_message=...)] *)
Definition error_action (company : AdditionalCompany.t)
    (product_id : option Z) (msg : string) : ProductAction.t :=
  ProductAction.mk
    (AdditionalCompany.company_legal_name company)
    (AdditionalCompany.w2_employee_count company)
    ProductActionType.ERROR product_id None None None None None (Some msg).

Definition _validate_company (company : AdditionalCompany.t)
    : option string :=
  match AdditionalCompany.w2_employee_count company with
  | None =>
      if Config.skip_missing_w2 config
      then Some "Missing W2 employee count"
      else None
  | Some w2 =>
      if (w2 =? 0) && Config.skip_zero_w2 config
      then Some "W2 employee count is zero"
      else if (0 <? Config.min_w2_count config)
              && (w2 <? Config.min_w2_count config)
      then Some ("W2 count (" +:+ pretty w2 +:+ ") below minimum ("
                 +:+ pretty (Config.min_w2_count config) +:+ ")")
      else if (0 <? Config.max_w2_count config)
              && (Config.max_w2_count config <? w2)
      then Some ("W2 count (" +:+ pretty w2 +:+ ") exceeds maximum ("
                 +:+ pretty (Config.max_w2_count config) +:+ ")")
      else None
  end.

(** [if validation_error:] on an [Optional[str]]. *)
Definition truthy_message (o : option string) : bool :=
  match o with
  | None => false
  | Some s => negb (String.eqb s "")
  end.

Definition _format_product_name (company_name : string) : string :=
  let name := py_rstrip_dot (py_strip company_name) in
  match Config.product_name_format config with
  | COMPANY_NAME => name
  | COMPANY_NAME_WITH_PREFIX => Config.product_name_prefix config +:+ name
  | CUSTOM_FORMAT => name
  end.

Definition _find_or_create_product (product_name : string) (dry_run : bool)
    : M W (option PipedriveProduct.t * option ProductActionType.t) :=
  let* product :=
    search_product_by_name pipedrive_client product_name true in
  match product with
  | Some p => ret (Some p, Some ProductActionType.FOUND_CATALOG)
  | None =>
      if Config.auto_create_products config then
        if dry_run then
          let dummy_product :=
            PipedriveProduct.mk 999999 product_name None true [] in
          ret (Some dummy_product, Some ProductActionType.CREATED_CATALOG)
        else
          try_except
            (let* p :=
               create_product pipedrive_client product_name None
                 (Config.product_active_flag config)
                 (Config.product_visible_to config) in
             ret (Some p, Some ProductActionType.CREATED_CATALOG))
            isinstance_APIError
            (fun _ => ret (None, None))
      else ret (None, None)
  end.

Definition _calculate_quantity_and_price (w2_count : option Z)
    : result (Z * float) :=
  let effective_w2 := match w2_count with Some n => n | None => 1 end in
  let quantity :=
    match Config.quantity_mode config with
    | QuantityMode.W2_COUNT => effective_w2
    | QuantityMode.ALWAYS_ONE => 1
    | QuantityMode.CUSTOM => Config.custom_quantity config
    end in
  match Config.value_calculation_mode config with
  | ValueCalculationMode.W2_COUNT =>
      match py_float_of_int effective_w2 with
      | Ret price => Ret (quantity, price)
      | Raise e => Raise e
      end
  | ValueCalculationMode.W2_COUNT_TIMES_PRICE =>
      Ret (quantity, Config.item_price_per_employee config)
  | ValueCalculationMode.FIXED_PRICE =>
      Ret (quantity, Config.fixed_product_price config)
  end.

Fixpoint _find_existing_attachment (product_id : Z)
    (attachments : list DealProductAttachment.t)
    : option DealProductAttachment.t :=
  match attachments with
  | [] => None
  | attachment :: rest =>
      if DealProductAttachment.product_id attachment =? product_id
      then Some attachment
      else _find_existing_attachment product_id rest
  end.

(** The [SKIPPED_EXISTS] action, built at three places of the source. *)
Definition skipped_action (company : AdditionalCompany.t)
    (product : PipedriveProduct.t)
    (existing_attachment : DealProductAttachment.t)
    (new_quantity : Z) (new_price : float) : ProductAction.t :=
  ProductAction.mk
    (AdditionalCompany.company_legal_name company)
    (AdditionalCompany.w2_employee_count company)
    ProductActionType.SKIPPED_EXISTS
    (Some (PipedriveProduct.id product))
    (Some (DealProductAttachment.id existing_attachment))
    (Some (DealProductAttachment.quantity existing_attachment))
    (Some new_quantity)
    (Some (DealProductAttachment.item_price existing_attachment))
    (Some new_price)
    None.

Definition _attach_new_product (company : AdditionalCompany.t)
    (product : PipedriveProduct.t) (quantity : Z) (price : float)
    (deal_id : Z) (dry_run : bool) : M W ProductAction.t :=
  if dry_run then
    ret (ProductAction.mk
           (AdditionalCompany.company_legal_name company)
           (AdditionalCompany.w2_employee_count company)
           ProductActionType.ATTACHED_NEW
           (Some (PipedriveProduct.id product)) None
           None (Some quantity) None (Some price) None)
  else
    try_except
      (let comments :=
         "AUTO_ATTACHED|company:"
           +:+ AdditionalCompany.company_legal_name company in
       let* attachment :=
         attach_product_to_deal pipedrive_client deal_id
           (PipedriveProduct.id product) price quantity (Some comments) in
       ret (ProductAction.mk
              (AdditionalCompany.company_legal_name company)
              (AdditionalCompany.w2_employee_count company)
              ProductActionType.ATTACHED_NEW
              (Some (PipedriveProduct.id product))
              (Some (DealProductAttachment.id attachment))
              None (Some quantity) None (Some price) None))
      isinstance_APIError
      (fun e =>
         ret (error_action company (Some (PipedriveProduct.id product))
                ("Failed to attach product: " +:+ str_exn e))).

(** [quantity_changed] and [price_changed] of [_update_attachment]. *)
Definition quantity_changed (existing_attachment : DealProductAttachment.t)
    (new_quantity : Z) : bool :=
  negb (DealProductAttachment.quantity existing_attachment =? new_quantity).

Definition price_changed (existing_attachment : DealProductAttachment.t)
    (new_price : float) : bool :=
  PrimFloat.ltb price_tolerance
    (PrimFloat.abs
       (DealProductAttachment.item_price existing_attachment - new_price)).

(** [update_quantity] and [update_price] after the dispatch on
    [w2_change_action]; [None] is the early return of the [SKIP] branch. *)
Definition update_selection (existing_attachment : DealProductAttachment.t)
    (new_quantity : Z) (new_price : float) : option (bool * bool) :=
  match Config.w2_change_action config with
  | W2ChangeAction.UPDATE_QUANTITY =>
      Some (quantity_changed existing_attachment new_quantity, false)
  | W2ChangeAction.UPDATE_PRICE =>
      Some (false, price_changed existing_attachment new_price)
  | W2ChangeAction.UPDATE_BOTH =>
      Some (quantity_changed existing_attachment new_quantity,
            price_changed existing_attachment new_price)
  | W2ChangeAction.SKIP => None
  end.

(** [UPDATED_QUANTITY] also stands for an update of both fields. *)
Definition updated_action_type (update_quantity update_price : bool)
    : ProductActionType.t :=
  if update_quantity && update_price then ProductActionType.UPDATED_QUANTITY
  else if update_quantity then ProductActionType.UPDATED_QUANTITY
  else ProductActionType.UPDATED_PRICE.

Definition _update_attachment (company : AdditionalCompany.t)
    (product : PipedriveProduct.t)
    (existing_attachment : DealProductAttachment.t)
    (new_quantity : Z) (new_price : float) (deal_id : Z) (dry_run : bool)
    : M W ProductAction.t :=
  match update_selection existing_attachment new_quantity new_price with
  | None =>
      ret (skipped_action company product existing_attachment
             new_quantity new_price)
  | Some (update_quantity, update_price) =>
      if negb update_quantity && negb update_price then
        ret (skipped_action company product existing_attachment
               new_quantity new_price)
      else if dry_run then
        ret (ProductAction.mk
               (AdditionalCompany.company_legal_name company)
               (AdditionalCompany.w2_employee_count company)
               (updated_action_type update_quantity update_price)
               (Some (PipedriveProduct.id product))
               (Some (DealProductAttachment.id existing_attachment))
               (Some (DealProductAttachment.quantity existing_attachment))
               (Some (if update_quantity then new_quantity
                      else DealProductAttachment.quantity
                             existing_attachment))
               (Some (DealProductAttachment.item_price existing_attachment))
               (Some (if update_price then new_price
                      else DealProductAttachment.item_price
                             existing_attachment))
               None)
      else
        try_except
          (let* updated_attachment :=
             update_deal_product_attachment pipedrive_client deal_id
               (DealProductAttachment.id existing_attachment)
               (if update_price then Some new_price else None)
               (if update_quantity then Some new_quantity else None)
               None in
           ret (ProductAction.mk
                  (AdditionalCompany.company_legal_name company)
                  (AdditionalCompany.w2_employee_count company)
                  (updated_action_type update_quantity update_price)
                  (Some (PipedriveProduct.id product))
                  (Some (DealProductAttachment.id updated_attachment))
                  (Some (DealProductAttachment.quantity
                           existing_attachment))
                  (Some (DealProductAttachment.quantity
                           updated_attachment))
                  (Some (DealProductAttachment.item_price
                           existing_attachment))
                  (Some (DealProductAttachment.item_price
                           updated_attachment))
                  None))
          isinstance_APIError
          (fun e =>
             ret (error_action company (Some (PipedriveProduct.id product))
                    ("Failed to update attachment: " +:+ str_exn e)))
  end.

(** [quantity_matches] and [price_matches] of
    [_handle_duplicate_attachment]. *)
Definition quantity_matches (existing_attachment : DealProductAttachment.t)
    (new_quantity : Z) : bool :=
  DealProductAttachment.quantity existing_attachment =? new_quantity.

Definition price_matches (existing_attachment : DealProductAttachment.t)
    (new_price : float) : bool :=
  PrimFloat.ltb
    (PrimFloat.abs
       (DealProductAttachment.item_price existing_attachment - new_price))
    price_tolerance.

Definition _handle_duplicate_attachment (company : AdditionalCompany.t)
    (product : PipedriveProduct.t)
    (existing_attachment : DealProductAttachment.t)
    (new_quantity : Z) (new_price : float) (deal_id : Z) (dry_run : bool)
    : M W ProductAction.t :=
  if quantity_matches existing_attachment new_quantity
     && price_matches existing_attachment new_price
  then
    ret (skipped_action company product existing_attachment
           new_quantity new_price)
  else
    match Config.duplicate_attachment_action config with
    | DuplicateAction.SKIP =>
        ret (skipped_action company product existing_attachment
               new_quantity new_price)
    | DuplicateAction.UPDATE =>
        _update_attachment company product existing_attachment
          new_quantity new_price deal_id dry_run
    | DuplicateAction.ERROR =>
        ret (error_action company (Some (PipedriveProduct.id product))
               "Product already attached (configured to error)")
    | DuplicateAction.FORCE_NEW =>
        _attach_new_product company product new_quantity new_price
          deal_id dry_run
    end.

Definition _process_company (company : AdditionalCompany.t) (deal_id : Z)
    (current_attachments : list DealProductAttachment.t) (dry_run : bool)
    : M W ProductAction.t :=
  try_except
    (let validation_error := _validate_company company in
     if truthy_message validation_error then
       ret (ProductAction.mk
              (AdditionalCompany.company_legal_name company)
              (AdditionalCompany.w2_employee_count company)
              ProductActionType.ERROR None None None None None None
              validation_error)
     else
       let product_name :=
         _format_product_name
           (AdditionalCompany.company_legal_name company) in
       let* found := _find_or_create_product product_name dry_run in
       let '(product_opt, catalog_action) := found in
       match product_opt with
       | None =>
           ret (error_action company None
                  "Failed to find or create product")
       | Some product =>
           let* qp :=
             lift (_calculate_quantity_and_price
                     (AdditionalCompany.w2_employee_count company)) in
           let '(quantity, price) := qp in
           let existing_attachment :=
             _find_existing_attachment (PipedriveProduct.id product)
               current_attachments in
           let* action :=
             match existing_attachment with
             | Some existing =>
                 _handle_duplicate_attachment company product existing
                   quantity price deal_id dry_run
             | None =>
                 _attach_new_product company product quantity price
                   deal_id dry_run
             end in
           match catalog_action with
           | Some catalog_type =>
               if ProductActionType.truthy catalog_action
                  && negb (ProductActionType.eqb
                             (ProductAction.action_type action)
                             ProductActionType.ERROR)
               then ret (ProductAction.set_action_type catalog_type action)
               else ret action
           | None => ret action
           end
       end)
    isinstance_Exception
    (fun e => ret (error_action company None (str_exn e))).

Definition _get_companies_to_process (submission : Submission.t)
    : list AdditionalCompany.t :=
  let process_mode := Config.process_companies config in
  let companies :=
    match process_mode with
    | PRIMARY_ONLY | BOTH =>
        match Submission.primary_company submission with
        | Some c => [c]
        | None => []
        end
    | ADDITIONAL_ONLY => []
    end in
  match process_mode with
  | ADDITIONAL_ONLY | BOTH =>
      companies ++ Submission.additional_companies submission
  | PRIMARY_ONLY => companies
  end.

(** The loop of [link_submission] over the companies, carrying [actions]
    and [total_value]. *)
Fixpoint process_companies_loop (companies : list AdditionalCompany.t)
    (deal_id : Z) (current_attachments : list DealProductAttachment.t)
    (dry_run : bool) (actions : list ProductAction.t) (total_value : float)
    : M W (list ProductAction.t * float) :=
  match companies with
  | [] => ret (actions, total_value)
  | company :: rest =>
      let* action :=
        _process_company company deal_id current_attachments dry_run in
      let actions := actions ++ [action] in
      let* total_value :=
        if ProductActionType.is_attach_or_update
             (ProductAction.action_type action)
        then
          match ProductAction.new_quantity action,
                ProductAction.new_price action with
          | Some q, Some p =>
              let* v := lift (py_int_mul_float q p) in
              ret (total_value + v)%float
          | _, _ => ret total_value
          end
        else ret total_value in
      process_companies_loop rest deal_id current_attachments dry_run
        actions total_value
  end.

(** [any(... for a in actions)] *)
Definition any_action (p : ProductActionType.t -> bool)
    (actions : list ProductAction.t) : bool :=
  List.existsb (fun a => p (ProductAction.action_type a)) actions.

(** "Determine overall status" *)
Definition overall_status (actions : list ProductAction.t) : LinkStatus.t :=
  let has_success :=
    any_action ProductActionType.is_attach_or_update actions in
  let has_errors :=
    any_action
      (fun k => ProductActionType.eqb k ProductActionType.ERROR) actions in
  if has_errors && negb has_success then LinkStatus.FAILED_ERROR
  else if has_success then LinkStatus.SUCCESS
  else if any_action
            (fun k => ProductActionType.eqb k
                        ProductActionType.SKIPPED_EXISTS) actions
  then LinkStatus.SKIPPED
  else LinkStatus.FAILED_ERROR.

(** A [LinkResult] with no company processed. *)
Definition early_result (submission : Submission.t)
    (deal_id : option Z) (status : LinkStatus.t) (msg : string)
    : LinkResult.t :=
  LinkResult.mk (Submission.id submission) deal_id status 0 [] 0%float
    (Some msg).

Definition link_submission (submission : Submission.t) (dry_run : bool)
    : M W LinkResult.t :=
  match Submission.deal_id submission with
  | None =>
      ret (early_result submission None LinkStatus.NO_DEAL_ID
             "No dealId in submission")
  | Some deal_id =>
      let companies := _get_companies_to_process submission in
      match companies with
      | [] =>
          ret (early_result submission (Some deal_id)
                 LinkStatus.NO_COMPANIES "No companies to process")
      | _ :: _ =>
          (* Verify deal exists: [Some r] is an early [return r]. *)
          let* verified :=
            try_except
              (let* deal := get_deal_by_id pipedrive_client deal_id in
               match deal with
               | None =>
                   if Config.skip_orphaned_deals config then
                     ret (Some (early_result submission (Some deal_id)
                                  LinkStatus.ORPHANED
                                  ("Deal " +:+ pretty deal_id
                                   +:+ " not found in Pipedrive")))
                   else
                     raise (OrphanedDealError
                              ("Deal " +:+ pretty deal_id +:+ " not found")
                              deal_id (Submission.id submission))
               | Some _ => ret None
               end)
              isinstance_APIError
              (fun e =>
                 ret (Some (early_result submission (Some deal_id)
                              LinkStatus.FAILED_ERROR
                              ("Failed to verify deal: " +:+ str_exn e)))) in
          match verified with
          | Some r => ret r
          | None =>
              (* Fetch current products on deal *)
              let* fetched :=
                try_except
                  (let* l := get_deal_products pipedrive_client deal_id in
                   ret (inl l))
                  isinstance_APIError
                  (fun e =>
                     ret (inr (early_result submission (Some deal_id)
                                 LinkStatus.FAILED_ERROR
                                 ("Failed to fetch deal products: "
                                  +:+ str_exn e)))) in
              match fetched with
              | inr r => ret r
              | inl current_attachments =>
                  let* processed :=
                    process_companies_loop companies deal_id
                      current_attachments dry_run [] 0%float in
                  let '(actions, total_value) := processed in
                  ret (LinkResult.mk (Submission.id submission)
                         (Some deal_id) (overall_status actions)
                         (Z.of_nat (List.length companies)) actions
                         total_value None)
              end
          end
      end
  end.
End ProductLinker.

(** ** pipedrive_client.py: the gateway *)

Module Request.
(** The arguments of [session.request]. *)
Record t := mk {
  method : string;
  url : string;
  params : gmap string json;
  json_data : option (gmap string json);
  timeout : Z;
}.
End Request.

Module Response.
(** [body] is the value the body decodes to, or, for a body that is not
    JSON, the message of the decoding error. *)
Record t := mk {
  status_code : Z;
  reason : string;
  url : string;
  body : json + string;
}.

(** [response.json()]: the [JSONDecodeError] of [requests] (2.27 and later)
    is a [RequestException]. *)
Definition json (r : t) : result json :=
  match body r with
  | inl v => Ret v
  | inr message => Raise (RequestException message)
  end.

(** [response.raise_for_status()] of [requests]: an [HTTPError] for the
    statuses 400 to 599. *)
Definition raise_for_status (r : t) : result unit :=
  if (400 <=? status_code r) && (status_code r <? 500) then
    Raise (HTTPError (pretty (status_code r) +:+ " Client Error: "
                      +:+ reason r +:+ " for url: " +:+ url r)
                     (status_code r))
  else if (500 <=? status_code r) && (status_code r <? 600) then
    Raise (HTTPError (pretty (status_code r) +:+ " Server Error: "
                      +:+ reason r +:+ " for url: " +:+ url r)
                     (status_code r))
  else Ret tt.
End Response.

(** What one call of [session.request] does: it returns a response or raises
    (a [Timeout], or another [RequestException] such as a connection
    error). *)
Inductive outcome : Type :=
| Responds (r : Response.t)
| Fails (e : exn).

(** One pass through the body of a [for] loop: [continue], or [return a]. *)
Inductive iteration (A : Type) : Type :=
| Continue
| Return (a : A).
Arguments Continue {A}.
Arguments Return {A} a.

(** [try: m  except C1: h1  except C2: h2 ...]: the first clause whose class
    matches handles the exception. *)
Fixpoint first_handler {W A} (e : exn)
    (handlers : list ((exn -> bool) * (exn -> M W A))) : M W A :=
  match handlers with
  | [] => raise e
  | (catches, h) :: rest =>
      if catches e then h e else first_handler e rest
  end.

Definition try_excepts {W A} (m : M W A)
    (handlers : list ((exn -> bool) * (exn -> M W A))) : M W A :=
  fun w =>
    match m w with
    | (Ret a, w') => (Ret a, w')
    | (Raise e, w') => first_handler e handlers w'
    end.

(** [d.get(k, dflt)] *)
Definition py_type_name (j : json) : string :=
  match j with
  | JNull => "NoneType" | JBool _ => "bool" | JInt _ => "int"
  | JFloat _ => "float" | JStr _ => "str" | JList _ => "list"
  | JDict _ => "dict"
  end.

Definition py_get (j : json) (k : string) (dflt : json) : result json :=
  match j with
  | JDict d => Ret (default dflt (d !! k))
  | _ => Raise (BuiltinError "AttributeError"
                  ("'" +:+ py_type_name j
                   +:+ "' object has no attribute 'get'"))
  end.

(** [d[k]] for a string key [k] *)
Definition py_getitem (j : json) (k : string) : result json :=
  match j with
  | JDict d =>
      match d !! k with
      | Some v => Ret v
      | None => Raise (BuiltinError "KeyError" ("'" +:+ k +:+ "'"))
      end
  | JList _ =>
      Raise (BuiltinError "TypeError"
               "list indices must be integers or slices, not str")
  | JStr _ =>
      Raise (BuiltinError "TypeError" "string indices must be integers")
  | _ =>
      Raise (BuiltinError "TypeError"
               ("'" +:+ py_type_name j +:+ "' object is not subscriptable"))
  end.

Module PipedriveClient.
(** The client object: its call counter, and what it has done to the
    outside (the requests sent and the seconds slept, in order). *)
Record state := mkState {
  api_call_count : Z;
  sent : list Request.t;
  slept : list Z;
}.

Section Gateway.
Variable config : Config.t.
(** The remote end: its answer to a request, given the earlier ones. *)
Variable session : list Request.t -> Request.t -> outcome.

(** [self.api_call_count += 1] *)
Definition count_call : M state unit :=
  fun c => (Ret tt, mkState (api_call_count c + 1) (sent c) (slept c)).

(** [self.session.request(...)] *)
Definition session_request (rq : Request.t) : M state Response.t :=
  fun c =>
    (match session (sent c) rq with
     | Responds r => Ret r
     | Fails e => Raise e
     end,
     mkState (api_call_count c) (sent c ++ [rq]) (slept c)).

(** [time.sleep(seconds)] *)
Definition sleep (seconds : Z) : M state unit :=
  fun c =>
    (Ret tt, mkState (api_call_count c) (sent c) (slept c ++ [seconds])).

(** The body of the [for attempt in range(max_retries)] loop. *)
Definition attempt_once (rq : Request.t) (attempt max_retries : Z)
    : M state (iteration json) :=
  try_excepts
    (let* _ := count_call in
     let* response := session_request rq in
     if Response.status_code response =? 429 then
       if attempt <? max_retries - 1 then
         let wait_time := 2 ^ attempt in
         let* _ := sleep wait_time in
         ret Continue
       else
         raise (RateLimitError "Rate limit exceeded after retries"
                  (Some 429))
     else
       let* _ := lift (Response.raise_for_status response) in
       let* decoded := lift (Response.json response) in
       ret (Return decoded))
    [ (isinstance_Timeout,
       fun _ =>
         if attempt <? max_retries - 1 then
           let* _ := sleep (1 * (attempt + 1)) in
           ret Continue
         else raise (APIError "Request timeout after retries" None));
      (isinstance_RequestException,
       fun e =>
         if attempt <? max_retries - 1 then
           let* _ := sleep (1 * (attempt + 1)) in
           ret Continue
         else
           raise (APIError ("Request failed: " +:+ str_exn e) None)) ].

(** The loop, with [remaining] passes left, the next one for [attempt]. *)
Fixpoint attempts (remaining : nat) (rq : Request.t)
    (attempt max_retries : Z) : M state json :=
  match remaining with
  | O => raise (APIError "Unexpected error in request handling" None)
  | S remaining' =>
      let* it := attempt_once rq attempt max_retries in
      match it with
      | Continue => attempts remaining' rq (attempt + 1) max_retries
      | Return v => ret v
      end
  end.

Definition _make_request (method endpoint : string)
    (params : option (gmap string json))
    (json_data : option (gmap string json)) (max_retries : Z)
    : M state json :=
  let params := default ∅ params in
  let params :=
    <["api_token" := JStr (Config.pipedrive_api_key config)]> params in
  let url := Config.base_url config +:+ "/" +:+ endpoint in
  attempts (Z.to_nat max_retries)
    (Request.mk method url params json_data 30) 0 max_retries.

Definition _parse_deal (raw_deal : json) : result Deal.t :=
  match py_getitem raw_deal "id" with
  | Raise e => Raise e
  | Ret id =>
      match raw_deal with
      | JDict d =>
          Ret (Deal.mk id
                 (default (JStr "") (d !! "title"))
                 (default JNull (d !! "value"))
                 (default (JInt 0) (d !! "stage_id"))
                 (default (JInt 0) (d !! "pipeline_id"))
                 (default JNull (d !! "org_id")))
      | _ => Raise (BuiltinError "AttributeError"
                      ("'" +:+ py_type_name raw_deal
                       +:+ "' object has no attribute 'get'"))
      end
  end.

(** [e.response.status_code] of an exception caught as [HTTPError]. *)
Definition response_status_code (e : exn) : Z :=
  match e with
  | HTTPError _ status => status
  | _ => 0
  end.

Definition get_deal_by_id (deal_id : Z) : M state (option Deal.t) :=
  try_except
    (let* response :=
       _make_request "GET" ("deals/" +:+ pretty deal_id) None None 3 in
     let* success := lift (py_get response "success" (JBool false)) in
     if negb (py_truthy success) then ret None
     else
       let* deal_data := lift (py_get response "data" JNull) in
       if negb (py_truthy deal_data) then ret None
       else
         let* deal := lift (_parse_deal deal_data) in
         ret (Some deal))
    isinstance_HTTPError
    (fun e =>
       if response_status_code e =? 404 then ret None
       else
         raise (APIError ("Failed to fetch deal " +:+ pretty deal_id
                          +:+ ": " +:+ str_exn e) None)).

(** The request body [update_data] that
    [update_deal_product_attachment] builds from its arguments. *)
Definition update_data (item_price : option float) (quantity : option Z)
    (comments : option string) : gmap string json :=
  let d : gmap string json := ∅ in
  let d :=
    match item_price with
    | Some p => <["item_price" := JFloat p]> d
    | None => d
    end in
  let d :=
    match quantity with
    | Some q => <["quantity" := JInt q]> d
    | None => d
    end in
  match comments with
  | Some c => <["comments" := JStr c]> d
  | None => d
  end.
End Gateway.
End PipedriveClient.

(** The request body of a recorded update call. *)
Definition update_body (c : call) : option (gmap string json) :=
  match c with
  | Call_update_deal_product_attachment _ _ item_price quantity comments =>
      Some (PipedriveClient.update_data item_price quantity comments)
  | _ => None
  end.

(** A client object whose deal lookup is the gateway's [get_deal_by_id]. *)
Definition with_get_deal_by_id {W} (lookup : Z -> M W (option Deal.t))
    (cl : Client W) : Client W :=
  mkClient lookup (get_deal_products cl) (search_product_by_name cl)
    (create_product cl) (attach_product_to_deal cl)
    (update_deal_product_attachment cl).

(** ** Python conversions and slices *)

(** [int(x)] for a [float]: truncation towards zero. *)
Definition py_int_of_float (f : float) : result Z :=
  match Prim2SF f with
  | S754_zero _ => Ret 0
  | S754_infinity _ =>
      Raise (BuiltinError "OverflowError"
               "cannot convert float infinity to integer")
  | S754_nan =>
      Raise (BuiltinError "ValueError" "cannot convert float NaN to integer")
  | S754_finite s m e =>
      let v := if 0 <=? e then Z.pos m * 2 ^ e else Z.pos m / 2 ^ (- e) in
      Ret (if s then - v else v)
  end.

(** [int(x)] for a decoded value; [int_of_str] is the builtin on a string:
    the integer it reads, or the message of the [ValueError] it raises. *)
Definition py_int (int_of_str : string -> Z + string) (x : json)
    : result Z :=
  match x with
  | JBool b => Ret (if b then 1 else 0)
  | JInt z => Ret z
  | JFloat f => py_int_of_float f
  | JStr s =>
      match int_of_str s with
      | inl z => Ret z
      | inr msg => Raise (BuiltinError "ValueError" msg)
      end
  | _ =>
      Raise (BuiltinError "TypeError"
               ("int() argument must be a string, a bytes-like object or a "
                +:+ "real number, not '" +:+ py_type_name x +:+ "'"))
  end.

(** [except (ValueError, TypeError)] *)
Definition isinstance_ValueError_or_TypeError (e : exn) : bool :=
  match e with
  | BuiltinError class_name _ =>
      String.eqb class_name "ValueError" || String.eqb class_name "TypeError"
  | _ => false
  end.

(** [x.strip()] for a decoded value. *)
Definition py_strip_of (x : json) : result string :=
  match x with
  | JStr s => Ret (py_strip s)
  | _ => Raise (BuiltinError "AttributeError"
                  ("'" +:+ py_type_name x
                   +:+ "' object has no attribute 'strip'"))
  end.

(** The dictionary whose method [get] is called: a value of another type
    has no such method. *)
Definition py_dict (x : json) : result (gmap string json) :=
  match x with
  | JDict d => Ret d
  | _ => Raise (BuiltinError "AttributeError"
                  ("'" +:+ py_type_name x
                   +:+ "' object has no attribute 'get'"))
  end.

(** [s[:n]] *)
Fixpoint py_slice_to (n : nat) (s : string) : string :=
  match n, s with
  | O, _ => EmptyString
  | S _, EmptyString => EmptyString
  | S n', String c s' => String c (py_slice_to n' s')
  end.

(** ** mongodb_client.py: the filter on submissions and the parsers of the
    companies

    A document is taken as a decoded value of the kinds [json] has (the
    BSON types that JSON has too). *)

Section MongoDBClient.
Variable config : Config.t.
Variable int_of_str : string -> Z + string.

Definition _should_include_submission (submission : Submission.t) : bool :=
  match Config.process_companies config with
  | ADDITIONAL_ONLY =>
      0 <? Z.of_nat (List.length (Submission.additional_companies submission))
  | PRIMARY_ONLY =>
      match Submission.primary_company submission with
      | Some _ => true
      | None => false
      end
  | BOTH =>
      match Submission.primary_company submission with
      | Some _ => true
      | None => false
      end
      || (0 <? Z.of_nat (List.length
                           (Submission.additional_companies submission)))
  end.

(** "Extract W2 count": the block that both parsers run on the dictionary
    of a company. *)
Definition w2_count_of (company_data : gmap string json)
    : result (option Z) :=
  match default JNull (company_data !! "w2EmployeeCount") with
  | JNull => Ret None
  | w2_raw =>
      match py_int int_of_str w2_raw with
      | Ret n => Ret (Some n)
      | Raise e =>
          if isinstance_ValueError_or_TypeError e then Ret None else Raise e
      end
  end.

Definition _parse_primary_company (data : json)
    : result (option AdditionalCompany.t) :=
  match py_get data "primaryCompany" (JDict ∅) with
  | Raise e => Raise e
  | Ret primary_company_data =>
      if negb (py_truthy primary_company_data) then Ret None
      else
        match py_dict primary_company_data with
        | Raise e => Raise e
        | Ret d =>
            match py_strip_of (default (JStr "") (d !! "companyLegalName"))
            with
            | Raise e => Raise e
            | Ret company_name =>
                if String.eqb company_name "" then Ret None
                else
                  match w2_count_of d with
                  | Raise e => Raise e
                  | Ret w2_count =>
                      Ret (Some (AdditionalCompany.mk company_name w2_count
                                   d))
                  end
            end
        end
  end.

(** The loop of [_parse_additional_companies] over the entries, carrying
    [companies]. *)
Fixpoint parse_companies_loop (entries : list json)
    (companies : list AdditionalCompany.t)
    : result (list AdditionalCompany.t) :=
  match entries with
  | [] => Ret companies
  | company_data :: rest =>
      match company_data with
      | JDict d =>
          match py_strip_of (default (JStr "") (d !! "companyLegalName")) with
          | Raise e => Raise e
          | Ret company_name =>
              if String.eqb company_name ""
              then parse_companies_loop rest companies
              else
                match w2_count_of d with
                | Raise e => Raise e
                | Ret w2_count =>
                    parse_companies_loop rest
                      (companies
                       ++ [AdditionalCompany.mk company_name w2_count d])
                end
          end
      | _ => parse_companies_loop rest companies
      end
  end.

Definition _parse_additional_companies (data : json)
    : result (list AdditionalCompany.t) :=
  match py_get data "additionalCompanies" (JList []) with
  | Raise e => Raise e
  | Ret additional_companies_data =>
      match additional_companies_data with
      | JList (company_data :: rest) =>
          parse_companies_loop (company_data :: rest) []
      | _ => Ret []
      end
  end.
End MongoDBClient.

(** ** config.py: the conservative profile and [Config.validate]

    The three migration settings are not among the fields of [Config.t]
    above; [validate] takes them beside it. *)

(** [Config._get_conservative_profile], on the fields of [Config.t]. *)
Definition _get_conservative_profile : Config.t :=
  let config := Config._get_standard_profile in
  Config.mk
    (Config.pipedrive_api_key config) (Config.base_url config)
    (Config.process_companies config) (Config.product_name_format config)
    (Config.product_name_prefix config)
    (Config.value_calculation_mode config)
    (Config.item_price_per_employee config)
    (Config.fixed_product_price config)
    (Config.quantity_mode config) (Config.custom_quantity config)
    DuplicateAction.SKIP
    (Config.w2_change_action config)
    false
    (Config.product_visible_to config) (Config.product_active_flag config)
    (Config.skip_orphaned_deals config) (Config.skip_missing_w2 config)
    (Config.skip_zero_w2 config) (Config.min_w2_count config)
    (Config.max_w2_count config).

Module ConfigIssue.
Record t := mk {
  level : string;
  message : string;
}.
End ConfigIssue.

Definition validate (config : Config.t) (migration_mode : bool)
    (migration_from : string) (migration_delete_old : bool)
    : list ConfigIssue.t :=
  let issues : list ConfigIssue.t := [] in
  let issues :=
    if migration_mode && String.eqb migration_from ""
    then issues ++ [ConfigIssue.mk "ERROR"
                      "MIGRATION_MODE=true requires MIGRATION_FROM to be set"]
    else issues in
  let issues :=
    match Config.quantity_mode config, Config.value_calculation_mode config
    with
    | QuantityMode.W2_COUNT, ValueCalculationMode.FIXED_PRICE =>
        issues ++ [ConfigIssue.mk "WARNING"
                     "Using W2 quantity with fixed price may produce unexpected values"]
    | _, _ => issues
    end in
  let issues :=
    match Config.duplicate_attachment_action config with
    | DuplicateAction.FORCE_NEW =>
        issues ++ [ConfigIssue.mk "WARNING"
                     "FORCE_NEW will create duplicate attachments - use with caution"]
    | _ => issues
    end in
  let issues :=
    match Config.auto_create_products config,
          Config.process_companies config with
    | false, BOTH =>
        issues ++ [ConfigIssue.mk "WARNING"
                     "Processing both company types but not auto-creating products"]
    | _, _ => issues
    end in
  let issues :=
    if (0 <? Config.max_w2_count config)
       && (Config.max_w2_count config <? Config.min_w2_count config)
    then issues ++ [ConfigIssue.mk "ERROR"
                      "MAX_W2_COUNT must be greater than MIN_W2_COUNT"]
    else issues in
  let issues :=
    if PrimFloat.leb (Config.item_price_per_employee config) 0
    then issues ++ [ConfigIssue.mk "ERROR"
                      "ITEM_PRICE_PER_EMPLOYEE must be greater than 0"]
    else issues in
  if migration_mode && migration_delete_old
  then issues ++ [ConfigIssue.mk "WARNING"
                    "Migration with delete enabled - this will remove old attachments"]
  else issues.

(** ** pipedrive_client.py: the request bodies of the two other writes *)

(** [product_data] of [create_product]. *)
Definition product_data (name : string) (code : option string)
    (active : bool) (visible_to : Z) : gmap string json :=
  let d : gmap string json :=
    <["visible_to" := JInt visible_to]>
      (<["active_flag" := JBool active]>
         (<["name" := JStr (py_slice_to 255 name)]> ∅)) in
  match code with
  | Some c => if negb (String.eqb c "") then <["code" := JStr c]> d else d
  | None => d
  end.

(** [attachment_data] of [attach_product_to_deal]. *)
Definition attachment_data (product_id : Z) (item_price : float)
    (quantity : Z) (comments : option string) : gmap string json :=
  let d : gmap string json :=
    <["enabled_flag" := JBool true]>
      (<["duration" := JInt 1]>
         (<["discount" := JInt 0]>
            (<["quantity" := JInt quantity]>
               (<["item_price" := JFloat item_price]>
                  (<["product_id" := JInt product_id]> ∅))))) in
  match comments with
  | Some c => if negb (String.eqb c "") then <["comments" := JStr c]> d else d
  | None => d
  end.

(** The request body of a recorded create, attach or update call. *)
Definition write_body (c : call) : option (gmap string json) :=
  match c with
  | Call_create_product name code active visible_to =>
      Some (product_data name code active visible_to)
  | Call_attach_product_to_deal _ product_id item_price quantity comments =>
      Some (attachment_data product_id item_price quantity comments)
  | Call_update_deal_product_attachment _ _ item_price quantity comments =>
      Some (PipedriveClient.update_data item_price quantity comments)
  | _ => None
  end.

(** ** reporter.py: the statistics of a run *)

Module Statistics.
(** The dictionary [stats], one field for each of its keys. *)
Record t := mk {
  total : Z;
  companies_processed : Z;
  success : Z;
  skipped : Z;
  no_deal_id : Z;
  no_companies : Z;
  orphaned : Z;
  failed : Z;
  products_created : Z;
  products_found : Z;
  attachments_created : Z;
  attachments_updated : Z;
  attachments_skipped : Z;
  total_value : json;
}.
End Statistics.

(** [r.status == status] *)
Definition LinkStatus_eqb (a b : LinkStatus.t) : bool :=
  match a, b with
  | LinkStatus.SUCCESS, LinkStatus.SUCCESS
  | LinkStatus.UPDATED, LinkStatus.UPDATED
  | LinkStatus.SKIPPED, LinkStatus.SKIPPED
  | LinkStatus.NO_DEAL_ID, LinkStatus.NO_DEAL_ID
  | LinkStatus.NO_COMPANIES, LinkStatus.NO_COMPANIES
  | LinkStatus.ORPHANED, LinkStatus.ORPHANED
  | LinkStatus.FAILED_ERROR, LinkStatus.FAILED_ERROR => true
  | _, _ => false
  end.

(** [sum(1 for r in results if r.status == status)] *)
Definition count_status (status : LinkStatus.t) (results : list LinkResult.t)
    : Z :=
  Z.of_nat (List.length
              (List.filter (fun r => LinkStatus_eqb (LinkResult.status r)
                                       status) results)).

(** [sum(f(r) for r in results)] on integers *)
Definition sum_over (f : LinkResult.t -> Z) (results : list LinkResult.t)
    : Z :=
  List.fold_left (fun acc r => acc + f r) results 0.

Section Reporter.
(** The builtin [sum] on the floats of a generator. *)
Variable py_sum : list float -> json.

Definition _calculate_statistics (results : list LinkResult.t)
    : Statistics.t :=
  Statistics.mk
    (Z.of_nat (List.length results))
    (sum_over LinkResult.companies_processed results)
    (count_status LinkStatus.SUCCESS results)
    (count_status LinkStatus.SKIPPED results)
    (count_status LinkStatus.NO_DEAL_ID results)
    (count_status LinkStatus.NO_COMPANIES results)
    (count_status LinkStatus.ORPHANED results)
    (count_status LinkStatus.FAILED_ERROR results)
    (sum_over LinkResult.products_created results)
    (sum_over LinkResult.products_found results)
    (sum_over LinkResult.attachments_created results)
    (sum_over LinkResult.attachments_updated results)
    (sum_over LinkResult.attachments_skipped results)
    (py_sum (List.map LinkResult.total_value_added results)).
End Reporter.

(** ** pipedrive_client.py: the other methods of the client

    [_parse_product] and [_parse_deal_product_attachment] build their
    objects from a decoded body, and a dataclass does not check its
    annotations: a field that is stored as it comes holds a decoded value,
    whatever the annotation says; [item_price], [quantity] and [sum] go
    through [float] and [int]. *)

Module ParsedProduct.
(** A [PipedriveProduct] as [_parse_product] builds it. *)
Record t := mk {
  id : json;
  name : json;
  code : json;
  active_flag : json;
  prices : json;
}.
End ParsedProduct.

Module ParsedAttachment.
(** A [DealProductAttachment] as [_parse_deal_product_attachment] builds
    it. *)
Record t := mk {
  id : json;
  product_id : json;
  deal_id : json;
  item_price : float;
  quantity : Z;
  sum : float;
  name : json;
  comments : json;
}.
End ParsedAttachment.

(** [float(x)] for a decoded value; [float_of_str] is the builtin on a
    string: the float it reads, or the message of its [ValueError]. *)
Definition py_float (float_of_str : string -> float + string) (x : json)
    : result float :=
  match x with
  | JBool b => Ret (if b then 1 else 0)%float
  | JInt z => py_float_of_int z
  | JFloat f => Ret f
  | JStr s =>
      match float_of_str s with
      | inl f => Ret f
      | inr msg => Raise (BuiltinError "ValueError" msg)
      end
  | _ =>
      Raise (BuiltinError "TypeError"
               ("float() argument must be a string or a real number, not '"
                +:+ py_type_name x +:+ "'"))
  end.

(** [for x in v] on a decoded value [v] that is true in the sense of
    [if v]: the elements of a list; a dictionary yields its keys and a
    string its characters, strings in both cases, at least one of them;
    nothing else can be iterated. *)
Inductive iterated : Type :=
| Elements (l : list json)
| Strings
| NotIterable (e : exn).

Definition py_iter (v : json) : iterated :=
  match v with
  | JList l => Elements l
  | JDict _ | JStr _ => Strings
  | _ => NotIterable (BuiltinError "TypeError"
                        ("'" +:+ py_type_name v
                         +:+ "' object is not iterable"))
  end.

Module PipedriveMethods.
Import PipedriveClient.

Section Methods.
Variable config : Config.t.
Variable session : list Request.t -> Request.t -> outcome.
Variable int_of_str : string -> Z + string.
Variable float_of_str : string -> float + string.

Definition _parse_product (raw_product : json) : result ParsedProduct.t :=
  match py_getitem raw_product "id" with
  | Raise e => Raise e
  | Ret id =>
      match raw_product with
      | JDict d =>
          Ret (ParsedProduct.mk id
                 (default (JStr "") (d !! "name"))
                 (default JNull (d !! "code"))
                 (default (JBool true) (d !! "active_flag"))
                 (default (JList []) (d !! "prices")))
      | _ => Raise (BuiltinError "AttributeError"
                      ("'" +:+ py_type_name raw_product
                       +:+ "' object has no attribute 'get'"))
      end
  end.

Definition _parse_deal_product_attachment (raw_attachment : json)
    : result ParsedAttachment.t :=
  match py_getitem raw_attachment "id" with
  | Raise e => Raise e
  | Ret id =>
      match raw_attachment with
      | JDict d =>
          match py_float float_of_str
                  (default (JInt 0) (d !! "item_price")) with
          | Raise e => Raise e
          | Ret item_price =>
              match py_int int_of_str (default (JInt 0) (d !! "quantity"))
              with
              | Raise e => Raise e
              | Ret quantity =>
                  match py_float float_of_str
                          (default (JInt 0) (d !! "sum")) with
                  | Raise e => Raise e
                  | Ret sum =>
                      Ret (ParsedAttachment.mk id
                             (default (JInt 0) (d !! "product_id"))
                             (default (JInt 0) (d !! "deal_id"))
                             item_price quantity sum
                             (default (JStr "") (d !! "name"))
                             (default JNull (d !! "comments")))
                  end
              end
          end
      | _ => Raise (BuiltinError "AttributeError"
                      ("'" +:+ py_type_name raw_attachment
                       +:+ "' object has no attribute 'get'"))
      end
  end.

(** The [except requests.exceptions.HTTPError as e] clause that four
    methods share, [what] being the text of its message. *)
Definition on_http_error {A} (not_found : A) (what : string)
    (e : exn) : M state A :=
  if response_status_code e =? 404 then ret not_found
  else raise (APIError (what +:+ ": " +:+ str_exn e) None).

(** The loop "Return first exact match" of [search_product_by_name]:
    [Some p] is [return p]. *)
Fixpoint search_loop (exact_match : bool) (search_term : string)
    (items : list json) : result (option ParsedProduct.t) :=
  match items with
  | [] => Ret None
  | item :: rest =>
      match py_get item "item" (JDict ∅) with
      | Raise e => Raise e
      | Ret item_data =>
          if exact_match then
            match py_get item_data "name" (JStr "") with
            | Raise e => Raise e
            | Ret name =>
                match py_strip_of name with
                | Raise e => Raise e
                | Ret stripped =>
                    if String.eqb stripped search_term then
                      match _parse_product item_data with
                      | Raise e => Raise e
                      | Ret p => Ret (Some p)
                      end
                    else search_loop exact_match search_term rest
                end
            end
          else search_loop exact_match search_term rest
      end
  end.

Definition search_product_by_name (product_name : string)
    (exact_match : bool) : M state (option ParsedProduct.t) :=
  try_except
    (let search_term := py_strip product_name in
     let* response :=
       _make_request config session "GET" "products/search"
         (Some (<["exact_match" := JInt (if exact_match then 1 else 0)]>
                  (<["term" := JStr search_term]> ∅)))
         None 3 in
     let* success := lift (py_get response "success" (JBool false)) in
     if negb (py_truthy success) then ret None
     else
       let* data := lift (py_get response "data" (JDict ∅)) in
       let* items := lift (py_get data "items" (JList [])) in
       if negb (py_truthy items) then ret None
       else
         match py_iter items with
         | NotIterable e => raise e
         | Strings =>
             (* [item.get] on the first key or character *)
             raise (BuiltinError "AttributeError"
                      "'str' object has no attribute 'get'")
         | Elements l =>
             let* found := lift (search_loop exact_match search_term l) in
             match found with
             | Some p => ret (Some p)
             | None =>
                 if negb exact_match then
                   match l with
                   | first :: _ =>
                       let* item_data :=
                         lift (py_get first "item" (JDict ∅)) in
                       let* p := lift (_parse_product item_data) in
                       ret (Some p)
                   | [] => ret None
                   end
                 else ret None
             end
         end)
    isinstance_HTTPError
    (on_http_error None "Failed to search product").

Definition create_product (name : string) (code : option string)
    (active : bool) (visible_to : Z) : M state ParsedProduct.t :=
  let* response :=
    _make_request config session "POST" "products" None
      (Some (product_data name code active visible_to)) 3 in
  let* success := lift (py_get response "success" (JBool false)) in
  if negb (py_truthy success) then
    raise (APIError ("Failed to create product: " +:+ name) None)
  else
    let* data := lift (py_get response "data" (JDict ∅)) in
    lift (_parse_product data).

Definition get_product_by_id (product_id : Z)
    : M state (option ParsedProduct.t) :=
  try_except
    (let* response :=
       _make_request config session "GET"
         ("products/" +:+ pretty product_id) None None 3 in
     let* success := lift (py_get response "success" (JBool false)) in
     if negb (py_truthy success) then ret None
     else
       let* product_data := lift (py_get response "data" JNull) in
       if negb (py_truthy product_data) then ret None
       else
         let* p := lift (_parse_product product_data) in
         ret (Some p))
    isinstance_HTTPError
    (on_http_error None ("Failed to fetch product " +:+ pretty product_id)).

(** [update_data] of [update_product]. *)
Definition product_update_data (name code : option string)
    (active : option bool) : gmap string json :=
  let d : gmap string json := ∅ in
  let d :=
    match name with
    | Some n => <["name" := JStr (py_slice_to 255 n)]> d
    | None => d
    end in
  let d :=
    match code with
    | Some c => <["code" := JStr c]> d
    | None => d
    end in
  match active with
  | Some a => <["active_flag" := JBool a]> d
  | None => d
  end.

Definition update_product (product_id : Z) (name code : option string)
    (active : option bool) : M state ParsedProduct.t :=
  let* response :=
    _make_request config session "PUT" ("products/" +:+ pretty product_id)
      None (Some (product_update_data name code active)) 3 in
  let* success := lift (py_get response "success" (JBool false)) in
  if negb (py_truthy success) then
    raise (APIError ("Failed to update product " +:+ pretty product_id) None)
  else
    let* data := lift (py_get response "data" (JDict ∅)) in
    lift (_parse_product data).

(** The loop of [get_deal_products], carrying [attachments]. *)
Fixpoint parse_attachments_loop (products_data : list json)
    (attachments : list ParsedAttachment.t)
    : result (list ParsedAttachment.t) :=
  match products_data with
  | [] => Ret attachments
  | product_data :: rest =>
      match _parse_deal_product_attachment product_data with
      | Raise e => Raise e
      | Ret a => parse_attachments_loop rest (attachments ++ [a])
      end
  end.

Definition get_deal_products (deal_id : Z)
    : M state (list ParsedAttachment.t) :=
  try_except
    (let* response :=
       _make_request config session "GET"
         ("deals/" +:+ pretty deal_id +:+ "/products") None None 3 in
     let* success := lift (py_get response "success" (JBool false)) in
     if negb (py_truthy success) then ret []
     else
       let* data := lift (py_get response "data" (JList [])) in
       if negb (py_truthy data) then ret []
       else
         match py_iter data with
         | NotIterable e => raise e
         | Strings =>
             (* [raw_attachment["id"]] on the first key or character *)
             raise (BuiltinError "TypeError"
                      "string indices must be integers")
         | Elements l => lift (parse_attachments_loop l [])
         end)
    isinstance_HTTPError
    (on_http_error []
       ("Failed to fetch products for deal " +:+ pretty deal_id)).

Definition attach_product_to_deal (deal_id product_id : Z)
    (item_price : float) (quantity : Z) (comments : option string)
    : M state ParsedAttachment.t :=
  let* response :=
    _make_request config session "POST"
      ("deals/" +:+ pretty deal_id +:+ "/products") None
      (Some (attachment_data product_id item_price quantity comments)) 3 in
  let* success := lift (py_get response "success" (JBool false)) in
  if negb (py_truthy success) then
    raise (APIError ("Failed to attach product " +:+ pretty product_id
                     +:+ " to deal " +:+ pretty deal_id) None)
  else
    let* data := lift (py_get response "data" (JDict ∅)) in
    lift (_parse_deal_product_attachment data).

Definition update_deal_product_attachment (deal_id attachment_id : Z)
    (item_price : option float) (quantity : option Z)
    (comments : option string) : M state ParsedAttachment.t :=
  let* response :=
    _make_request config session "PUT"
      ("deals/" +:+ pretty deal_id +:+ "/products/"
       +:+ pretty attachment_id) None
      (Some (update_data item_price quantity comments)) 3 in
  let* success := lift (py_get response "success" (JBool false)) in
  if negb (py_truthy success) then
    raise (APIError ("Failed to update attachment " +:+ pretty attachment_id
                     +:+ " on deal " +:+ pretty deal_id) None)
  else
    let* data := lift (py_get response "data" (JDict ∅)) in
    lift (_parse_deal_product_attachment data).

Definition delete_deal_product_attachment (deal_id attachment_id : Z)
    : M state json :=
  let* response :=
    _make_request config session "DELETE"
      ("deals/" +:+ pretty deal_id +:+ "/products/"
       +:+ pretty attachment_id) None None 3 in
  lift (py_get response "success" (JBool false)).
End Methods.
End PipedriveMethods.

(** ** An in-memory remote store, for running the linker

    A client whose world is a catalog and the attachments of the deals: the
    catalog search finds by stripped name, a create is visible to the next
    search, an attach or an update answers with the stored attachment. *)

Module FakeRemote.
Record world := mkWorld {
  deals : list Z;
  catalog : list PipedriveProduct.t;
  attachments : list DealProductAttachment.t;
  next_id : Z;
}.

Definition a_deal (deal_id : Z) : Deal.t :=
  Deal.mk (JInt deal_id) (JStr "") JNull (JInt 0) (JInt 0) JNull.

Definition fake_get_deal_by_id (deal_id : Z) : M world (option Deal.t) :=
  fun w =>
    (Ret (if List.existsb (Z.eqb deal_id) (deals w)
          then Some (a_deal deal_id) else None), w).

Definition fake_get_deal_products (deal_id : Z)
    : M world (list DealProductAttachment.t) :=
  fun w =>
    (Ret (List.filter
            (fun a => DealProductAttachment.deal_id a =? deal_id)
            (attachments w)), w).

Definition fake_search_product_by_name (product_name : string)
    (exact_match : bool) : M world (option PipedriveProduct.t) :=
  fun w =>
    (Ret (List.find
            (fun p => String.eqb (py_strip (PipedriveProduct.name p))
                                 (py_strip product_name))
            (catalog w)), w).

Definition fake_create_product (name : string) (code : option string)
    (active : bool) (visible_to : Z) : M world PipedriveProduct.t :=
  fun w =>
    let p := PipedriveProduct.mk (next_id w) name code active [] in
    (Ret p, mkWorld (deals w) (catalog w ++ [p]) (attachments w)
              (next_id w + 1)).

Definition value_or_zero (r : result float) : float :=
  match r with Ret v => v | Raise _ => 0%float end.

Definition fake_attach_product_to_deal (deal_id product_id : Z)
    (item_price : float) (quantity : Z) (comments : option string)
    : M world DealProductAttachment.t :=
  fun w =>
    let a :=
      DealProductAttachment.mk (next_id w) product_id deal_id item_price
        quantity (value_or_zero (py_int_mul_float quantity item_price))
        "" comments in
    (Ret a, mkWorld (deals w) (catalog w) (attachments w ++ [a])
              (next_id w + 1)).

Definition updated (a : DealProductAttachment.t) (item_price : option float)
    (quantity : option Z) (comments : option string)
    : DealProductAttachment.t :=
  let p := default (DealProductAttachment.item_price a) item_price in
  let q := default (DealProductAttachment.quantity a) quantity in
  DealProductAttachment.mk (DealProductAttachment.id a)
    (DealProductAttachment.product_id a) (DealProductAttachment.deal_id a)
    p q (value_or_zero (py_int_mul_float q p))
    (DealProductAttachment.name a)
    (match comments with
     | Some c => Some c
     | None => DealProductAttachment.comments a
     end).

Definition fake_update_deal_product_attachment (deal_id attachment_id : Z)
    (item_price : option float) (quantity : option Z)
    (comments : option string) : M world DealProductAttachment.t :=
  fun w =>
    let is_it a :=
      (DealProductAttachment.id a =? attachment_id)
      && (DealProductAttachment.deal_id a =? deal_id) in
    match List.find is_it (attachments w) with
    | None =>
        (Raise (APIError ("Failed to update attachment "
                          +:+ pretty attachment_id +:+ " on deal "
                          +:+ pretty deal_id) None), w)
    | Some a =>
        let a' := updated a item_price quantity comments in
        (Ret a',
         mkWorld (deals w) (catalog w)
           (List.map (fun x => if is_it x then a' else x) (attachments w))
           (next_id w))
    end.

Definition client : Client world :=
  mkClient fake_get_deal_by_id fake_get_deal_products
    fake_search_product_by_name fake_create_product
    fake_attach_product_to_deal fake_update_deal_product_attachment.
End FakeRemote.

(** ** A stub client: fixed answers to reads, every write succeeds

    The reads answer from fixed data whatever was written before; the world
    only counts the calls. *)

Module StubRemote.
Section Stub.
Variable deal_exists : bool.
Variable catalog : list PipedriveProduct.t.
Variable attachments : list DealProductAttachment.t.

Definition answer {A} (a : A) : M Z A := fun n => (Ret a, n + 1).

Definition client : Client Z :=
  mkClient
    (fun deal_id =>
       answer (if deal_exists then Some (FakeRemote.a_deal deal_id)
               else None))
    (fun deal_id => answer attachments)
    (fun product_name exact_match =>
       answer (List.find
                 (fun p => String.eqb (py_strip (PipedriveProduct.name p))
                                      (py_strip product_name))
                 catalog))
    (fun name code active visible_to =>
       answer (PipedriveProduct.mk 1000000 name code active []))
    (fun deal_id product_id item_price quantity comments =>
       answer (DealProductAttachment.mk 2000000 product_id deal_id
                 item_price quantity 0%float "" comments))
    (fun deal_id attachment_id item_price quantity comments =>
       answer (DealProductAttachment.mk attachment_id 0 deal_id
                 (default 0%float item_price) (default 0 quantity)
                 0%float "" comments)).
End Stub.
End StubRemote.

(** ** The scenarios of the specification, as concrete inputs *)

Module Scenario.
(** Calculation mode [W2_COUNT_TIMES_PRICE] at 2.0 per employee, quantity
    mode [W2_COUNT]; the other fields as in the standard profile. *)
Definition config : Config.t :=
  Config.mk "" "" ADDITIONAL_ONLY COMPANY_NAME ""
    ValueCalculationMode.W2_COUNT_TIMES_PRICE 2.0%float 100.0%float
    QuantityMode.W2_COUNT 1
    DuplicateAction.UPDATE W2ChangeAction.UPDATE_BOTH
    true 3 true
    true true true 0 10000.

(** The same with another per-employee price and other policies. *)
Definition config_with (price : float) (duplicate : DuplicateAction.t)
    (change : W2ChangeAction.t) : Config.t :=
  Config.mk "" "" ADDITIONAL_ONLY COMPANY_NAME ""
    ValueCalculationMode.W2_COUNT_TIMES_PRICE price 100.0%float
    QuantityMode.W2_COUNT 1
    duplicate change
    true 3 true
    true true true 0 10000.

(** Any calculation and quantity mode, any duplicate and change policy. *)
Definition config_modes (calculation : ValueCalculationMode.t)
    (quantity : QuantityMode.t) (duplicate : DuplicateAction.t)
    (change : W2ChangeAction.t) : Config.t :=
  Config.mk "" "" ADDITIONAL_ONLY COMPANY_NAME ""
    calculation 2.0%float 100.0%float
    quantity 3
    duplicate change
    true 3 true
    true true true 0 10000.

Definition company (w2 : option Z) : AdditionalCompany.t :=
  AdditionalCompany.mk "Acme Inc." w2 ∅.

Definition other_company (w2 : option Z) : AdditionalCompany.t :=
  AdditionalCompany.mk "Bolt LLC" w2 ∅.

Definition submission (companies : list AdditionalCompany.t)
    : Submission.t :=
  Submission.mk "s1" (Some 7) None companies "client@example.com" ∅.

Definition acme_product : PipedriveProduct.t :=
  PipedriveProduct.mk 5 "Acme Inc" None true [].

(** An attachment of the product 5 to the deal 7. *)
Definition attachment (id quantity : Z) (price : float)
    : DealProductAttachment.t :=
  DealProductAttachment.mk id 5 7 price quantity 0%float "Acme Inc" None.

(** Deal 7 exists; the catalog holds the product or is empty. *)
Definition world_found (atts : list DealProductAttachment.t)
    : FakeRemote.world :=
  FakeRemote.mkWorld [7] [acme_product] atts 100.

Definition world_empty : FakeRemote.world :=
  FakeRemote.mkWorld [7] [] [] 100.

(** A remote end that answers the successive requests from a list, and
    refuses the connection afterwards. *)
Definition scripted (answers : list outcome)
    : list Request.t -> Request.t -> outcome :=
  fun earlier _ =>
    nth (List.length earlier) answers
      (Fails (RequestException "Connection refused")).

Definition response (status : Z) (reason : string) (body : json)
    : outcome :=
  Responds (Response.mk status reason "https://acme.pipedrive.com/api/v1/deals/7"
              (inl body)).

(** An answer whose body is not JSON (an HTML page, say). *)
Definition not_json (status : Z) (reason : string) : outcome :=
  Responds (Response.mk status reason "https://acme.pipedrive.com/api/v1/deals/7"
              (inr "Expecting value: line 1 column 1 (char 0)")).

Definition ok_body : json :=
  JDict (<["success" := JBool true]> ∅).

Definition gateway_config (skip_orphaned_deals : bool) : Config.t :=
  Config.mk "token" "https://acme.pipedrive.com/api/v1" ADDITIONAL_ONLY
    COMPANY_NAME ""
    ValueCalculationMode.W2_COUNT_TIMES_PRICE 2.0%float 100.0%float
    QuantityMode.W2_COUNT 1
    DuplicateAction.UPDATE W2ChangeAction.UPDATE_BOTH
    true 3 true
    skip_orphaned_deals true true 0 10000.

(** The request [get_deal_by_id 7] sends. *)
Definition deal_request : Request.t :=
  Request.mk "GET" "https://acme.pipedrive.com/api/v1/deals/7"
    (<["api_token" := JStr "token"]> ∅) None 30.

Definition fresh_client : PipedriveClient.state :=
  PipedriveClient.mkState 0 [] [].

(** What a run reports: status, action kinds, new quantities and prices,
    total value added, and the calls made. *)
Definition report {W} (x : result LinkResult.t * (W * list call)) :=
  match x with
  | (Ret r, (_, tr)) =>
      Some (LinkResult.status r,
            List.map ProductAction.action_type (LinkResult.actions r),
            List.map ProductAction.new_quantity (LinkResult.actions r),
            List.map ProductAction.new_price (LinkResult.actions r),
            LinkResult.total_value_added r,
            tr)
  | (Raise _, _) => None
  end.
End Scenario.

(** * The vocabulary of the properties *)

(** ** Actions and outcomes *)

(** The kinds of action [_process_company] turns out to report. *)
Definition catalog_or_error (k : ProductActionType.t) : Prop :=
  k = ProductActionType.FOUND_CATALOG
  \/ k = ProductActionType.CREATED_CATALOG
  \/ k = ProductActionType.ERROR.

(** One of the four calls made while a company is processed raises [e]. *)
Definition company_call_raises {W} (cl : Client W) (e : exn) : Prop :=
  (exists product_name exact_match w w',
      search_product_by_name cl product_name exact_match w = (Raise e, w'))
  \/ (exists name code active visible_to w w',
         create_product cl name code active visible_to w = (Raise e, w'))
  \/ (exists deal_id product_id item_price quantity comments w w',
         attach_product_to_deal cl deal_id product_id item_price quantity
           comments w = (Raise e, w'))
  \/ (exists deal_id attachment_id item_price quantity comments w w',
         update_deal_product_attachment cl deal_id attachment_id item_price
           quantity comments w = (Raise e, w')).

(** Those four calls raise nothing outside [Exception]: no
    [KeyboardInterrupt], no [SystemExit]. *)
Definition raises_exceptions_only {W} (cl : Client W) : Prop :=
  forall e, company_call_raises cl e -> isinstance_Exception e = true.

(** The four ways validation can fail, as a proposition. *)
Definition validation_fails (config : Config.t) (w2 : option Z) : Prop :=
  (w2 = None /\ Config.skip_missing_w2 config = true)
  \/ (w2 = Some 0 /\ Config.skip_zero_w2 config = true)
  \/ (exists n, w2 = Some n /\ 0 < Config.min_w2_count config
                /\ n < Config.min_w2_count config)
  \/ (exists n, w2 = Some n /\ 0 < Config.max_w2_count config
                /\ Config.max_w2_count config < n).

Definition has_kind (actions : list ProductAction.t)
    (k : ProductActionType.t) : Prop :=
  exists a, In a actions /\ ProductAction.action_type a = k.

Definition has_success (actions : list ProductAction.t) : Prop :=
  has_kind actions ProductActionType.ATTACHED_NEW
  \/ has_kind actions ProductActionType.UPDATED_QUANTITY
  \/ has_kind actions ProductActionType.UPDATED_PRICE.

(** The rule of the specification for the final status. *)
Definition status_rule (actions : list ProductAction.t)
    (status : LinkStatus.t) : Prop :=
  (has_kind actions ProductActionType.ERROR -> ~ has_success actions ->
   status = LinkStatus.FAILED_ERROR)
  /\ (has_success actions -> status = LinkStatus.SUCCESS)
  /\ (~ has_kind actions ProductActionType.ERROR -> ~ has_success actions ->
      has_kind actions ProductActionType.SKIPPED_EXISTS ->
      status = LinkStatus.SKIPPED)
  /\ (~ has_kind actions ProductActionType.ERROR -> ~ has_success actions ->
      ~ has_kind actions ProductActionType.SKIPPED_EXISTS ->
      status = LinkStatus.FAILED_ERROR).

(** The kinds of the actions of an outcome, in order. *)
Definition kinds (r : LinkResult.t) : list ProductActionType.t :=
  List.map ProductAction.action_type (LinkResult.actions r).

(** What is compared between the outcome of a dry run and of a real run. *)
Definition same_report (dry real : LinkResult.t) : Prop :=
  LinkResult.status dry = LinkResult.status real
  /\ kinds dry = kinds real
  /\ LinkResult.companies_processed dry = LinkResult.companies_processed real
  /\ LinkResult.products_created dry = LinkResult.products_created real
  /\ LinkResult.products_found dry = LinkResult.products_found real
  /\ LinkResult.attachments_created dry = LinkResult.attachments_created real
  /\ LinkResult.attachments_updated dry = LinkResult.attachments_updated real
  /\ LinkResult.attachments_skipped dry = LinkResult.attachments_skipped real
  /\ LinkResult.errors dry = LinkResult.errors real.

Definition same_outcome (dry real : result LinkResult.t) : Prop :=
  match dry, real with
  | Ret d, Ret r => same_report d r
  | Raise e, Raise e' => e = e'
  | _, _ => False
  end.

(** ** Calls *)

(** The calls of a trace that write to the remote store. *)
Definition mutating_calls (tr : list call) : list call :=
  List.filter is_mutating tr.

(** [tr'] extends [tr] by calls that do not write. *)
Definition reads_only (tr tr' : list call) : Prop :=
  exists l, tr' = tr ++ l /\ mutating_calls l = [].

(** A computation over a traced world that only reads. *)
Definition quiet {W A} (m : M (W * list call) A) : Prop :=
  forall w tr, reads_only tr (snd (snd (m (w, tr)))).

(** The fields that a change policy selects for update: the quantity under
    update-quantity-only and update-both, the price under update-price-only
    and update-both. *)
Definition selects_quantity (change : W2ChangeAction.t) : bool :=
  match change with
  | W2ChangeAction.UPDATE_QUANTITY | W2ChangeAction.UPDATE_BOTH => true
  | W2ChangeAction.UPDATE_PRICE | W2ChangeAction.SKIP => false
  end.

Definition selects_price (change : W2ChangeAction.t) : bool :=
  match change with
  | W2ChangeAction.UPDATE_PRICE | W2ChangeAction.UPDATE_BOTH => true
  | W2ChangeAction.UPDATE_QUANTITY | W2ChangeAction.SKIP => false
  end.

(** The update call the change handler issues in a real run. *)
Definition update_call (existing : DealProductAttachment.t) (quantity : Z)
    (price : float) (deal_id : Z) (uq up : bool) : call :=
  Call_update_deal_product_attachment deal_id
    (DealProductAttachment.id existing)
    (if up then Some price else None)
    (if uq then Some quantity else None) None.

(** The action reported after a successful update. *)
Definition updated_action (company : AdditionalCompany.t)
    (product : PipedriveProduct.t) (existing : DealProductAttachment.t)
    (uq up : bool) (updated : DealProductAttachment.t) : ProductAction.t :=
  ProductAction.mk
    (AdditionalCompany.company_legal_name company)
    (AdditionalCompany.w2_employee_count company)
    (if uq then ProductActionType.UPDATED_QUANTITY
     else ProductActionType.UPDATED_PRICE)
    (Some (PipedriveProduct.id product))
    (Some (DealProductAttachment.id updated))
    (Some (DealProductAttachment.quantity existing))
    (Some (DealProductAttachment.quantity updated))
    (Some (DealProductAttachment.item_price existing))
    (Some (DealProductAttachment.item_price updated))
    None.

(** The attach call [_attach_new_product] issues in a real run. *)
Definition attach_call (company : AdditionalCompany.t)
    (product : PipedriveProduct.t) (quantity : Z) (price : float)
    (deal_id : Z) : call :=
  Call_attach_product_to_deal deal_id (PipedriveProduct.id product) price
    quantity
    (Some ("AUTO_ATTACHED|company:"
           +:+ AdditionalCompany.company_legal_name company)).

(** ** The gateway *)

(** What an attempt with the request [rq] adds to the client's record,
    [naps] being the sleep that follows it, if any. *)
Definition after_attempt (rq : Request.t) (c : PipedriveClient.state)
    (naps : list Z) : PipedriveClient.state :=
  PipedriveClient.mkState (PipedriveClient.api_call_count c + 1)
    (PipedriveClient.sent c ++ [rq]) (PipedriveClient.slept c ++ naps).

(** The statuses for which [raise_for_status] raises. *)
Definition http_error_status (status : Z) : bool :=
  (400 <=? status) && (status <? 600).

(** The request [_make_request] sends at each attempt. *)
Definition request_of (config : Config.t) (method endpoint : string)
    (params json_data : option (gmap string json)) : Request.t :=
  Request.mk method (Config.base_url config +:+ "/" +:+ endpoint)
    (<["api_token" := JStr (Config.pipedrive_api_key config)]>
       (default ∅ params))
    json_data 30.

(** The answer to the [i]-th attempt of a call made in state [c]. *)
Definition answer_to (session : list Request.t -> Request.t -> outcome)
    (rq : Request.t) (c : PipedriveClient.state) (i : nat) : outcome :=
  session (PipedriveClient.sent c ++ repeat rq i) rq.

Definition rate_limited (session : list Request.t -> Request.t -> outcome)
    (rq : Request.t) (c : PipedriveClient.state) (i : nat) : Prop :=
  exists r,
    answer_to session rq c i = Responds r /\ Response.status_code r = 429.

(** ** The worlds of a dry run and of a real run

    The two runs start in the same world and part at the first write.
    [R names dry real] is what their worlds have in common while the
    product names [names] are still to be searched; [listed] holds of the
    attachments that the fetch of the deal's list returned. *)

(** The product names that a run searches, in order: those of the companies
    that pass validation. *)
Definition searched_names (config : Config.t)
    (companies : list AdditionalCompany.t) : list string :=
  List.map
    (fun c =>
       _format_product_name config (AdditionalCompany.company_legal_name c))
    (List.filter
       (fun c => negb (truthy_message (_validate_company config c)))
       companies).

(** Some listed attachment is of the product. *)
Definition holds_product (listed : DealProductAttachment.t -> Prop)
    (product_id : Z) : Prop :=
  exists a, listed a /\ DealProductAttachment.product_id a = product_id.

(** The search for the next name answers alike in both runs. *)
Definition search_agrees {W} (cl : Client W)
    (R : list string -> W -> W -> Prop) : Prop :=
  forall name names wd wr, R (name :: names) wd wr ->
    exists res wd' wr',
      search_product_by_name cl name true wd = (res, wd')
      /\ search_product_by_name cl name true wr = (res, wr')
      /\ R (name :: names) wd' wr'.

(** After a search that found nothing, the create of the real run succeeds;
    the product it creates is not one of a listed attachment, and the
    searches for the names that remain do not see it. *)
Definition create_succeeds {W} (cl : Client W)
    (R : list string -> W -> W -> Prop)
    (listed : DealProductAttachment.t -> Prop) : Prop :=
  forall name names code active visible_to wd0 wd wr,
    search_product_by_name cl name true wd0 = (Ret None, wd) ->
    R (name :: names) wd wr ->
    exists p wr',
      create_product cl name code active visible_to wr = (Ret p, wr')
      /\ R names wd wr'
      /\ ~ holds_product listed (PipedriveProduct.id p).

(** An attach of the real run succeeds, and the searches do not see it. *)
Definition attach_succeeds {W} (cl : Client W)
    (R : list string -> W -> W -> Prop) : Prop :=
  forall names deal_id product_id item_price quantity comments wd wr,
    R names wd wr ->
    exists a wr',
      attach_product_to_deal cl deal_id product_id item_price quantity
        comments wr = (Ret a, wr')
      /\ R names wd wr'.

(** An update by the real run of a listed attachment of the deal succeeds,
    and the searches do not see it. *)
Definition update_succeeds {W} (cl : Client W)
    (R : list string -> W -> W -> Prop)
    (listed : DealProductAttachment.t -> Prop) (deal_id : Z) : Prop :=
  forall names a item_price quantity comments wd wr,
    listed a -> R names wd wr ->
    exists updated wr',
      update_deal_product_attachment cl deal_id (DealProductAttachment.id a)
        item_price quantity comments wr = (Ret updated, wr')
      /\ R names wd wr'.

(** The ways [_find_or_create_product] can end, in the two runs. *)
Inductive catalog_sim (attached : Z -> Prop) :
  result (option PipedriveProduct.t * option ProductActionType.t) ->
  result (option PipedriveProduct.t * option ProductActionType.t) -> Prop :=
| sim_raised e : catalog_sim attached (Raise e) (Raise e)
| sim_found p :
    catalog_sim attached
      (Ret (Some p, Some ProductActionType.FOUND_CATALOG))
      (Ret (Some p, Some ProductActionType.FOUND_CATALOG))
| sim_created name p :
    ~ attached (PipedriveProduct.id p) ->
    catalog_sim attached
      (Ret (Some (PipedriveProduct.mk 999999 name None true []),
            Some ProductActionType.CREATED_CATALOG))
      (Ret (Some p, Some ProductActionType.CREATED_CATALOG))
| sim_absent : catalog_sim attached (Ret (None, None)) (Ret (None, None)).

(** Two actions of the same kind, returned in related worlds. *)
Definition action_sim {W} (R : W -> W -> Prop)
    (dry real : result ProductAction.t * W) : Prop :=
  exists ad ar,
    fst dry = Ret ad /\ fst real = Ret ar
    /\ ProductAction.action_type ad = ProductAction.action_type ar
    /\ R (snd dry) (snd real).

(** The two runs of [_process_company] end alike: with the same exception,
    or with actions of the same kind in related worlds. *)
Definition company_sim {W} (R : W -> W -> Prop)
    (dry real : result ProductAction.t * W) : Prop :=
  (exists e, fst dry = Raise e /\ fst real = Raise e)
  \/ action_sim R dry real.

(** The two runs of the loop end alike. *)
Definition loop_sim {W} (total : float)
    (dry real : result (list ProductAction.t * float) * W) : Prop :=
  match fst dry, fst real with
  | Ret (ld, td), Ret (lr, tr) =>
      List.map ProductAction.action_type ld
      = List.map ProductAction.action_type lr
      /\ td = total /\ tr = total
  | Raise e, Raise e' => e = e'
  | _, _ => False
  end.

(** *** The in-memory remote

    The world [start] is the one in which the loop over the companies
    begins; the dry run leaves it as it is. *)

(** The test of the catalog search of the in-memory remote. *)
Definition named (product_name : string) (p : PipedriveProduct.t) : bool :=
  String.eqb (py_strip (PipedriveProduct.name p)) (py_strip product_name).

(** A name that the catalog does not hold is searched once: no later name
    is the same, whitespace around it aside. *)
Fixpoint absent_once (catalog : list PipedriveProduct.t)
    (names : list string) : bool :=
  match names with
  | [] => true
  | name :: rest =>
      match List.find (named name) catalog with
      | Some _ => true
      | None =>
          List.forallb
            (fun n => negb (String.eqb (py_strip n) (py_strip name))) rest
      end
      && absent_once catalog rest
  end.

(** No attachment is of a product that a create can return, nor of the
    placeholder of a dry run. *)
Definition fresh_ids (start : FakeRemote.world) : bool :=
  List.forallb
    (fun a =>
       (DealProductAttachment.product_id a <? FakeRemote.next_id start)
       && negb (DealProductAttachment.product_id a =? 999999))
    (FakeRemote.attachments start).

Definition fake_listed (start : FakeRemote.world) (deal_id : Z)
    (a : DealProductAttachment.t) : Prop :=
  In a (FakeRemote.attachments start)
  /\ DealProductAttachment.deal_id a = deal_id.

(** The world of the real run holds what [start] holds, and products
    created since under names that are not searched any more. *)
Definition fake_R (start : FakeRemote.world) (names : list string)
    (dry real : FakeRemote.world) : Prop :=
  dry = start
  /\ absent_once (FakeRemote.catalog start) names = true
  /\ (exists created,
         FakeRemote.catalog real = FakeRemote.catalog start ++ created
         /\ Forall (fun n => List.find (named n) created = None) names)
  /\ FakeRemote.next_id start <= FakeRemote.next_id real
  /\ (forall a, In a (FakeRemote.attachments start) ->
        exists a',
          In a' (FakeRemote.attachments real)
          /\ DealProductAttachment.id a' = DealProductAttachment.id a
          /\ DealProductAttachment.deal_id a'
             = DealProductAttachment.deal_id a).

(** ** What a computation adds to the trace *)

Inductive call_kind : Type :=
| GetDeal | GetDealProducts | SearchProduct | CreateProduct | AttachProduct
| UpdateAttachment.

Definition kind_of (c : call) : call_kind :=
  match c with
  | Call_get_deal_by_id _ => GetDeal
  | Call_get_deal_products _ => GetDealProducts
  | Call_search_product_by_name _ _ => SearchProduct
  | Call_create_product _ _ _ _ => CreateProduct
  | Call_attach_product_to_deal _ _ _ _ _ => AttachProduct
  | Call_update_deal_product_attachment _ _ _ _ _ => UpdateAttachment
  end.

Definition is_kind (k k' : call_kind) : bool :=
  match k, k' with
  | GetDeal, GetDeal | GetDealProducts, GetDealProducts
  | SearchProduct, SearchProduct | CreateProduct, CreateProduct
  | AttachProduct, AttachProduct | UpdateAttachment, UpdateAttachment => true
  | _, _ => false
  end.

(** The two calls that write to a deal. *)
Definition writes_to_deal (k : call_kind) : bool :=
  match k with
  | AttachProduct | UpdateAttachment => true
  | _ => false
  end.

(** The number of calls of the selected kinds. *)
Definition count_calls (sel : call_kind -> bool) (l : list call) : nat :=
  List.length (List.filter (fun c => sel (kind_of c)) l).

(** Whatever the world and the trace so far, the computation appends to
    the trace a list of calls that satisfies [Q]. *)
Definition emits {W A} (Q : list call -> Prop) (m : M (W * list call) A)
    : Prop :=
  forall w tr, exists l, snd (snd (m (w, tr))) = tr ++ l /\ Q l.

Definition at_most {W A} (sel : call_kind -> bool) (n : nat)
    (m : M (W * list call) A) : Prop :=
  emits (fun l => (count_calls sel l <= n)%nat) m.

(** The most calls of the selected kinds that one company can cost. *)
Definition per_company (sel : call_kind -> bool) (config : Config.t)
    (dry_run : bool) : nat :=
  (Nat.b2n (sel SearchProduct)
   + (if Config.auto_create_products config && negb dry_run
      then Nat.b2n (sel CreateProduct) else 0)
   + (if dry_run then 0
      else Nat.max (Nat.b2n (sel AttachProduct))
             (match Config.duplicate_attachment_action config with
              | DuplicateAction.UPDATE => Nat.b2n (sel UpdateAttachment)
              | _ => 0
              end)))%nat.

(** The calls that processing [company] may issue, given the attachments
    [atts] fetched for the deal. *)
Definition company_call (config : Config.t) (company : AdditionalCompany.t)
    (deal_id : Z) (atts : list DealProductAttachment.t) (c : call) : Prop :=
  match c with
  | Call_get_deal_by_id _ | Call_get_deal_products _ => False
  | Call_search_product_by_name name exact_match =>
      name = _format_product_name config
               (AdditionalCompany.company_legal_name company)
      /\ exact_match = true
  | Call_create_product name code active visible_to =>
      Config.auto_create_products config = true
      /\ name = _format_product_name config
                  (AdditionalCompany.company_legal_name company)
      /\ code = None
      /\ active = Config.product_active_flag config
      /\ visible_to = Config.product_visible_to config
  | Call_attach_product_to_deal d product_id item_price quantity comments =>
      d = deal_id
      /\ (Config.duplicate_attachment_action config
          = DuplicateAction.FORCE_NEW
          \/ _find_existing_attachment product_id atts = None)
      /\ _calculate_quantity_and_price config
           (AdditionalCompany.w2_employee_count company)
         = Ret (quantity, item_price)
      /\ comments = Some ("AUTO_ATTACHED|company:"
                          +:+ AdditionalCompany.company_legal_name company)
  | Call_update_deal_product_attachment d attachment_id item_price quantity
      comments =>
      d = deal_id
      /\ Config.duplicate_attachment_action config = DuplicateAction.UPDATE
      /\ (exists a, In a atts /\ DealProductAttachment.id a = attachment_id)
      /\ (exists q p,
            _calculate_quantity_and_price config
              (AdditionalCompany.w2_employee_count company) = Ret (q, p)
            /\ (item_price = None \/ item_price = Some p)
            /\ (quantity = None \/ quantity = Some q))
      /\ comments = None
  end.

(** A field of the request body of a recorded call. *)
Definition body_field (c : call) (k : string) : option json :=
  match write_body c with
  | Some body => body !! k
  | None => None
  end.

(** What the bodies of the create and attach requests of a company hold. *)
Definition wire_body (config : Config.t) (company : AdditionalCompany.t)
    (c : call) : Prop :=
  match c with
  | Call_create_product _ _ _ _ =>
      (exists n t,
          body_field c "name" = Some (JStr n)
          /\ (String.length n <= 255)%nat
          /\ _format_product_name config
               (AdditionalCompany.company_legal_name company) = n +:+ t)
      /\ body_field c "code" = None
      /\ body_field c "active_flag"
         = Some (JBool (Config.product_active_flag config))
      /\ body_field c "visible_to"
         = Some (JInt (Config.product_visible_to config))
  | Call_attach_product_to_deal _ product_id item_price quantity _ =>
      body_field c "product_id" = Some (JInt product_id)
      /\ body_field c "item_price" = Some (JFloat item_price)
      /\ body_field c "quantity" = Some (JInt quantity)
      /\ body_field c "discount" = Some (JInt 0)
      /\ body_field c "duration" = Some (JInt 1)
      /\ body_field c "enabled_flag" = Some (JBool true)
      /\ body_field c "comments"
         = Some (JStr ("AUTO_ATTACHED|company:"
                       +:+ AdditionalCompany.company_legal_name company))
  | _ => True
  end.

(** ** Actions and outcomes, continued *)

(** The action names the company, and carries a message exactly when it
    is an error. *)
Definition about (company : AdditionalCompany.t) (a : ProductAction.t)
    : Prop :=
  ProductAction.company_name a = AdditionalCompany.company_legal_name company
  /\ ProductAction.w2_count a = AdditionalCompany.w2_employee_count company
  /\ (ProductAction.action_type a = ProductActionType.ERROR
      <-> ProductAction.error_message a <> None).

(** [a] is the first attachment of the list with the product. *)
Definition first_match (product_id : Z)
    (atts : list DealProductAttachment.t) (a : DealProductAttachment.t)
    : Prop :=
  exists before after,
    atts = before ++ a :: after
    /\ DealProductAttachment.product_id a = product_id
    /\ Forall (fun x => DealProductAttachment.product_id x <> product_id)
         before.

(** The statuses [link_submission] turns out to report. *)
Definition before_the_loop (status : LinkStatus.t) : Prop :=
  status = LinkStatus.NO_DEAL_ID \/ status = LinkStatus.NO_COMPANIES
  \/ status = LinkStatus.ORPHANED \/ status = LinkStatus.FAILED_ERROR.

(** The six counters of an outcome, added up. *)
Definition counters_sum (r : LinkResult.t) : Z :=
  LinkResult.products_created r + LinkResult.products_found r
  + LinkResult.attachments_created r + LinkResult.attachments_updated r
  + LinkResult.attachments_skipped r + LinkResult.errors r.

(** An outcome that some run of [link_submission] returns. *)
Definition outcome_of_link_submission (r : LinkResult.t) : Prop :=
  exists (W : Type) (cl : Client W) config submission dry_run w w',
    link_submission cl config submission dry_run w = (Ret r, w').

(** ** The gateway, continued *)

(** An answer that [raise_for_status] lets through. *)
Definition accepted (r : Response.t) : Prop :=
  http_error_status (Response.status_code r) = false.

(** A failure the gateway retries: an answer with a status from 400 to 599
    (429 among them), an answer whose body [response.json()] does not
    decode, or an exception of [requests]. *)
Definition retried (o : outcome) : Prop :=
  match o with
  | Responds r =>
      http_error_status (Response.status_code r) = true
      \/ exists message, Response.body r = inr message
  | Fails e => isinstance_RequestException e = true
  end.

(** One nap of [i + 1] seconds after each of the first [n] attempts. *)
Definition naps (n : nat) : list Z :=
  List.map (fun i => Z.of_nat i + 1) (seq 0 n).

(** The field [k] of a body is missing or false in the sense of [if not]. *)
Definition falsy_field (d : gmap string json) (k : string) (dflt : json)
    : Prop :=
  py_truthy (default dflt (d !! k)) = false.

(** ** Strings *)

Fixpoint string_forallb (p : ascii -> bool) (s : string) : bool :=
  match s with
  | EmptyString => true
  | String c s' => p c && string_forallb p s'
  end.

Definition no_leading (p : ascii -> bool) (s : string) : Prop :=
  forall c r, s = String c r -> p c = false.

Definition no_trailing (p : ascii -> bool) (s : string) : Prop :=
  forall r c, s = r +:+ String c EmptyString -> p c = false.

Definition is_dot (c : ascii) : bool := Ascii.eqb c "."%char.

(** ** Parsed companies and configuration issues *)

(** The name is not empty and has no whitespace around it. *)
Definition well_named (c : AdditionalCompany.t) : Prop :=
  AdditionalCompany.company_legal_name c <> EmptyString
  /\ py_strip (AdditionalCompany.company_legal_name c)
     = AdditionalCompany.company_legal_name c.

(** The company is what its dictionary [raw_data] says. *)
Definition parsed_from (int_of_str : string -> Z + string)
    (c : AdditionalCompany.t) : Prop :=
  (exists s,
      AdditionalCompany.raw_data c !! "companyLegalName" = Some (JStr s)
      /\ AdditionalCompany.company_legal_name c = py_strip s)
  /\ w2_count_of int_of_str (AdditionalCompany.raw_data c)
     = Ret (AdditionalCompany.w2_employee_count c).

Definition range_error : ConfigIssue.t :=
  ConfigIssue.mk "ERROR" "MAX_W2_COUNT must be greater than MIN_W2_COUNT".

(** [sum] on floats as a plain left fold from the integer 0. *)
Definition fold_sum (l : list float) : json :=
  match l with
  | [] => JInt 0
  | x :: rest => JFloat (List.fold_left PrimFloat.add rest (0 + x)%float)
  end.

(** ** The client's record of a call *)

(** An exception of the builtins. *)
Definition is_builtin (e : exn) : bool :=
  match e with
  | BuiltinError _ _ => true
  | _ => false
  end.

(** A computation that leaves the client's record as it is. *)
Definition stateless {A} (m : M PipedriveClient.state A) : Prop :=
  forall c, snd (m c) = c.

(** The calls of the client: between one and three requests, all the same,
    each counted, with a nap of 1s after the first and of 2s after the
    second when another follows. *)
Definition one_call {A} (rq : Request.t) (m : M PipedriveClient.state A)
    : Prop :=
  forall c,
  exists k,
    (1 <= k <= 3)%nat
    /\ snd (m c)
       = PipedriveClient.mkState
           (PipedriveClient.api_call_count c + Z.of_nat k)
           (PipedriveClient.sent c ++ repeat rq k)
           (PipedriveClient.slept c ++ naps (k - 1)).

(** * Properties *)

Ltac unfold_monad :=
  unfold bind, ret, raise, lift, try_except, try_excepts in *;
  cbn [fst snd] in *.

Lemma bind_raise {W A B} (m : M W A) (k : A -> M W B) w e w' :
  m w = (Raise e, w') -> bind m k w = (Raise e, w').
Proof. intros E. unfold bind. rewrite E. reflexivity. Qed.

Lemma bind_ret {W A B} (m : M W A) (k : A -> M W B) w a w' :
  m w = (Ret a, w') -> bind m k w = k a w'.
Proof. intros E. unfold bind. rewrite E. reflexivity. Qed.

(** ** Comparison of binary64 numbers *)

Lemma SFltb_asym x y : SFltb x y = true -> SFltb y x = false.
Proof.
  unfold SFltb.
  destruct x as [sx| sx | |sx mx ex], y as [sy|sy| |sy my ey]; cbn;
    try (destruct sx); try (destruct sy); cbn; try congruence.
  - rewrite (Z.compare_antisym ex ey).
    destruct (ex ?= ey) eqn:E; cbn; try congruence.
    change (Pos.compare_cont Eq mx my) with (Pos.compare mx my).
    change (Pos.compare_cont Eq my mx) with (Pos.compare my mx).
    rewrite (Pos.compare_antisym my mx).
    destruct (my ?= mx)%positive; cbn; congruence.
  - rewrite (Z.compare_antisym ex ey).
    destruct (ex ?= ey) eqn:E; cbn; try congruence.
    change (Pos.compare_cont Eq mx my) with (Pos.compare mx my).
    change (Pos.compare_cont Eq my mx) with (Pos.compare my mx).
    rewrite (Pos.compare_antisym my mx).
    destruct (my ?= mx)%positive; cbn; congruence.
Qed.

Lemma ltb_asym (x y : float) :
  (x <? y)%float = true -> (y <? x)%float = false.
Proof. rewrite !ltb_spec. apply SFltb_asym. Qed.

(** ** The kinds of action [_process_company] can report *)

Section LinkerFacts.
Context {W : Type}.
Variable cl : Client W.
Variable config : Config.t.

Lemma find_or_create_catalog_action name dry w p ca w' :
  _find_or_create_product cl config name dry w = (Ret (Some p, ca), w') ->
  ca = Some ProductActionType.FOUND_CATALOG
  \/ ca = Some ProductActionType.CREATED_CATALOG.
Proof.
  unfold _find_or_create_product. unfold_monad.
  destruct (search_product_by_name cl name true w) as [[[q|]|e] w1];
    try discriminate.
  - intros [= <- <- <-]. now left.
  - destruct (Config.auto_create_products config); try discriminate.
    destruct dry.
    + intros [= <- <- <-]. now right.
    + destruct (create_product cl name None _ _ w1) as [[q|e] w2].
      * intros [= <- <- <-]. now right.
      * destruct (isinstance_APIError e); discriminate.
Qed.

(** What the four steps of [_process_company] raise, a call of the client
    has raised. *)
Lemma find_or_create_product_raises name dry w e w' :
  _find_or_create_product cl config name dry w = (Raise e, w') ->
  company_call_raises cl e.
Proof.
  unfold _find_or_create_product, try_except, bind, ret.
  destruct (search_product_by_name cl name true w) as [[[q|]|e0] w1] eqn:S;
    try discriminate.
  - destruct (Config.auto_create_products config); try discriminate.
    destruct dry; try discriminate.
    destruct (create_product cl name None _ _ w1) as [[q|e0] w2] eqn:C;
      try discriminate.
    destruct (isinstance_APIError e0); try discriminate.
    intros [= <- <-]. right; left. eexists _, _, _, _, _, _. exact C.
  - intros [= <- <-]. left. eexists _, _, _, _. exact S.
Qed.

Lemma attach_new_product_raises company product quantity price deal_id dry
    w e w' :
  _attach_new_product cl company product quantity price deal_id dry w
  = (Raise e, w') ->
  company_call_raises cl e.
Proof.
  unfold _attach_new_product, try_except, bind, ret.
  destruct dry; [discriminate|].
  destruct (attach_product_to_deal cl deal_id _ price quantity _ w)
    as [[a|e0] w1] eqn:A; [discriminate|].
  destruct (isinstance_APIError e0); [discriminate|].
  intros [= <- <-]. right; right; left. eexists _, _, _, _, _, _, _.
  exact A.
Qed.

Lemma update_attachment_raises company product existing quantity price
    deal_id dry w e w' :
  _update_attachment cl config company product existing quantity price
    deal_id dry w = (Raise e, w') ->
  company_call_raises cl e.
Proof.
  unfold _update_attachment, try_except, bind, ret.
  destruct (update_selection config existing quantity price) as [[uq up]|];
    [|discriminate].
  destruct (negb uq && negb up); [discriminate|].
  destruct dry; [discriminate|].
  destruct (update_deal_product_attachment cl deal_id _ _ _ None w)
    as [[a|e0] w1] eqn:U; [discriminate|].
  destruct (isinstance_APIError e0); [discriminate|].
  intros [= <- <-]. right; right; right. eexists _, _, _, _, _, _, _.
  exact U.
Qed.

Lemma handle_duplicate_attachment_raises company product existing quantity
    price deal_id dry w e w' :
  _handle_duplicate_attachment cl config company product existing quantity
    price deal_id dry w = (Raise e, w') ->
  company_call_raises cl e.
Proof.
  unfold _handle_duplicate_attachment.
  destruct (quantity_matches existing quantity && price_matches existing price);
    [discriminate|].
  destruct (Config.duplicate_attachment_action config); try discriminate.
  - apply update_attachment_raises.
  - apply attach_new_product_raises.
Qed.

Lemma calculate_quantity_and_price_raises w2 e :
  _calculate_quantity_and_price config w2 = Raise e ->
  isinstance_Exception e = true.
Proof.
  unfold _calculate_quantity_and_price, py_float_of_int.
  destruct (Config.value_calculation_mode config); try discriminate.
  destruct (PrimFloat.eqb _ _); [|discriminate].
  intros [= <-]. reflexivity.
Qed.

(** [_process_company] returns an action whose kind is the catalog kind or
    [ERROR] (the kind the attachment step chose is overwritten whenever a
    product was found or created), or lets through what a call of the
    client raised that is not an [Exception]. *)
Lemma process_company_outcome company deal atts dry w :
  match _process_company cl config company deal atts dry w with
  | (Ret a, _) => catalog_or_error (ProductAction.action_type a)
  | (Raise e, _) =>
      isinstance_Exception e = false /\ company_call_raises cl e
  end.
Proof.
  unfold _process_company, try_except.
  match goal with |- context [match ?m w with _ => _ end] =>
    destruct (m w) as [[a|e] w1] eqn:E end.
  - revert E. unfold bind, ret, lift.
    destruct (truthy_message _).
    { intros [= <- <-]. right; right; reflexivity. }
    destruct (_find_or_create_product cl config _ dry w)
      as [[[po ca]|e] w2] eqn:F; try discriminate.
    destruct po as [p|].
    2: { intros [= <- <-]. right; right; reflexivity. }
    apply find_or_create_catalog_action in F.
    destruct (_calculate_quantity_and_price config _) as [[q pr]|e];
      try discriminate.
    match goal with |- context [match ?m w2 with _ => _ end] =>
      destruct (m w2) as [[b|e] w3] end; try discriminate.
    destruct F as [-> | ->]; cbn;
      destruct (ProductActionType.eqb (ProductAction.action_type b)
                  ProductActionType.ERROR) eqn:K;
      cbn; intros [= <- <-]; cbn.
    + right; right.
      destruct (ProductAction.action_type b); try discriminate; reflexivity.
    + now left.
    + right; right.
      destruct (ProductAction.action_type b); try discriminate; reflexivity.
    + right; now left.
  - destruct (isinstance_Exception e) eqn:K.
    { cbn. right; right; reflexivity. }
    split; [exact K|].
    revert E. unfold bind, ret, lift.
    destruct (truthy_message _); [discriminate|].
    destruct (_find_or_create_product cl config _ dry w)
      as [[[po ca]|e0] w2] eqn:F.
    2: { intros [= <- <-]. eapply find_or_create_product_raises; exact F. }
    destruct po as [p|]; [|discriminate].
    destruct (_calculate_quantity_and_price config _) as [[q pr]|e0] eqn:C.
    2: { intros [= <- <-].
         rewrite (calculate_quantity_and_price_raises _ _ C) in K.
         discriminate. }
    match goal with |- context [match ?m w2 with _ => _ end] =>
      destruct (m w2) as [[b|e0] w3] eqn:B end.
    + destruct ca as [k|]; [|discriminate].
      destruct (ProductActionType.truthy (Some k)
                && negb (ProductActionType.eqb (ProductAction.action_type b)
                           ProductActionType.ERROR)); discriminate.
    + intros [= <- <-].
      destruct (_find_existing_attachment (PipedriveProduct.id p) atts).
      * eapply handle_duplicate_attachment_raises; exact B.
      * eapply attach_new_product_raises; exact B.
Qed.

(** With a client that raises nothing but [Exception]s,
    [_process_company] always returns. *)
Lemma process_company_returns company deal atts dry w :
  raises_exceptions_only cl ->
  exists a w',
    _process_company cl config company deal atts dry w = (Ret a, w')
    /\ catalog_or_error (ProductAction.action_type a).
Proof.
  intros H.
  pose proof (process_company_outcome company deal atts dry w) as O.
  destruct (_process_company cl config company deal atts dry w)
    as [[a|e] w'].
  - exists a, w'. split; [reflexivity | exact O].
  - destruct O as [K C]. rewrite (H e C) in K. discriminate.
Qed.

Lemma catalog_or_error_not_attach_or_update k :
  catalog_or_error k -> ProductActionType.is_attach_or_update k = false.
Proof. intros [-> | [-> | ->]]; reflexivity. Qed.

(** One pass of the loop of [link_submission]. *)
Lemma process_companies_loop_step c rest deal atts dry actions total w a w1 :
  _process_company cl config c deal atts dry w = (Ret a, w1) ->
  catalog_or_error (ProductAction.action_type a) ->
  process_companies_loop cl config (c :: rest) deal atts dry actions total w
  = process_companies_loop cl config rest deal atts dry (actions ++ [a])
      total w1.
Proof.
  intros E K. cbn [process_companies_loop]. unfold bind at 1. rewrite E.
  rewrite (catalog_or_error_not_attach_or_update _ K). reflexivity.
Qed.

(** The loop returns one action per company and leaves [total_value] as
    it was, or lets through what [_process_company] lets through. *)
Lemma process_companies_loop_outcome companies deal atts dry :
  forall actions total w,
    match process_companies_loop cl config companies deal atts dry actions
            total w with
    | (Ret (l, t), _) =>
        exists actions',
          l = actions ++ actions' /\ t = total
          /\ List.length actions' = List.length companies
          /\ Forall (fun a => catalog_or_error (ProductAction.action_type a))
               actions'
    | (Raise e, _) =>
        isinstance_Exception e = false /\ company_call_raises cl e
    end.
Proof.
  induction companies as [|c rest IH]; intros actions total w.
  - cbn. exists []. rewrite app_nil_r. repeat split. constructor.
  - pose proof (process_company_outcome c deal atts dry w) as O.
    destruct (_process_company cl config c deal atts dry w)
      as [[a|e] w1] eqn:E.
    + rewrite (process_companies_loop_step c rest deal atts dry actions total
                 w a w1 E O).
      specialize (IH (actions ++ [a]) total w1).
      destruct (process_companies_loop cl config rest deal atts dry
                  (actions ++ [a]) total w1) as [[[l t]|e] w2];
        [|exact IH].
      destruct IH as (l' & -> & -> & L & F).
      exists (a :: l'). rewrite <- app_assoc. cbn.
      repeat split; [congruence | constructor; assumption].
    + cbn [process_companies_loop]. unfold bind at 1. rewrite E. exact O.
Qed.

Lemma process_companies_loop_returns companies deal atts dry :
  raises_exceptions_only cl ->
  forall actions total w,
  exists actions' w',
    process_companies_loop cl config companies deal atts dry actions total w
    = (Ret (actions ++ actions', total), w')
    /\ List.length actions' = List.length companies
    /\ Forall (fun a => catalog_or_error (ProductAction.action_type a))
         actions'.
Proof.
  intros H actions total w.
  pose proof (process_companies_loop_outcome companies deal atts dry actions
                total w) as O.
  destruct (process_companies_loop cl config companies deal atts dry actions
              total w) as [[[l t]|e] w'].
  - destruct O as (l' & -> & -> & L & F). exists l', w'.
    repeat split; assumption.
  - destruct O as [K C]. rewrite (H e C) in K. discriminate.
Qed.
End LinkerFacts.

(** ** Validation *)

Lemma validate_company_message_truthy config company msg :
  _validate_company config company = Some msg ->
  truthy_message (Some msg) = true.
Proof.
  unfold _validate_company.
  destruct (AdditionalCompany.w2_employee_count company) as [n|].
  - destruct ((n =? 0) && Config.skip_zero_w2 config);
      [intros [= <-]; reflexivity|].
    destruct ((0 <? Config.min_w2_count config)
              && (n <? Config.min_w2_count config));
      [intros [= <-]; reflexivity|].
    destruct ((0 <? Config.max_w2_count config)
              && (Config.max_w2_count config <? n));
      [intros [= <-]; reflexivity| discriminate].
  - destruct (Config.skip_missing_w2 config);
      [intros [= <-]; reflexivity | discriminate].
Qed.

Lemma validate_company_some_iff config company :
  _validate_company config company <> None
  <-> validation_fails config (AdditionalCompany.w2_employee_count company).
Proof.
  unfold _validate_company, validation_fails.
  destruct (AdditionalCompany.w2_employee_count company) as [n|].
  - destruct (Z.eqb_spec n 0) as [E|E];
      destruct (Config.skip_zero_w2 config) eqn:Z0;
      destruct (Z.ltb_spec 0 (Config.min_w2_count config));
      destruct (Z.ltb_spec n (Config.min_w2_count config));
      destruct (Z.ltb_spec 0 (Config.max_w2_count config));
      destruct (Z.ltb_spec (Config.max_w2_count config) n);
      cbn [andb];
      (split;
       [ intros Hs;
         first [ right; left; split; congruence
               | right; right; left; exists n; repeat split; lia
               | right; right; right; exists n; repeat split; lia
               | congruence ]
       | intros [[D _]|[[D Z1]|[(m & D & ? & ?)|(m & D & ? & ?)]]];
         first [ discriminate
               | injection D as D; subst; first [lia | congruence] ] ]).
  - destruct (Config.skip_missing_w2 config).
    + split; [intros _; left; split; reflexivity | discriminate].
    + split; [congruence|].
      intros [[_ ?]|[[? _]|[(m & ? & _)|(m & ? & _)]]]; discriminate.
Qed.

(** C8 (as amended): validation fails exactly when the W2 count is missing
    and skip-missing is set, or is zero and skip-zero is set, or is below a
    positive configured minimum, or is above a positive configured maximum
    (the guard on positivity applies to the minimum as it does to the
    maximum); when it fails, processing the company returns an error action
    carrying the message and makes no remote call at all. *)
Theorem validate_company_fails_iff (config : Config.t)
    (company : AdditionalCompany.t) :
  let w2 := AdditionalCompany.w2_employee_count company in
  (_validate_company config company <> None <-> validation_fails config w2)
  /\ (forall msg, _validate_company config company = Some msg ->
      forall W (cl : Client W) deal atts dry w tr,
        _process_company (traced cl) config company deal atts dry (w, tr)
        = (Ret (ProductAction.mk
                  (AdditionalCompany.company_legal_name company) w2
                  ProductActionType.ERROR None None None None None None
                  (Some msg)),
           (w, tr))).
Proof.
  cbn zeta. split.
  - apply validate_company_some_iff.
  - intros msg Hm W cl deal atts dry w tr.
    unfold _process_company, try_except.
    rewrite Hm, (validate_company_message_truthy _ _ _ Hm). reflexivity.
Qed.

(** A company without W2 count under the standard profile. *)
Lemma validate_company_fails_iff_witness :
  _validate_company Config._get_standard_profile (Scenario.company None)
  = Some "Missing W2 employee count"
  /\ _process_company (traced FakeRemote.client) Config._get_standard_profile
       (Scenario.company None) 7 [] false (Scenario.world_empty, [])
     = (Ret (ProductAction.mk "Acme Inc." None ProductActionType.ERROR None
               None None None None None (Some "Missing W2 employee count")),
        (Scenario.world_empty, [])).
Proof.
  split; [reflexivity|].
  exact (proj2 (validate_company_fails_iff Config._get_standard_profile
                  (Scenario.company None))
               "Missing W2 employee count" eq_refl _ FakeRemote.client 7 []
               false Scenario.world_empty []).
Defined.

(** C8, as stated, fails: a W2 count of -1 is below the configured minimum
    0 of the standard profile, and validation passes. *)
Lemma validate_company_negative_below_zero_minimum :
  let company := Scenario.company (Some (-1)) in
  AdditionalCompany.w2_employee_count company = Some (-1)
  /\ -1 < Config.min_w2_count Config._get_standard_profile
  /\ _validate_company Config._get_standard_profile company = None.
Proof. cbn. repeat split; lia. Qed.

(** ** The reported kind of a successful attach *)

(** C1: the scenario (W2 = 50, [W2_COUNT_TIMES_PRICE] at 2.0, quantity mode
    [W2_COUNT], no attachment on the deal) run on the code.  The attachment
    is created with quantity 50 and price 2.0, and 50 * 2.0 is 100.0; but
    the action [_process_company] returns has the catalog kind (found or
    created), not [ATTACHED_NEW], so it adds nothing to [total_value_added]
    and the submission ends as [FAILED_ERROR].  No client, configuration or
    company makes [_process_company] return [ATTACHED_NEW]: what it returns
    is an action of another kind, and what it raises is no [Exception] (a
    [KeyboardInterrupt], say, that a call of the client raised); with a
    client whose calls raise nothing but [Exception]s it does return an
    action, of another kind. *)
Theorem scenario_w2_50_reports_catalog_kind :
  (forall W (cl : Client W) config company deal_id atts dry_run w,
      match _process_company cl config company deal_id atts dry_run w with
      | (Ret a, _) =>
          ProductAction.action_type a <> ProductActionType.ATTACHED_NEW
      | (Raise e, _) => isinstance_Exception e = false
      end
      /\ (raises_exceptions_only cl ->
          exists a w',
            _process_company cl config company deal_id atts dry_run w
            = (Ret a, w')
            /\ ProductAction.action_type a <> ProductActionType.ATTACHED_NEW))
  /\ py_int_mul_float 50 2.0%float = Ret 100.0%float
  /\ Scenario.report
       (link_submission (traced FakeRemote.client) Scenario.config
          (Scenario.submission [Scenario.company (Some 50)]) false
          (Scenario.world_found [], []))
     = Some (LinkStatus.FAILED_ERROR, [ProductActionType.FOUND_CATALOG],
             [Some 50], [Some 2.0%float], 0%float,
             [Call_get_deal_by_id 7; Call_get_deal_products 7;
              Call_search_product_by_name "Acme Inc" true;
              Call_attach_product_to_deal 7 5 2.0%float 50
                (Some "AUTO_ATTACHED|company:Acme Inc.")])
  /\ Scenario.report
       (link_submission (traced FakeRemote.client) Scenario.config
          (Scenario.submission [Scenario.company (Some 50)]) false
          (Scenario.world_empty, []))
     = Some (LinkStatus.FAILED_ERROR, [ProductActionType.CREATED_CATALOG],
             [Some 50], [Some 2.0%float], 0%float,
             [Call_get_deal_by_id 7; Call_get_deal_products 7;
              Call_search_product_by_name "Acme Inc" true;
              Call_create_product "Acme Inc" None true 3;
              Call_attach_product_to_deal 7 100 2.0%float 50
                (Some "AUTO_ATTACHED|company:Acme Inc.")]).
Proof.
  split.
  - intros W cl config company deal_id atts dry_run w.
    pose proof (process_company_outcome cl config company deal_id atts
                  dry_run w) as O.
    destruct (_process_company cl config company deal_id atts dry_run w)
      as [[a|e] w'].
    + assert (Ha : ProductAction.action_type a
                   <> ProductActionType.ATTACHED_NEW)
        by (destruct O as [K | [K | K]]; rewrite K; discriminate).
      split; [exact Ha|]. intros _. exists a, w'.
      split; [reflexivity | exact Ha].
    + split; [exact (proj1 O)|]. intros H. destruct O as [K C].
      rewrite (H e C) in K. discriminate.
  - repeat split; vm_compute; reflexivity.
Qed.

(** ** Overall status *)

Lemma ProductActionType_eqb_eq a b :
  ProductActionType.eqb a b = true <-> a = b.
Proof. destruct a, b; cbn; split; congruence. Qed.

Lemma any_action_eqb actions k :
  any_action (fun x => ProductActionType.eqb x k) actions = true
  <-> has_kind actions k.
Proof.
  unfold any_action, has_kind. rewrite existsb_exists.
  split; intros (a & I & E); exists a; split; trivial;
    now apply ProductActionType_eqb_eq.
Qed.

Lemma any_action_success actions :
  any_action ProductActionType.is_attach_or_update actions = true
  <-> has_success actions.
Proof.
  unfold any_action, has_success, has_kind. rewrite existsb_exists. split.
  - intros (a & I & E). unfold ProductActionType.is_attach_or_update in E.
    destruct (ProductAction.action_type a) eqn:K; try discriminate;
      [left | right; left | right; right]; exists a; split; trivial.
  - intros [(a & I & E) | [(a & I & E) | (a & I & E)]];
      exists a; split; trivial; rewrite E; reflexivity.
Qed.

(** The status computed from any list of actions obeys the rule. *)
Lemma overall_status_rule actions :
  status_rule actions (overall_status actions).
Proof.
  unfold status_rule, overall_status.
  pose proof (any_action_success actions) as S.
  pose proof (any_action_eqb actions ProductActionType.ERROR) as E.
  pose proof (any_action_eqb actions ProductActionType.SKIPPED_EXISTS) as K.
  destruct (any_action ProductActionType.is_attach_or_update actions);
    destruct (any_action
                (fun k => ProductActionType.eqb k ProductActionType.ERROR)
                actions);
    destruct (any_action
                (fun k => ProductActionType.eqb k
                            ProductActionType.SKIPPED_EXISTS) actions);
    cbn; repeat split; intros; trivial;
    try (exfalso; intuition congruence).
Qed.

(** Each branch of the rule is taken by some list of actions. *)
Example overall_status_examples :
  let action k :=
    ProductAction.mk "Acme Inc." (Some 50) k None None None None None None
      None in
  overall_status [action ProductActionType.ERROR] = LinkStatus.FAILED_ERROR
  /\ overall_status [action ProductActionType.ERROR;
                     action ProductActionType.UPDATED_PRICE]
     = LinkStatus.SUCCESS
  /\ overall_status [action ProductActionType.SKIPPED_EXISTS;
                     action ProductActionType.FOUND_CATALOG]
     = LinkStatus.SKIPPED
  /\ overall_status [action ProductActionType.FOUND_CATALOG]
     = LinkStatus.FAILED_ERROR.
Proof. repeat split. Qed.

(** C2: the status of an outcome follows from its action list by the
    rule.  First, the status that the code computes from an action list,
    whatever the list, is the one the rule gives: an error and no
    successful attach or update gives "failed-error"; a successful attach
    or update gives "success", errors or not; failing both, a skip gives
    "skipped"; anything else "failed-error".  Second, when the deal exists
    and there is a company to process, the status of the outcome that
    [link_submission] returns is the status so computed from the actions of
    that outcome (also when the fetch of the attachments fails with an
    [APIError]: no action, "failed-error").  Third, [link_submission] does
    return an outcome then, provided the fetch raises nothing but
    [APIError] and the calls made for the companies raise nothing outside
    [Exception]. *)
Theorem link_submission_status :
  (forall actions, status_rule actions (overall_status actions))
  /\ (forall W (cl : Client W) config submission dry_run w w' deal_id deal
             w1 r,
        Submission.deal_id submission = Some deal_id ->
        _get_companies_to_process config submission <> [] ->
        get_deal_by_id cl deal_id w = (Ret (Some deal), w1) ->
        link_submission cl config submission dry_run w = (Ret r, w') ->
        LinkResult.status r = overall_status (LinkResult.actions r)
        /\ status_rule (LinkResult.actions r) (LinkResult.status r))
  /\ (forall W (cl : Client W) config submission dry_run w deal_id deal w1,
        Submission.deal_id submission = Some deal_id ->
        _get_companies_to_process config submission <> [] ->
        get_deal_by_id cl deal_id w = (Ret (Some deal), w1) ->
        (forall e w2, get_deal_products cl deal_id w1 = (Raise e, w2) ->
                      isinstance_APIError e = true) ->
        raises_exceptions_only cl ->
        exists r w',
          link_submission cl config submission dry_run w = (Ret r, w')).
Proof.
  split; [exact overall_status_rule|]. split.
  - intros W cl config submission dry_run w w' deal_id deal w1 r Hd Hc Hg.
    assert (G : link_submission cl config submission dry_run w = (Ret r, w')
                -> LinkResult.status r
                   = overall_status (LinkResult.actions r)).
    { unfold link_submission. rewrite Hd.
      destruct (_get_companies_to_process config submission) as [|c cs];
        [congruence|].
      unfold_monad. rewrite Hg.
      destruct (get_deal_products cl deal_id w1) as [[atts|e] w2].
      - destruct (process_companies_loop cl config (c :: cs) deal_id atts
                    dry_run [] 0%float w2) as [[[l t]|e] w3];
          [|discriminate].
        intros [= <- _]. reflexivity.
      - destruct (isinstance_APIError e); [|discriminate].
        intros [= <- _]. reflexivity. }
    intros H. split; [exact (G H)|]. rewrite (G H).
    apply overall_status_rule.
  - intros W cl config submission dry_run w deal_id deal w1 Hd Hc Hg Hp Hx.
    unfold link_submission. rewrite Hd.
    destruct (_get_companies_to_process config submission) as [|c cs] eqn:C;
      [congruence|].
    unfold_monad. rewrite Hg.
    destruct (get_deal_products cl deal_id w1) as [[atts|e] w2] eqn:P.
    + destruct (process_companies_loop_returns cl config (c :: cs) deal_id
                  atts dry_run Hx [] 0%float w2) as (l & w3 & E & _ & _).
      rewrite E. eexists _, _. reflexivity.
    + rewrite (Hp _ _ eq_refl). eexists _, _. reflexivity.
Qed.

(** One company, found in the catalog of the in-memory remote; and the rule
    on a list that holds an error and an update. *)
Lemma link_submission_status_witness :
  (exists r w',
      link_submission FakeRemote.client Scenario.config
        (Scenario.submission [Scenario.company (Some 50)]) false
        (Scenario.world_found []) = (Ret r, w')
      /\ LinkResult.status r = overall_status (LinkResult.actions r)
      /\ status_rule (LinkResult.actions r) (LinkResult.status r))
  /\ status_rule
       [error_action (Scenario.company None) None "Missing W2 employee count";
        skipped_action (Scenario.company (Some 50)) Scenario.acme_product
          (Scenario.attachment 11 50 2.0%float) 50 2.0%float;
        ProductAction.set_action_type ProductActionType.UPDATED_PRICE
          (skipped_action (Scenario.company (Some 50)) Scenario.acme_product
             (Scenario.attachment 11 50 2.0%float) 50 2.0%float)]
       LinkStatus.SUCCESS.
Proof.
  destruct link_submission_status as (Hrule & Hstatus & Hreturns).
  split.
  - destruct (Hreturns _ FakeRemote.client Scenario.config
                (Scenario.submission [Scenario.company (Some 50)]) false
                (Scenario.world_found []) 7 (FakeRemote.a_deal 7)
                (Scenario.world_found []))
      as (r & w' & E).
    + reflexivity.
    + discriminate.
    + reflexivity.
    + intros e w2 H. vm_compute in H. discriminate.
    + intros e [(n & x & w & w1 & H) | [(n & c & a & v & w & w1 & H)
                | [(d & p & ip & q & c & w & w1 & H)
                  | (d & a & ip & q & c & w & w1 & H)]]].
      * discriminate H.
      * discriminate H.
      * discriminate H.
      * cbn in H. unfold FakeRemote.fake_update_deal_product_attachment in H.
        destruct (List.find _ (FakeRemote.attachments w));
          [discriminate H|]. injection H as <- _. reflexivity.
    + exists r, w'. split; [exact E|].
      exact (Hstatus _ FakeRemote.client Scenario.config
               (Scenario.submission [Scenario.company (Some 50)]) false
               (Scenario.world_found []) w' 7 (FakeRemote.a_deal 7)
               (Scenario.world_found []) r eq_refl ltac:(discriminate)
               eq_refl E).
  - exact (Hrule _).
Defined.

(** ** The gateway: attempts, backoff and the call counter *)

Module Gateway.
Import PipedriveClient.

Section Attempts.
Variable session : list Request.t -> Request.t -> outcome.
Variable rq : Request.t.

Lemma attempt_once_rate_limited c r attempt max_retries :
  session (sent c) rq = Responds r ->
  Response.status_code r = 429 ->
  attempt_once session rq attempt max_retries c
  = if attempt <? max_retries - 1
    then (Ret Continue, after_attempt rq c [2 ^ attempt])
    else (Raise (RateLimitError "Rate limit exceeded after retries" (Some 429)),
          after_attempt rq c []).
Proof.
  intros Hs H429. unfold attempt_once, try_excepts, bind, count_call,
    session_request, sleep, ret, raise, after_attempt. cbn.
  rewrite Hs, H429. cbn.
  destruct (attempt <? max_retries - 1); cbn; rewrite ?app_nil_r; reflexivity.
Qed.

Lemma raise_for_status_accepted r :
  http_error_status (Response.status_code r) = false ->
  Response.raise_for_status r = Ret tt.
Proof.
  intros Hok. unfold Response.raise_for_status.
  unfold http_error_status in Hok.
  destruct (Z.leb_spec 400 (Response.status_code r));
    destruct (Z.ltb_spec (Response.status_code r) 500);
    destruct (Z.leb_spec 500 (Response.status_code r));
    destruct (Z.ltb_spec (Response.status_code r) 600);
    cbn in *; try discriminate; try lia; reflexivity.
Qed.

Lemma attempt_once_accepted c r body attempt max_retries :
  session (sent c) rq = Responds r ->
  Response.status_code r <> 429 ->
  http_error_status (Response.status_code r) = false ->
  Response.body r = inl body ->
  attempt_once session rq attempt max_retries c
  = (Ret (Return body), after_attempt rq c []).
Proof.
  intros Hs H429 Hok Hbody. unfold attempt_once, try_excepts, bind,
    count_call, session_request, sleep, ret, raise, lift, after_attempt. cbn.
  rewrite Hs. destruct (Z.eqb_spec (Response.status_code r) 429); [lia|].
  rewrite (raise_for_status_accepted r Hok). unfold Response.json.
  rewrite Hbody. cbn. rewrite app_nil_r. reflexivity.
Qed.

(** An answer with an accepted status whose body is not JSON is handled by
    the clause for [RequestException], as a refused connection is. *)
Lemma attempt_once_not_json c r message attempt max_retries :
  session (sent c) rq = Responds r ->
  http_error_status (Response.status_code r) = false ->
  Response.body r = inr message ->
  attempt_once session rq attempt max_retries c
  = if attempt <? max_retries - 1
    then (Ret Continue, after_attempt rq c [1 * (attempt + 1)])
    else (Raise (APIError ("Request failed: " +:+ message) None),
          after_attempt rq c []).
Proof.
  intros Hs Hok Hbody. unfold attempt_once, try_excepts, bind,
    count_call, session_request, sleep, ret, raise, lift, after_attempt. cbn.
  rewrite Hs.
  destruct (Z.eqb_spec (Response.status_code r) 429) as [E|_].
  { rewrite E in Hok. discriminate. }
  rewrite (raise_for_status_accepted r Hok). unfold Response.json.
  rewrite Hbody. cbn.
  destruct (attempt <? max_retries - 1); cbn; rewrite ?app_nil_r; reflexivity.
Qed.

(** An HTTP error status other than 429 is handled by the clause for
    [RequestException]: a sleep and another attempt, unless it was the
    last one. *)
Lemma attempt_once_http_error c r attempt max_retries :
  session (sent c) rq = Responds r ->
  Response.status_code r <> 429 ->
  http_error_status (Response.status_code r) = true ->
  exists msg,
    Response.raise_for_status r = Raise (HTTPError msg (Response.status_code r))
    /\ attempt_once session rq attempt max_retries c
       = if attempt <? max_retries - 1
         then (Ret Continue, after_attempt rq c [1 * (attempt + 1)])
         else (Raise (APIError ("Request failed: " +:+ msg) None),
               after_attempt rq c []).
Proof.
  intros Hs H429 Hbad. unfold attempt_once, try_excepts, bind, count_call,
    session_request, sleep, ret, raise, lift, after_attempt. cbn.
  rewrite Hs. destruct (Z.eqb_spec (Response.status_code r) 429); [lia|].
  unfold Response.raise_for_status. unfold http_error_status in Hbad.
  destruct (Z.leb_spec 400 (Response.status_code r));
    destruct (Z.ltb_spec (Response.status_code r) 500);
    destruct (Z.leb_spec 500 (Response.status_code r));
    destruct (Z.ltb_spec (Response.status_code r) 600);
    cbn in *; try discriminate; try lia;
    (eexists; split; [reflexivity|]);
    destruct (attempt <? max_retries - 1); cbn; rewrite ?app_nil_r; reflexivity.
Qed.

(** Every attempt counts once and sends one request, whatever comes back. *)
Lemma attempt_once_counts c attempt max_retries :
  exists naps,
    snd (attempt_once session rq attempt max_retries c) = after_attempt rq c naps.
Proof.
  unfold attempt_once, try_excepts, bind, count_call, session_request, sleep,
    ret, raise, lift, after_attempt. cbn.
  destruct (session (sent c) rq) as [r|e]; cbn.
  - destruct (Response.status_code r =? 429).
    + destruct (attempt <? max_retries - 1); cbn;
        [exists [2 ^ attempt] | exists []]; rewrite ?app_nil_r; reflexivity.
    + destruct (Response.raise_for_status r) as [[]|e]; cbn.
      * unfold Response.json. destruct (Response.body r) as [v|message]; cbn.
        -- exists []. rewrite app_nil_r. reflexivity.
        -- destruct (attempt <? max_retries - 1); cbn;
             first [ exists [1 * (attempt + 1)]; reflexivity
                   | exists []; rewrite app_nil_r; reflexivity ].
      * destruct (isinstance_Timeout e); [|destruct (isinstance_RequestException e)];
          cbn; try (destruct (attempt <? max_retries - 1); cbn);
          first [ exists [1 * (attempt + 1)]; reflexivity
                | exists []; rewrite app_nil_r; reflexivity ].
  - destruct (isinstance_Timeout e); [|destruct (isinstance_RequestException e)];
      cbn; try (destruct (attempt <? max_retries - 1); cbn);
      first [ exists [1 * (attempt + 1)]; reflexivity
            | exists []; rewrite app_nil_r; reflexivity ].
Qed.

Lemma attempts_counts remaining :
  forall c attempt max_retries,
  exists k naps,
    (k <= remaining)%nat
    /\ (remaining <> 0%nat -> k <> 0%nat)
    /\ snd (attempts session remaining rq attempt max_retries c)
       = mkState (api_call_count c + Z.of_nat k) (sent c ++ repeat rq k)
           (slept c ++ naps).
Proof.
  induction remaining as [|n IH]; intros c attempt max_retries; cbn.
  - exists 0%nat, []. cbn. rewrite Z.add_0_r, !app_nil_r.
    destruct c; repeat split; try lia; reflexivity.
  - unfold bind at 1.
    destruct (attempt_once_counts c attempt max_retries) as (naps & E).
    destruct (attempt_once session rq attempt max_retries c) as [[[|v]|e] c1];
      cbn in E; subst c1.
    + destruct (IH (after_attempt rq c naps) (attempt + 1) max_retries)
        as (k & naps' & Hk & _ & E).
      exists (S k), (naps ++ naps'). rewrite E. cbn [after_attempt api_call_count sent slept].
      repeat split; try lia.
      f_equal; [lia | rewrite <- app_assoc; reflexivity | rewrite <- app_assoc; reflexivity].
    + exists 1%nat, naps. repeat split; try lia. 
    + exists 1%nat, naps. repeat split; try lia. 
Qed.

Lemma attempts_rate_limited_step c r remaining attempt max_retries :
  session (sent c) rq = Responds r ->
  Response.status_code r = 429 ->
  (attempt <? max_retries - 1) = true ->
  attempts session (S remaining) rq attempt max_retries c
  = attempts session remaining rq (attempt + 1) max_retries
      (after_attempt rq c [2 ^ attempt]).
Proof.
  intros Hs H429 Hlt. cbn [attempts]. unfold bind at 1.
  rewrite (attempt_once_rate_limited c r attempt max_retries Hs H429), Hlt.
  reflexivity.
Qed.

Lemma attempts_rate_limited_last c r remaining attempt max_retries :
  session (sent c) rq = Responds r ->
  Response.status_code r = 429 ->
  (attempt <? max_retries - 1) = false ->
  attempts session (S remaining) rq attempt max_retries c
  = (Raise (RateLimitError "Rate limit exceeded after retries" (Some 429)),
     after_attempt rq c []).
Proof.
  intros Hs H429 Hlt. cbn [attempts]. unfold bind at 1.
  rewrite (attempt_once_rate_limited c r attempt max_retries Hs H429), Hlt.
  reflexivity.
Qed.

Lemma attempts_accepted c r body remaining attempt max_retries :
  session (sent c) rq = Responds r ->
  Response.status_code r <> 429 ->
  http_error_status (Response.status_code r) = false ->
  Response.body r = inl body ->
  attempts session (S remaining) rq attempt max_retries c
  = (Ret body, after_attempt rq c []).
Proof.
  intros Hs H429 Hok Hbody. cbn [attempts]. unfold bind at 1.
  rewrite (attempt_once_accepted c r body attempt max_retries Hs H429 Hok
             Hbody).
  reflexivity.
Qed.

Lemma after_attempt_twice c naps naps' :
  after_attempt rq (after_attempt rq c naps) naps'
  = mkState (api_call_count c + 2) (sent c ++ [rq; rq])
      (slept c ++ naps ++ naps').
Proof.
  unfold after_attempt. cbn. rewrite <- !app_assoc. f_equal. lia.
Qed.

Lemma attempts_rate_limited_then_accepted c r body :
  forall n, (n <= 2)%nat ->
  (forall i, (i < n)%nat -> rate_limited session rq c i) ->
  answer_to session rq c n = Responds r ->
  Response.status_code r <> 429 ->
  http_error_status (Response.status_code r) = false ->
  Response.body r = inl body ->
  attempts session 3 rq 0 3 c
  = (Ret body,
     mkState (api_call_count c + Z.of_nat (S n)) (sent c ++ repeat rq (S n))
       (slept c ++ List.map (fun i => 2 ^ Z.of_nat i) (seq 0 n))).
Proof.
  intros n Hn Hlim Hr H429 Hok Hbody. unfold answer_to in Hr.
  assert (H0 : sent c ++ repeat rq 0 = sent c) by apply app_nil_r.
  destruct n as [|[|[|n]]]; try lia.
  - rewrite H0 in Hr.
    rewrite (attempts_accepted c r body _ _ _ Hr H429 Hok Hbody).
    unfold after_attempt. reflexivity.
  - destruct (Hlim 0%nat ltac:(lia)) as (r0 & A0 & S0). unfold answer_to in A0.
    rewrite H0 in A0.
    rewrite (attempts_rate_limited_step c r0 _ 0 3 A0 S0 eq_refl).
    rewrite (attempts_accepted (after_attempt rq c [2 ^ 0]) r body _ _ _ Hr
               H429 Hok Hbody).
    rewrite after_attempt_twice. reflexivity.
  - destruct (Hlim 0%nat ltac:(lia)) as (r0 & A0 & S0). unfold answer_to in A0.
    rewrite H0 in A0.
    destruct (Hlim 1%nat ltac:(lia)) as (r1 & A1 & S1). unfold answer_to in A1.
    rewrite (attempts_rate_limited_step c r0 _ 0 3 A0 S0 eq_refl).
    rewrite (attempts_rate_limited_step (after_attempt rq c [2 ^ 0]) r1 _ (0 + 1) 3
               A1 S1 eq_refl).
    rewrite after_attempt_twice.
    rewrite (attempts_accepted
               (mkState (api_call_count c + 2) (sent c ++ [rq; rq])
                  (slept c ++ [2 ^ 0] ++ [2 ^ (0 + 1)]))
               r body _ _ _ Hr H429 Hok Hbody).
    unfold after_attempt. cbn. rewrite <- !app_assoc. f_equal. f_equal. lia.
Qed.

Lemma attempts_rate_limited_thrice c :
  (forall i, (i < 3)%nat -> rate_limited session rq c i) ->
  attempts session 3 rq 0 3 c
  = (Raise (RateLimitError "Rate limit exceeded after retries" (Some 429)),
     mkState (api_call_count c + 3) (sent c ++ [rq; rq; rq])
       (slept c ++ [1; 2])).
Proof.
  intros Hlim.
  assert (H0 : sent c ++ repeat rq 0 = sent c) by apply app_nil_r.
  destruct (Hlim 0%nat ltac:(lia)) as (r0 & A0 & S0). unfold answer_to in A0.
  rewrite H0 in A0.
  destruct (Hlim 1%nat ltac:(lia)) as (r1 & A1 & S1). unfold answer_to in A1.
  destruct (Hlim 2%nat ltac:(lia)) as (r2 & A2 & S2). unfold answer_to in A2.
  rewrite (attempts_rate_limited_step c r0 _ 0 3 A0 S0 eq_refl).
  rewrite (attempts_rate_limited_step (after_attempt rq c [2 ^ 0]) r1 _ (0 + 1) 3
             A1 S1 eq_refl).
  rewrite after_attempt_twice.
  rewrite (attempts_rate_limited_last
             (mkState (api_call_count c + 2) (sent c ++ [rq; rq])
                (slept c ++ [2 ^ 0] ++ [2 ^ (0 + 1)]))
             r2 0%nat (0 + 1 + 1) 3 A2 S2 eq_refl).
  unfold after_attempt. cbn. rewrite <- !app_assoc. f_equal. f_equal. lia.
Qed.
End Attempts.

(** C7 (as amended): a call makes between one and three attempts, and the
    call counter moves by one for each attempt, failed ones included.  A 429
    on attempt 0 or 1 is followed by a sleep of 1s or 2s (two to the power
    of the attempt) and another attempt; a 429 followed, within the three
    attempts, by an accepted response whose body decodes returns the
    decoded body of that response; a 429 on each of the three attempts
    raises the rate-limit failure right after the third, without a third
    sleep. *)
Theorem make_request_rate_limit (config : Config.t)
    (session : list Request.t -> Request.t -> outcome)
    (method endpoint : string) (params json_data : option (gmap string json))
    (c : state) :
  let rq := request_of config method endpoint params json_data in
  let run := _make_request config session method endpoint params json_data 3 c in
  (exists k naps,
      (1 <= k <= 3)%nat
      /\ snd run = mkState (api_call_count c + Z.of_nat k)
                     (sent c ++ repeat rq k) (slept c ++ naps))
  /\ (forall n r body,
        (n <= 2)%nat ->
        (forall i, (i < n)%nat -> rate_limited session rq c i) ->
        answer_to session rq c n = Responds r ->
        Response.status_code r <> 429 ->
        http_error_status (Response.status_code r) = false ->
        Response.body r = inl body ->
        run = (Ret body,
               mkState (api_call_count c + Z.of_nat (S n))
                 (sent c ++ repeat rq (S n))
                 (slept c ++ List.map (fun i => 2 ^ Z.of_nat i) (seq 0 n))))
  /\ ((forall i, (i < 3)%nat -> rate_limited session rq c i) ->
      run = (Raise (RateLimitError "Rate limit exceeded after retries"
                      (Some 429)),
             mkState (api_call_count c + 3) (sent c ++ [rq; rq; rq])
               (slept c ++ [1; 2]))).
Proof.
  cbn zeta. unfold _make_request. fold (request_of config method endpoint params json_data).
  change (Z.to_nat 3) with 3%nat.
  repeat split.
  - destruct (attempts_counts session
                (request_of config method endpoint params json_data) 3 c 0 3)
      as (k & naps & Hk & Hk0 & E).
    exists k, naps. split; [|exact E]. split; [|exact Hk].
    specialize (Hk0 ltac:(discriminate)). lia.
  - intros n r body. apply attempts_rate_limited_then_accepted.
  - apply attempts_rate_limited_thrice.
Qed.

(** One 429, then 200. *)
Lemma make_request_rate_limit_witness :
  _make_request (Scenario.gateway_config true)
    (Scenario.scripted [Scenario.response 429 "Too Many Requests" JNull;
                        Scenario.response 200 "OK" Scenario.ok_body])
    "GET" "deals/7" None None 3 Scenario.fresh_client
  = (Ret Scenario.ok_body,
     mkState 2 [Scenario.deal_request; Scenario.deal_request] [1]).
Proof.
  apply (proj1 (proj2 (make_request_rate_limit (Scenario.gateway_config true)
                         (Scenario.scripted
                            [Scenario.response 429 "Too Many Requests" JNull;
                             Scenario.response 200 "OK" Scenario.ok_body])
                         "GET" "deals/7" None None Scenario.fresh_client))
           1%nat
           (Response.mk 200 "OK" "https://acme.pipedrive.com/api/v1/deals/7"
              (inl Scenario.ok_body))
           Scenario.ok_body).
  - lia.
  - intros i Hi. assert (i = 0%nat) as -> by lia.
    eexists. split; reflexivity.
  - reflexivity.
  - discriminate.
  - reflexivity.
  - reflexivity.
Defined.

(** C7, as stated, fails: on three 429 answers the sleeps are 1s and 2s;
    attempt 2 raises and no sleep of 4s takes place. *)
Lemma rate_limited_thrice_sleeps_twice :
  let run :=
    _make_request (Scenario.gateway_config true)
      (Scenario.scripted [Scenario.response 429 "Too Many Requests" JNull;
                          Scenario.response 429 "Too Many Requests" JNull;
                          Scenario.response 429 "Too Many Requests" JNull])
      "GET" "deals/7" None None 3 Scenario.fresh_client in
  fst run = Raise (RateLimitError "Rate limit exceeded after retries" (Some 429))
  /\ api_call_count (snd run) = 3
  /\ slept (snd run) = [1; 2]
  /\ slept (snd run) <> [1; 2; 4].
Proof. vm_compute. repeat split; discriminate. Qed.

(** C4: the code on a status the specification calls non-retryable.  Whatever
    the remote end and the request, an attempt answered by a 4xx other than
    429 or by a 5xx and that is not the last one ends in a sleep of
    [attempt + 1] seconds and goes on to the next attempt.  Three answers
    500: the gateway makes all three attempts, sleeps 1s and 2s in between,
    and raises [APIError "Request failed: ..."] only then.  A 404 followed
    by a 200: the call is retried and returns the second body. *)
Theorem http_error_status_is_retried :
  (forall session rq c r attempt max_retries,
      session (sent c) rq = Responds r ->
      Response.status_code r <> 429 ->
      http_error_status (Response.status_code r) = true ->
      (attempt <? max_retries - 1) = true ->
      attempt_once session rq attempt max_retries c
      = (Ret Continue, after_attempt rq c [1 * (attempt + 1)]))
  /\ _make_request (Scenario.gateway_config true)
       (Scenario.scripted
          [Scenario.response 500 "Internal Server Error" JNull;
           Scenario.response 500 "Internal Server Error" JNull;
           Scenario.response 500 "Internal Server Error" JNull])
       "GET" "deals/7" None None 3 Scenario.fresh_client
     = (Raise (APIError
                 "Request failed: 500 Server Error: Internal Server Error for url: https://acme.pipedrive.com/api/v1/deals/7"
                 None),
        mkState 3
          [Scenario.deal_request; Scenario.deal_request;
           Scenario.deal_request]
          [1; 2])
  /\ _make_request (Scenario.gateway_config true)
       (Scenario.scripted
          [Scenario.response 404 "Not Found" JNull;
           Scenario.response 200 "OK" Scenario.ok_body])
       "GET" "deals/7" None None 3 Scenario.fresh_client
     = (Ret Scenario.ok_body,
        mkState 2 [Scenario.deal_request; Scenario.deal_request] [1]).
Proof.
  split.
  - intros session rq c r attempt max_retries Hs H429 Hbad Hlt.
    destruct (attempt_once_http_error session rq c r attempt max_retries
                Hs H429 Hbad) as (msg & _ & E).
    rewrite E, Hlt. reflexivity.
  - split; vm_compute; reflexivity.
Qed.

(** C5: the code on a deal lookup answered by 404.  [_make_request] has
    already turned the [HTTPError] into an [APIError] after three attempts,
    so the clause of [get_deal_by_id] that returns [None] on 404 is never
    reached: the lookup raises, and [link_submission] reports
    [FAILED_ERROR], whatever the skip-orphans policy. *)
Theorem deal_lookup_404_is_reported_as_failure
    (rest : Client state) (skip_orphaned_deals dry_run : bool) :
  let config := Scenario.gateway_config skip_orphaned_deals in
  let session :=
    Scenario.scripted [Scenario.response 404 "Not Found" JNull;
                       Scenario.response 404 "Not Found" JNull;
                       Scenario.response 404 "Not Found" JNull] in
  let after :=
    mkState 3
      [Scenario.deal_request; Scenario.deal_request; Scenario.deal_request]
      [1; 2] in
  let message :=
    "Request failed: 404 Client Error: Not Found for url: https://acme.pipedrive.com/api/v1/deals/7" in
  get_deal_by_id config session 7 Scenario.fresh_client
  = (Raise (APIError message None), after)
  /\ link_submission
       (with_get_deal_by_id (get_deal_by_id config session) rest) config
       (Scenario.submission [Scenario.company (Some 50)]) dry_run
       Scenario.fresh_client
     = (Ret (LinkResult.mk "s1" (Some 7) LinkStatus.FAILED_ERROR 0 [] 0%float
               (Some ("Failed to verify deal: " +:+ message))),
        after).
Proof.
  destruct skip_orphaned_deals; split; vm_compute; reflexivity.
Qed.
End Gateway.

(** ** The duplicate check and the change handler *)

Lemma price_matches_not_changed existing price :
  price_matches existing price = true -> price_changed existing price = false.
Proof. apply ltb_asym. Qed.

Lemma price_changed_not_matches existing price :
  price_changed existing price = true -> price_matches existing price = false.
Proof. apply ltb_asym. Qed.

Lemma quantity_changed_matches existing quantity :
  quantity_changed existing quantity = negb (quantity_matches existing quantity).
Proof. reflexivity. Qed.

Section HandlerFacts.
Context {W : Type}.
Variable cl : Client W.
Variable config : Config.t.
Variable company : AdditionalCompany.t.
Variable product : PipedriveProduct.t.
Variable existing : DealProductAttachment.t.
Variable quantity : Z.
Variable price : float.
Variable deal_id : Z.

(** An exact match is skipped without any call, under every policy. *)
Lemma handle_duplicate_match dry_run (w : W) :
  quantity_matches existing quantity = true ->
  price_matches existing price = true ->
  _handle_duplicate_attachment cl config company product existing quantity
    price deal_id dry_run w
  = (Ret (skipped_action company product existing quantity price), w).
Proof.
  intros Hq Hp. unfold _handle_duplicate_attachment. rewrite Hq, Hp.
  reflexivity.
Qed.

(** When nothing the change policy selects has changed, no call is made. *)
Lemma update_attachment_nothing_selected dry_run (w : W) :
  match update_selection config existing quantity price with
  | Some (uq, up) => uq || up = false
  | None => True
  end ->
  _update_attachment cl config company product existing quantity price
    deal_id dry_run w
  = (Ret (skipped_action company product existing quantity price), w).
Proof.
  unfold _update_attachment.
  destruct (update_selection config existing quantity price) as [[uq up]|];
    [|reflexivity].
  intros H. apply orb_false_elim in H as [-> ->]. reflexivity.
Qed.

Lemma update_attachment_real_run uq up (w : W) (tr : list call) :
  update_selection config existing quantity price = Some (uq, up) ->
  uq || up = true ->
  _update_attachment (traced cl) config company product existing quantity
    price deal_id false (w, tr)
  = match update_deal_product_attachment cl deal_id
            (DealProductAttachment.id existing)
            (if up then Some price else None)
            (if uq then Some quantity else None) None w with
    | (Ret updated, w') =>
        (Ret (updated_action company product existing uq up updated), (w', tr ++ [update_call existing quantity price deal_id uq up]))
    | (Raise e, w') =>
        if isinstance_APIError e
        then (Ret (error_action company (Some (PipedriveProduct.id product))
                     ("Failed to update attachment: " +:+ str_exn e)),
              (w', tr ++ [update_call existing quantity price deal_id uq up]))
        else (Raise e, (w', tr ++ [update_call existing quantity price deal_id uq up]))
    end.
Proof.
  intros Hsel Hsome. unfold _update_attachment. rewrite Hsel.
  assert (negb uq && negb up = false) as ->
    by (destruct uq, up; try reflexivity; discriminate).
  unfold try_except, bind, ret, traced, traced_op, update_call. cbn.
  destruct (update_deal_product_attachment cl deal_id _ _ _ None w)
    as [[updated|e] w']; cbn.
  - unfold updated_action, updated_action_type. destruct uq, up; reflexivity.
  - destruct (isinstance_APIError e); reflexivity.
Qed.

Lemma update_selection_mismatch uq up :
  update_selection config existing quantity price = Some (uq, up) ->
  uq || up = true ->
  quantity_matches existing quantity && price_matches existing price = false.
Proof.
  unfold update_selection. intros Hsel Hsome.
  assert (quantity_changed existing quantity = true
          \/ price_changed existing price = true) as [Hq | Hp].
  { destruct (Config.w2_change_action config); try discriminate;
      injection Hsel as <- <-;
      rewrite ?orb_false_r, ?orb_false_l in Hsome; auto.
    apply orb_true_iff in Hsome. exact Hsome. }
  - rewrite quantity_changed_matches in Hq.
    destruct (quantity_matches existing quantity); [discriminate|reflexivity].
  - rewrite (price_changed_not_matches _ _ Hp). apply andb_false_r.
Qed.
End HandlerFacts.

(** The selection of the code is the one of the change policy. *)
Lemma update_selection_policy config existing quantity price :
  update_selection config existing quantity price
  = match Config.w2_change_action config with
    | W2ChangeAction.SKIP => None
    | change =>
        Some (selects_quantity change
              && negb (DealProductAttachment.quantity existing =? quantity),
              selects_price change
              && PrimFloat.ltb price_tolerance
                   (PrimFloat.abs
                      (DealProductAttachment.item_price existing - price)))
    end.
Proof.
  unfold update_selection. destruct (Config.w2_change_action config);
    reflexivity.
Qed.

Lemma update_data_fields (price : float) (quantity : Z) (uq up : bool) :
  let body :=
    PipedriveClient.update_data (if up then Some price else None)
      (if uq then Some quantity else None) None in
  body !! "quantity" = (if uq then Some (JInt quantity) else None)
  /\ body !! "item_price" = (if up then Some (JFloat price) else None)
  /\ forall k, k <> "quantity" -> k <> "item_price" -> body !! k = None.
Proof.
  cbn zeta. unfold PipedriveClient.update_data.
  destruct uq, up; cbn; repeat split; try reflexivity; intros k Hq Hp;
    rewrite ?lookup_insert_ne by congruence; apply lookup_empty.
Qed.

(** C6: under duplicate policy [UPDATE], in a real run.  Let the selected
    fields be those of the change policy (the quantity under
    update-quantity-only and update-both, the price under update-price-only
    and update-both, none under skip), and let a field differ when the
    quantities are not equal, or the prices more than 0.01 apart.  First
    part: when no selected field differs the handler makes no call and
    reports "skipped-exists"; when at least one does, it makes exactly one
    call, an update, whose body holds the computed quantity exactly when
    the quantity is selected and differs, the computed price exactly when
    the price is selected and differs, and nothing else; when that call
    succeeds the result is "updated-quantity" if the quantity was sent and
    "updated-price" otherwise.  Second part: under update-both with both
    fields differing, that one call carries both.  Third part, the
    scenario: existing quantity 10 at price 5.0, computed 12 at 5.0, change
    policy update-quantity-only, the remote answering with the price it
    holds: one update call with quantity 12 and no price, result
    "updated-quantity", old and new price both 5.0. *)
Theorem update_policy_issues_one_partial_update :
  (forall W (cl : Client W) config company product existing quantity price
          deal_id w tr,
      Config.duplicate_attachment_action config = DuplicateAction.UPDATE ->
      let change := Config.w2_change_action config in
      let uq :=
        selects_quantity change
        && negb (DealProductAttachment.quantity existing =? quantity) in
      let up :=
        selects_price change
        && PrimFloat.ltb price_tolerance
             (PrimFloat.abs
                (DealProductAttachment.item_price existing - price)) in
      let call :=
        Call_update_deal_product_attachment deal_id
          (DealProductAttachment.id existing)
          (if up then Some price else None)
          (if uq then Some quantity else None) None in
      let run :=
        _handle_duplicate_attachment (traced cl) config company product
          existing quantity price deal_id false (w, tr) in
      (uq || up = false ->
       run = (Ret (skipped_action company product existing quantity price),
              (w, tr)))
      /\ (uq || up = true ->
          snd (snd run) = tr ++ [call]
          /\ (exists body,
                 update_body call = Some body
                 /\ body !! "quantity"
                    = (if uq then Some (JInt quantity) else None)
                 /\ body !! "item_price"
                    = (if up then Some (JFloat price) else None)
                 /\ forall k, k <> "quantity" -> k <> "item_price" ->
                              body !! k = None)
          /\ (forall updated w',
                 update_deal_product_attachment cl deal_id
                   (DealProductAttachment.id existing)
                   (if up then Some price else None)
                   (if uq then Some quantity else None) None w
                 = (Ret updated, w') ->
                 run = (Ret (updated_action company product existing uq up
                               updated),
                        (w', tr ++ [call])))))
  /\ (forall W (cl : Client W) config company product existing quantity price
             deal_id w tr,
        Config.duplicate_attachment_action config = DuplicateAction.UPDATE ->
        Config.w2_change_action config = W2ChangeAction.UPDATE_BOTH ->
        DealProductAttachment.quantity existing <> quantity ->
        PrimFloat.ltb price_tolerance
          (PrimFloat.abs (DealProductAttachment.item_price existing - price))
        = true ->
        snd (snd (_handle_duplicate_attachment (traced cl) config company
                    product existing quantity price deal_id false (w, tr)))
        = tr ++ [Call_update_deal_product_attachment deal_id
                   (DealProductAttachment.id existing) (Some price)
                   (Some quantity) None])
  /\ (forall W (cl : Client W) config company product existing deal_id w tr
             updated w',
        Config.duplicate_attachment_action config = DuplicateAction.UPDATE ->
        Config.w2_change_action config = W2ChangeAction.UPDATE_QUANTITY ->
        DealProductAttachment.quantity existing = 10 ->
        DealProductAttachment.item_price existing = 5.0%float ->
        update_deal_product_attachment cl deal_id
          (DealProductAttachment.id existing) None (Some 12) None w
        = (Ret updated, w') ->
        DealProductAttachment.item_price updated = 5.0%float ->
        exists a,
          _handle_duplicate_attachment (traced cl) config company product
            existing 12 5.0%float deal_id false (w, tr)
          = (Ret a,
             (w', tr ++ [Call_update_deal_product_attachment deal_id
                           (DealProductAttachment.id existing) None (Some 12)
                           None]))
          /\ ProductAction.action_type a = ProductActionType.UPDATED_QUANTITY
          /\ ProductAction.old_price a = Some 5.0%float
          /\ ProductAction.new_price a = Some 5.0%float).
Proof.
  assert (G : forall W (cl : Client W) config company product existing
                     quantity price deal_id w tr,
             Config.duplicate_attachment_action config = DuplicateAction.UPDATE ->
             let change := Config.w2_change_action config in
             let uq :=
               selects_quantity change
               && negb (DealProductAttachment.quantity existing =? quantity) in
             let up :=
               selects_price change
               && PrimFloat.ltb price_tolerance
                    (PrimFloat.abs
                       (DealProductAttachment.item_price existing - price)) in
             uq || up = true ->
             update_selection config existing quantity price = Some (uq, up)
             /\ _handle_duplicate_attachment (traced cl) config company
                  product existing quantity price deal_id false (w, tr)
                = _update_attachment (traced cl) config company product
                    existing quantity price deal_id false (w, tr)).
  { intros W cl config company product existing quantity price deal_id w tr
      Hdup change uq up Hsome.
    assert (Hsel : update_selection config existing quantity price
                   = Some (uq, up)).
    { rewrite update_selection_policy. subst uq up change.
      destruct (Config.w2_change_action config); try reflexivity.
      discriminate Hsome. }
    split; [exact Hsel|].
    unfold _handle_duplicate_attachment.
    rewrite (update_selection_mismatch config existing quantity price uq up
               Hsel Hsome), Hdup. reflexivity. }
  split; [|split].
  - intros W cl config company product existing quantity price deal_id w tr
      Hdup change uq up call run. split.
    + intros Hnone. subst run. unfold _handle_duplicate_attachment.
      destruct (quantity_matches existing quantity
                && price_matches existing price); [reflexivity|].
      rewrite Hdup. apply update_attachment_nothing_selected.
      rewrite update_selection_policy. fold change.
      destruct change; trivial; exact Hnone.
    + intros Hsome.
      destruct (G _ cl config company product existing quantity price
                  deal_id w tr Hdup Hsome) as [Hsel Hrun].
      subst run. rewrite Hrun.
      rewrite (update_attachment_real_run cl config company product existing
                 quantity price deal_id uq up w tr Hsel Hsome).
      fold call. change (update_call existing quantity price deal_id uq up)
        with call.
      split; [|split].
      * destruct (update_deal_product_attachment cl deal_id _ _ _ None w)
          as [[updated|e] w1]; [reflexivity|].
        destruct (isinstance_APIError e); reflexivity.
      * eexists. split; [reflexivity|].
        apply (update_data_fields price quantity uq up).
      * intros updated w' ->. reflexivity.
  - intros W cl config company product existing quantity price deal_id w tr
      Hdup Hchange Hq Hp.
    assert (Hsome : selects_quantity (Config.w2_change_action config)
                    && negb (DealProductAttachment.quantity existing
                             =? quantity)
                    || selects_price (Config.w2_change_action config)
                       && PrimFloat.ltb price_tolerance
                            (PrimFloat.abs
                               (DealProductAttachment.item_price existing
                                - price)) = true).
    { rewrite Hchange, Hp. cbn. apply orb_true_r. }
    destruct (G _ cl config company product existing quantity price deal_id
                w tr Hdup Hsome) as [Hsel Hrun].
    rewrite Hrun.
    rewrite (update_attachment_real_run cl config company product existing
               quantity price deal_id _ _ w tr Hsel Hsome).
    unfold update_call. rewrite Hchange, Hp.
    assert (Hne : (DealProductAttachment.quantity existing =? quantity)
                  = false) by (apply Z.eqb_neq; exact Hq).
    rewrite Hne. cbn [selects_quantity selects_price andb negb].
    destruct (update_deal_product_attachment cl deal_id _ _ _ None w)
      as [[updated|e] w1]; [reflexivity|].
    destruct (isinstance_APIError e); reflexivity.
  - intros W cl config company product existing deal_id w tr updated w'
      Hdup Hchange Hq Hp Hupd Hprice.
    assert (Hsome : selects_quantity (Config.w2_change_action config)
                    && negb (DealProductAttachment.quantity existing =? 12)
                    || selects_price (Config.w2_change_action config)
                       && PrimFloat.ltb price_tolerance
                            (PrimFloat.abs
                               (DealProductAttachment.item_price existing
                                - 5.0)) = true).
    { rewrite Hchange, Hq. reflexivity. }
    destruct (G _ cl config company product existing 12 5.0%float deal_id
                w tr Hdup Hsome) as [Hsel Hrun].
    rewrite Hrun.
    rewrite (update_attachment_real_run cl config company product existing
               12 5.0%float deal_id _ _ w tr Hsel Hsome).
    unfold update_call. rewrite Hchange, Hq.
    cbn [selects_quantity selects_price andb negb Z.eqb Pos.eqb].
    rewrite Hupd. eexists. split; [reflexivity|].
    cbn. rewrite Hp, Hprice. repeat split.
Qed.

(** The scenario, and an update of both fields, on the in-memory remote. *)
Lemma update_policy_issues_one_partial_update_witness :
  (exists a,
      _handle_duplicate_attachment (traced FakeRemote.client)
        (Scenario.config_with 5.0%float DuplicateAction.UPDATE
           W2ChangeAction.UPDATE_QUANTITY)
        (Scenario.company (Some 12)) Scenario.acme_product
        (Scenario.attachment 11 10 5.0%float) 12 5.0%float 7 false
        (Scenario.world_found [Scenario.attachment 11 10 5.0%float], [])
      = (Ret a,
         (Scenario.world_found
            [FakeRemote.updated (Scenario.attachment 11 10 5.0%float) None
               (Some 12) None],
          [Call_update_deal_product_attachment 7 11 None (Some 12) None]))
      /\ ProductAction.action_type a = ProductActionType.UPDATED_QUANTITY
      /\ ProductAction.old_price a = Some 5.0%float
      /\ ProductAction.new_price a = Some 5.0%float)
  /\ snd (snd (_handle_duplicate_attachment (traced FakeRemote.client)
                 (Scenario.config_with 6.0%float DuplicateAction.UPDATE
                    W2ChangeAction.UPDATE_BOTH)
                 (Scenario.company (Some 12)) Scenario.acme_product
                 (Scenario.attachment 11 10 5.0%float) 12 6.0%float 7 false
                 (Scenario.world_found [Scenario.attachment 11 10 5.0%float],
                  [])))
     = [Call_update_deal_product_attachment 7 11 (Some 6.0%float) (Some 12)
          None].
Proof.
  destruct update_policy_issues_one_partial_update as (_ & Hboth & Hscenario).
  split.
  - apply (Hscenario _ FakeRemote.client
             (Scenario.config_with 5.0%float DuplicateAction.UPDATE
                W2ChangeAction.UPDATE_QUANTITY)
             (Scenario.company (Some 12)) Scenario.acme_product
             (Scenario.attachment 11 10 5.0%float) 7
             (Scenario.world_found [Scenario.attachment 11 10 5.0%float]) []
             (FakeRemote.updated (Scenario.attachment 11 10 5.0%float) None
                (Some 12) None)
             (Scenario.world_found
                [FakeRemote.updated (Scenario.attachment 11 10 5.0%float)
                   None (Some 12) None]));
      reflexivity.
  - apply (Hboth _ FakeRemote.client
             (Scenario.config_with 6.0%float DuplicateAction.UPDATE
                W2ChangeAction.UPDATE_BOTH)
             (Scenario.company (Some 12)) Scenario.acme_product
             (Scenario.attachment 11 10 5.0%float) 12 6.0%float 7
             (Scenario.world_found [Scenario.attachment 11 10 5.0%float]) []).
    + reflexivity.
    + reflexivity.
    + discriminate.
    + reflexivity.
Defined.

Lemma attach_new_product_real_run {W} (cl : Client W) company product
    quantity price deal_id (w : W) (tr : list call) :
  _attach_new_product (traced cl) company product quantity price deal_id
    false (w, tr)
  = match attach_product_to_deal cl deal_id (PipedriveProduct.id product)
            price quantity
            (Some ("AUTO_ATTACHED|company:"
                   +:+ AdditionalCompany.company_legal_name company)) w with
    | (Ret attachment, w') =>
        (Ret (ProductAction.mk
                (AdditionalCompany.company_legal_name company)
                (AdditionalCompany.w2_employee_count company)
                ProductActionType.ATTACHED_NEW
                (Some (PipedriveProduct.id product))
                (Some (DealProductAttachment.id attachment))
                None (Some quantity) None (Some price) None),
         (w', tr ++ [attach_call company product quantity price deal_id]))
    | (Raise e, w') =>
        if isinstance_APIError e
        then (Ret (error_action company (Some (PipedriveProduct.id product))
                     ("Failed to attach product: " +:+ str_exn e)),
              (w', tr ++ [attach_call company product quantity price deal_id]))
        else (Raise e,
              (w', tr ++ [attach_call company product quantity price deal_id]))
    end.
Proof.
  unfold _attach_new_product, try_except, bind, ret, traced, traced_op,
    attach_call. cbn.
  destruct (attach_product_to_deal cl deal_id _ price quantity _ w)
    as [[a|e] w']; cbn; [reflexivity|].
  destruct (isinstance_APIError e); reflexivity.
Qed.

(** C10: an existing attachment with the computed quantity whose price is
    off by exactly the tolerance.  The duplicate check sees a mismatch (its
    test is "less than 0.01"), the change handler sees no change (its test
    is "greater than 0.01").  So under policy [UPDATE] the outcome is
    "skipped-exists" and no call is made, whatever the change policy and in
    dry run as well; under [FORCE_NEW] a real run makes one attach call for
    the same product, and reports "attached-new" when it succeeds. *)
Theorem price_off_by_exactly_the_tolerance {W} (cl : Client W)
    (config : Config.t) (company : AdditionalCompany.t)
    (product : PipedriveProduct.t) (existing : DealProductAttachment.t)
    (quantity : Z) (price : float) (deal_id : Z) (w : W) (tr : list call) :
  DealProductAttachment.quantity existing = quantity ->
  PrimFloat.abs (DealProductAttachment.item_price existing - price)
  = price_tolerance ->
  price_matches existing price = false
  /\ price_changed existing price = false
  /\ (Config.duplicate_attachment_action config = DuplicateAction.UPDATE ->
      forall dry_run,
        _handle_duplicate_attachment (traced cl) config company product
          existing quantity price deal_id dry_run (w, tr)
        = (Ret (skipped_action company product existing quantity price),
           (w, tr)))
  /\ (Config.duplicate_attachment_action config = DuplicateAction.FORCE_NEW ->
      let call := attach_call company product quantity price deal_id in
      let run :=
        _handle_duplicate_attachment (traced cl) config company product
          existing quantity price deal_id false (w, tr) in
      snd (snd run) = tr ++ [call]
      /\ forall attachment w',
           attach_product_to_deal cl deal_id (PipedriveProduct.id product)
             price quantity
             (Some ("AUTO_ATTACHED|company:"
                    +:+ AdditionalCompany.company_legal_name company)) w
           = (Ret attachment, w') ->
           run = (Ret (ProductAction.mk
                         (AdditionalCompany.company_legal_name company)
                         (AdditionalCompany.w2_employee_count company)
                         ProductActionType.ATTACHED_NEW
                         (Some (PipedriveProduct.id product))
                         (Some (DealProductAttachment.id attachment))
                         None (Some quantity) None (Some price) None),
                  (w', tr ++ [call]))).
Proof.
  intros Hq Hdiff.
  assert (Hm : price_matches existing price = false)
    by (unfold price_matches; rewrite Hdiff; reflexivity).
  assert (Hc : price_changed existing price = false)
    by (unfold price_changed; rewrite Hdiff; reflexivity).
  assert (Hqc : quantity_changed existing quantity = false)
    by (unfold quantity_changed; rewrite Hq, Z.eqb_refl; reflexivity).
  split; [exact Hm|]. split; [exact Hc|]. split.
  - intros Hdup dry_run. unfold _handle_duplicate_attachment.
    rewrite Hm, andb_false_r, Hdup.
    apply update_attachment_nothing_selected.
    unfold update_selection. rewrite Hqc, Hc.
    destruct (Config.w2_change_action config); trivial.
  - intros Hdup. cbn zeta. unfold _handle_duplicate_attachment.
    rewrite Hm, andb_false_r, Hdup.
    rewrite (attach_new_product_real_run cl). split.
    + destruct (attach_product_to_deal cl deal_id _ price quantity _ w)
        as [[a|e] w']; [reflexivity|].
      destruct (isinstance_APIError e); reflexivity.
    + intros attachment w' ->. reflexivity.
Qed.

(** An attachment at 0.02 against a computed price of 0.01: the difference
    is the binary64 number 0.01 itself. *)
Lemma price_off_by_exactly_the_tolerance_witness :
  let existing := Scenario.attachment 11 50 0.02%float in
  let world := Scenario.world_found [existing] in
  let config duplicate :=
    Scenario.config_with 0.01%float duplicate W2ChangeAction.UPDATE_BOTH in
  price_matches existing 0.01%float = false
  /\ price_changed existing 0.01%float = false
  /\ (forall dry_run,
        _handle_duplicate_attachment (traced FakeRemote.client)
          (config DuplicateAction.UPDATE) (Scenario.company (Some 50))
          Scenario.acme_product existing 50 0.01%float 7 dry_run (world, [])
        = (Ret (skipped_action (Scenario.company (Some 50))
                  Scenario.acme_product existing 50 0.01%float),
           (world, [])))
  /\ snd (snd (_handle_duplicate_attachment (traced FakeRemote.client)
                 (config DuplicateAction.FORCE_NEW)
                 (Scenario.company (Some 50)) Scenario.acme_product existing
                 50 0.01%float 7 false (world, [])))
     = [Call_attach_product_to_deal 7 5 0.01%float 50
          (Some "AUTO_ATTACHED|company:Acme Inc.")].
Proof.
  cbn zeta.
  pose proof (price_off_by_exactly_the_tolerance FakeRemote.client
                (Scenario.config_with 0.01%float DuplicateAction.UPDATE
                   W2ChangeAction.UPDATE_BOTH)
                (Scenario.company (Some 50)) Scenario.acme_product
                (Scenario.attachment 11 50 0.02%float) 50 0.01%float 7
                (Scenario.world_found [Scenario.attachment 11 50 0.02%float])
                [] eq_refl eq_refl) as (Hm & Hc & Hu & _).
  pose proof (price_off_by_exactly_the_tolerance FakeRemote.client
                (Scenario.config_with 0.01%float DuplicateAction.FORCE_NEW
                   W2ChangeAction.UPDATE_BOTH)
                (Scenario.company (Some 50)) Scenario.acme_product
                (Scenario.attachment 11 50 0.02%float) 50 0.01%float 7
                (Scenario.world_found [Scenario.attachment 11 50 0.02%float])
                [] eq_refl eq_refl) as (_ & _ & _ & Hf).
  exact (conj Hm (conj Hc (conj (Hu eq_refl) (proj1 (Hf eq_refl))))).
Defined.

(** The first attachment of a list that has the product. *)
Lemma find_existing_attachment_None product_id atts x :
  _find_existing_attachment product_id atts = None ->
  In x atts -> DealProductAttachment.product_id x <> product_id.
Proof.
  induction atts as [|a rest IH]; cbn; [intros _ []|].
  destruct (Z.eqb_spec (DealProductAttachment.product_id a) product_id)
    as [E|E]; [discriminate|].
  intros H [<- | I]; [exact E | exact (IH H I)].
Qed.

Lemma find_existing_attachment_among product_id atts
    (P : DealProductAttachment.t -> Prop) :
  (forall x, In x atts -> DealProductAttachment.product_id x = product_id ->
             P x) ->
  (exists x, In x atts /\ DealProductAttachment.product_id x = product_id) ->
  exists x, _find_existing_attachment product_id atts = Some x /\ P x.
Proof.
  induction atts as [|a rest IH]; intros HP (x & I & E); [destruct I|].
  cbn. destruct (Z.eqb_spec (DealProductAttachment.product_id a) product_id)
    as [Ea|Ea].
  - exists a. split; [reflexivity|]. apply HP; [left; reflexivity | exact Ea].
  - apply IH.
    + intros y Iy. apply HP. right; exact Iy.
    + destruct I as [<- | I]; [contradiction|]. exists x. split; assumption.
Qed.

(** A company whose product the search finds, attached with the computed
    values: one call, the search; the action is the skip action up to its
    kind. *)
Lemma process_company_skips_match {W} (cl : Client W) (config : Config.t)
    (company : AdditionalCompany.t) (deal_id : Z)
    (atts : list DealProductAttachment.t) (dry_run : bool) (w w1 : W)
    (tr : list call) (product : PipedriveProduct.t)
    (existing : DealProductAttachment.t) (quantity : Z) (price : float) :
  let product_name :=
    _format_product_name config
      (AdditionalCompany.company_legal_name company) in
  _validate_company config company = None ->
  search_product_by_name cl product_name true w = (Ret (Some product), w1) ->
  _calculate_quantity_and_price config
    (AdditionalCompany.w2_employee_count company) = Ret (quantity, price) ->
  _find_existing_attachment (PipedriveProduct.id product) atts
  = Some existing ->
  DealProductAttachment.quantity existing = quantity ->
  price_matches existing price = true ->
  exists a,
    _process_company (traced cl) config company deal_id atts dry_run (w, tr)
    = (Ret a, (w1, tr ++ [Call_search_product_by_name product_name true]))
    /\ ProductAction.set_action_type ProductActionType.SKIPPED_EXISTS a
       = skipped_action company product existing quantity price
    /\ mutating_calls (tr ++ [Call_search_product_by_name product_name true])
       = mutating_calls tr.
Proof.
  intros product_name Hv Hs Hc Hf Hq Hp.
  assert (Hqm : quantity_matches existing quantity = true)
    by (unfold quantity_matches; rewrite Hq; apply Z.eqb_refl).
  unfold _process_company, try_except, bind. rewrite Hv. cbn [truthy_message].
  unfold _find_or_create_product, bind. fold product_name.
  unfold traced at 1. cbn [search_product_by_name]. unfold traced_op at 1.
  cbn [fst snd]. rewrite Hs. cbn [ret].
  unfold lift. rewrite Hc, Hf.
  rewrite (handle_duplicate_match (traced cl) config company product
             existing quantity price deal_id dry_run _ Hqm Hp).
  cbn. eexists. split; [reflexivity|]. split; [reflexivity|].
  unfold mutating_calls. rewrite List.filter_app. cbn. apply app_nil_r.
Qed.

(** C3 (as amended).  First part: whatever the duplicate policy, the change
    policy and the calculation and quantity modes, if the first attachment
    of the deal's list for the product has the computed quantity and a
    price strictly within 0.01 of the computed price, the duplicate handler
    returns "skipped-exists" and makes no call; and reconciling a company
    whose product the catalog search finds makes one call, that search, and
    no mutating call, the action it returns being the skip action up to its
    kind field.  Second part, the re-run: let a real run attach the product
    of a company, found or created, to a deal whose list held no attachment
    of that product; let the next run find the product again and be given a
    list that holds, beside attachments of the first list, the product
    attached with the quantity and the price that were sent, and let that
    price be a number, so that it is within 0.01 of itself.  Then the first
    run ends with the attach call, and the next run makes the search and
    nothing else: it writes nothing. *)
Theorem matching_first_attachment_is_skipped :
  (forall W (cl : Client W) config company deal_id atts dry_run w w1 tr
          product existing quantity price,
      let product_name :=
        _format_product_name config
          (AdditionalCompany.company_legal_name company) in
      _validate_company config company = None ->
      search_product_by_name cl product_name true w
      = (Ret (Some product), w1) ->
      _calculate_quantity_and_price config
        (AdditionalCompany.w2_employee_count company)
      = Ret (quantity, price) ->
      _find_existing_attachment (PipedriveProduct.id product) atts
      = Some existing ->
      DealProductAttachment.quantity existing = quantity ->
      price_matches existing price = true ->
      (forall tr1,
          _handle_duplicate_attachment (traced cl) config company product
            existing quantity price deal_id dry_run (w1, tr1)
          = (Ret (skipped_action company product existing quantity price),
             (w1, tr1)))
      /\ exists a,
           _process_company (traced cl) config company deal_id atts dry_run
             (w, tr)
           = (Ret a,
              (w1, tr ++ [Call_search_product_by_name product_name true]))
           /\ ProductAction.set_action_type ProductActionType.SKIPPED_EXISTS a
              = skipped_action company product existing quantity price
           /\ mutating_calls
                (tr ++ [Call_search_product_by_name product_name true])
              = mutating_calls tr)
  /\ (forall W (cl : Client W) config company deal_id atts w tr product
             catalog_action w1 tr1 quantity price attachment w2
             atts' w3 tr3 product' w4,
        let product_name :=
          _format_product_name config
            (AdditionalCompany.company_legal_name company) in
        (* the first run: an attach to a deal that does not hold the
           product *)
        _validate_company config company = None ->
        _find_or_create_product (traced cl) config product_name false (w, tr)
        = (Ret (Some product, catalog_action), (w1, tr1)) ->
        _calculate_quantity_and_price config
          (AdditionalCompany.w2_employee_count company)
        = Ret (quantity, price) ->
        _find_existing_attachment (PipedriveProduct.id product) atts = None ->
        attach_product_to_deal cl deal_id (PipedriveProduct.id product) price
          quantity
          (Some ("AUTO_ATTACHED|company:"
                 +:+ AdditionalCompany.company_legal_name company)) w1
        = (Ret attachment, w2) ->
        (* what the next run reads *)
        search_product_by_name cl product_name true w3
        = (Ret (Some product'), w4) ->
        PipedriveProduct.id product' = PipedriveProduct.id product ->
        (forall x, In x atts' ->
           In x atts
           \/ (DealProductAttachment.product_id x = PipedriveProduct.id product
               /\ DealProductAttachment.quantity x = quantity
               /\ DealProductAttachment.item_price x = price)) ->
        (exists x,
            In x atts'
            /\ DealProductAttachment.product_id x
               = PipedriveProduct.id product) ->
        PrimFloat.ltb (PrimFloat.abs (price - price)) price_tolerance = true ->
        (exists a1,
            _process_company (traced cl) config company deal_id atts false
              (w, tr)
            = (Ret a1,
               (w2,
                tr1 ++ [attach_call company product quantity price deal_id])))
        /\ (exists a2,
              _process_company (traced cl) config company deal_id atts' false
                (w3, tr3)
              = (Ret a2,
                 (w4, tr3 ++ [Call_search_product_by_name product_name true]))
              /\ mutating_calls
                   (tr3 ++ [Call_search_product_by_name product_name true])
                 = mutating_calls tr3)).
Proof.
  split.
  - intros W cl config company deal_id atts dry_run w w1 tr product existing
      quantity price product_name Hv Hs Hc Hf Hq Hp.
    split.
    + intros tr1. apply handle_duplicate_match; [|exact Hp].
      unfold quantity_matches. rewrite Hq. apply Z.eqb_refl.
    + exact (process_company_skips_match cl config company deal_id atts
               dry_run w w1 tr product existing quantity price Hv Hs Hc Hf
               Hq Hp).
  - intros W cl config company deal_id atts w tr product catalog_action w1 tr1
      quantity price attachment w2 atts' w3 tr3 product' w4 product_name
      Hv Hfc Hc Hnone Hatt Hs Hid Hlist Hsome Hfin.
    split.
    + pose proof (find_or_create_catalog_action (traced cl) config
                    product_name false (w, tr) product catalog_action
                    (w1, tr1) Hfc) as Hca.
      unfold _process_company, try_except, bind. rewrite Hv.
      cbn [truthy_message]. fold product_name. rewrite Hfc.
      unfold lift. rewrite Hc, Hnone.
      rewrite (attach_new_product_real_run cl), Hatt.
      destruct Hca as [-> | ->]; cbn; eexists; reflexivity.
    + destruct (find_existing_attachment_among (PipedriveProduct.id product')
                  atts'
                  (fun x => DealProductAttachment.quantity x = quantity
                            /\ DealProductAttachment.item_price x = price))
        as (x & Hfind & Hq & Hp).
      * intros x Ix Ex. rewrite Hid in Ex.
        destruct (Hlist x Ix) as [Iold | (_ & Hq & Hp)]; [|split; assumption].
        exfalso.
        exact (find_existing_attachment_None _ _ x Hnone Iold Ex).
      * rewrite Hid. exact Hsome.
      * destruct (process_company_skips_match cl config company deal_id atts'
                    false w3 w4 tr3 product' x quantity price Hv Hs Hc Hfind
                    Hq) as (a2 & E & _ & Hm).
        { unfold price_matches. rewrite Hp. exact Hfin. }
        exists a2. split; assumption.
Qed.

(** Acme with 50 employees on the in-memory remote: already attached at
    quantity 50 and price 2.0; and two runs in a row on a deal that holds
    another product. *)
Lemma matching_first_attachment_is_skipped_witness :
  let other := DealProductAttachment.mk 11 6 7 9.0%float 1 0%float "Other" None in
  let attached :=
    DealProductAttachment.mk 100 5 7 2.0%float 50 100.0%float ""
      (Some "AUTO_ATTACHED|company:Acme Inc.") in
  let before := Scenario.world_found [other] in
  let after :=
    FakeRemote.mkWorld [7] [Scenario.acme_product] [other; attached] 101 in
  (exists a,
      _process_company (traced FakeRemote.client) Scenario.config
        (Scenario.company (Some 50)) 7 [Scenario.attachment 11 50 2.0%float]
        false (Scenario.world_found [Scenario.attachment 11 50 2.0%float], [])
      = (Ret a,
         (Scenario.world_found [Scenario.attachment 11 50 2.0%float],
          [Call_search_product_by_name "Acme Inc" true]))
      /\ ProductAction.set_action_type ProductActionType.SKIPPED_EXISTS a
         = skipped_action (Scenario.company (Some 50)) Scenario.acme_product
             (Scenario.attachment 11 50 2.0%float) 50 2.0%float
      /\ mutating_calls [Call_search_product_by_name "Acme Inc" true] = [])
  /\ (exists a1,
        _process_company (traced FakeRemote.client) Scenario.config
          (Scenario.company (Some 50)) 7 [other] false (before, [])
        = (Ret a1,
           (after,
            [Call_search_product_by_name "Acme Inc" true;
             Call_attach_product_to_deal 7 5 2.0%float 50
               (Some "AUTO_ATTACHED|company:Acme Inc.")])))
  /\ (exists a2,
        _process_company (traced FakeRemote.client) Scenario.config
          (Scenario.company (Some 50)) 7 [other; attached] false (after, [])
        = (Ret a2, (after, [Call_search_product_by_name "Acme Inc" true]))
        /\ mutating_calls [Call_search_product_by_name "Acme Inc" true] = []).
Proof.
  intros other attached before after.
  destruct matching_first_attachment_is_skipped as [Hskip Hrerun].
  split.
  - exact (proj2 (Hskip _ FakeRemote.client
                    Scenario.config (Scenario.company (Some 50)) 7
                    [Scenario.attachment 11 50 2.0%float] false
                    (Scenario.world_found
                       [Scenario.attachment 11 50 2.0%float])
                    (Scenario.world_found
                       [Scenario.attachment 11 50 2.0%float])
                    [] Scenario.acme_product
                    (Scenario.attachment 11 50 2.0%float) 50 2.0%float
                    eq_refl eq_refl eq_refl eq_refl eq_refl eq_refl)).
  - apply (Hrerun _ FakeRemote.client Scenario.config
             (Scenario.company (Some 50)) 7 [other] before []
             Scenario.acme_product (Some ProductActionType.FOUND_CATALOG)
             before [Call_search_product_by_name "Acme Inc" true]
             50 2.0%float attached after [other; attached] after []
             Scenario.acme_product after).
    + reflexivity.
    + reflexivity.
    + reflexivity.
    + reflexivity.
    + vm_compute. reflexivity.
    + reflexivity.
    + reflexivity.
    + intros x [<- | [<- | []]];
        [left; left; reflexivity | right; repeat split].
    + exists attached. split; [right; left; reflexivity | reflexivity].
    + reflexivity.
Defined.

(** C3, as stated, fails: the deal's list holds an attachment of the
    product with the computed quantity and price, behind another one of the
    same product with quantity 10; the code looks at the first, and updates
    it. *)
Lemma matching_attachment_behind_another_is_updated :
  let atts := [Scenario.attachment 11 10 2.0%float;
               Scenario.attachment 12 50 2.0%float] in
  let run :=
    _process_company (traced FakeRemote.client) Scenario.config
      (Scenario.company (Some 50)) 7 atts false
      (Scenario.world_found atts, []) in
  _calculate_quantity_and_price Scenario.config (Some 50)
  = Ret (50, 2.0%float)
  /\ In (Scenario.attachment 12 50 2.0%float) atts
  /\ DealProductAttachment.product_id (Scenario.attachment 12 50 2.0%float)
     = PipedriveProduct.id Scenario.acme_product
  /\ DealProductAttachment.quantity (Scenario.attachment 12 50 2.0%float) = 50
  /\ price_matches (Scenario.attachment 12 50 2.0%float) 2.0%float = true
  /\ mutating_calls (snd (snd run))
     = [Call_update_deal_product_attachment 7 11 None (Some 50) None].
Proof. vm_compute. repeat split. right; left; reflexivity. Qed.

(** Whatever the modes and the policies, a second run right after a run
    that attached the product to a deal without attachment writes
    nothing. *)
Example rerun_after_attach_writes_nothing :
  forall calculation quantity duplicate change,
    let config := Scenario.config_modes calculation quantity duplicate change in
    let submission := Scenario.submission [Scenario.company (Some 50)] in
    match link_submission (traced FakeRemote.client) config submission false
            (Scenario.world_found [], []) with
    | (Ret _, (w1, tr1)) =>
        List.length (mutating_calls tr1) = 1%nat
        /\ match link_submission (traced FakeRemote.client) config submission
                   false (w1, []) with
           | (Ret _, (w2, tr2)) => mutating_calls tr2 = [] /\ w2 = w1
           | (Raise _, _) => False
           end
    | (Raise _, _) => False
    end.
Proof.
  intros calculation quantity duplicate change.
  destruct calculation, quantity, duplicate, change;
    vm_compute; repeat split.
Qed.

(** Not so after an attach that the policy [FORCE_NEW] forced beside an
    attachment of the product with other values: the list still shows that
    one first, and the next run attaches once more. *)
Example rerun_after_forced_attach_attaches_again :
  let config :=
    Scenario.config_with 2.0%float DuplicateAction.FORCE_NEW
      W2ChangeAction.UPDATE_BOTH in
  let submission := Scenario.submission [Scenario.company (Some 50)] in
  match link_submission (traced FakeRemote.client) config submission false
          (Scenario.world_found [Scenario.attachment 11 10 2.0%float], []) with
  | (Ret _, (w1, tr1)) =>
      mutating_calls tr1
      = [Call_attach_product_to_deal 7 5 2.0%float 50
           (Some "AUTO_ATTACHED|company:Acme Inc.")]
      /\ match link_submission (traced FakeRemote.client) config submission
                 false (w1, []) with
         | (Ret _, (w2, tr2)) =>
             mutating_calls tr2
             = [Call_attach_product_to_deal 7 5 2.0%float 50
                  (Some "AUTO_ATTACHED|company:Acme Inc.")]
             /\ List.length (FakeRemote.attachments w2) = 3%nat
         | (Raise _, _) => False
         end
  | (Raise _, _) => False
  end.
Proof. vm_compute. repeat split. Qed.

(** ** Dry run against real run *)

Lemma filter_kinds_length (p : ProductActionType.t -> bool) l :
  List.length (List.filter (fun a => p (ProductAction.action_type a)) l)
  = List.length (List.filter p (List.map ProductAction.action_type l)).
Proof.
  induction l as [|a l IH]; cbn; [reflexivity|].
  destruct (p (ProductAction.action_type a)); cbn; congruence.
Qed.

Lemma count_actions_kinds p d r :
  kinds d = kinds r -> LinkResult.count_actions p d = LinkResult.count_actions p r.
Proof.
  unfold LinkResult.count_actions, kinds. intros E.
  rewrite !filter_kinds_length, E. reflexivity.
Qed.

Lemma any_action_kinds p l :
  any_action p l = List.existsb p (List.map ProductAction.action_type l).
Proof.
  unfold any_action. induction l as [|a l IH]; cbn; congruence.
Qed.

Lemma overall_status_kinds l l' :
  List.map ProductAction.action_type l = List.map ProductAction.action_type l' ->
  overall_status l = overall_status l'.
Proof.
  unfold overall_status. intros E. rewrite !any_action_kinds, E. reflexivity.
Qed.

Lemma find_existing_attachment_In product_id atts a :
  _find_existing_attachment product_id atts = Some a ->
  In a atts /\ DealProductAttachment.product_id a = product_id.
Proof.
  induction atts as [|x rest IH]; cbn; [discriminate|].
  destruct (DealProductAttachment.product_id x =? product_id) eqn:E.
  - intros [= <-]. split; [left; reflexivity | lia].
  - intros H. destruct (IH H) as [Hin Hp]. split; [right; exact Hin|exact Hp].
Qed.

(** A company that fails validation is answered at once. *)
Lemma process_company_invalid {W} (cl : Client W) config company deal_id
    atts dry_run w :
  truthy_message (_validate_company config company) = true ->
  _process_company cl config company deal_id atts dry_run w
  = (Ret (ProductAction.mk
            (AdditionalCompany.company_legal_name company)
            (AdditionalCompany.w2_employee_count company)
            ProductActionType.ERROR None None None None None None
            (_validate_company config company)), w).
Proof.
  intros H. unfold _process_company, try_except. rewrite H. reflexivity.
Qed.

Lemma searched_names_cons config company rest :
  searched_names config (company :: rest)
  = if truthy_message (_validate_company config company)
    then searched_names config rest
    else _format_product_name config
           (AdditionalCompany.company_legal_name company)
         :: searched_names config rest.
Proof.
  unfold searched_names. cbn [List.filter].
  destruct (truthy_message (_validate_company config company)); reflexivity.
Qed.

Section DryRun.
Context {W : Type}.
Variable cl : Client W.
Variable config : Config.t.
(** [R names dry real]: what the worlds of the two runs have in common
    while the names [names] are still to be searched. *)
Variable R : list string -> W -> W -> Prop.
(** The attachments that the fetch returned. *)
Variable listed : DealProductAttachment.t -> Prop.
Variable deal_id : Z.

Hypothesis search_agrees_R : search_agrees cl R.
Hypothesis R_tail :
  forall name names wd wr, R (name :: names) wd wr -> R names wd wr.
Hypothesis create_succeeds_R : create_succeeds cl R listed.
Hypothesis attach_succeeds_R : attach_succeeds cl R.
Hypothesis update_succeeds_R : update_succeeds cl R listed deal_id.
Hypothesis placeholder_not_attached : ~ holds_product listed 999999.

Lemma find_existing_not_attached product_id atts :
  Forall listed atts ->
  ~ holds_product listed product_id ->
  _find_existing_attachment product_id atts = None.
Proof.
  induction 1 as [|a l Ha _ IH]; intros Hn; cbn; [reflexivity|].
  destruct (Z.eqb_spec (DealProductAttachment.product_id a) product_id)
    as [E|_]; [|auto].
  exfalso. apply Hn. exists a. split; assumption.
Qed.

Lemma find_or_create_sim name names wd wr :
  R (name :: names) wd wr ->
  exists rd rr wd' wr',
    _find_or_create_product cl config name true wd = (rd, wd')
    /\ _find_or_create_product cl config name false wr = (rr, wr')
    /\ R names wd' wr' /\ catalog_sim (holds_product listed) rd rr.
Proof.
  intros HR. unfold _find_or_create_product, bind.
  destruct (search_agrees_R name names wd wr HR)
    as (res & wd' & wr' & Ed & Er & HR').
  rewrite Ed, Er.
  destruct res as [[p|]|e].
  - eexists _, _, _, _. repeat split; eauto. constructor.
  - destruct (Config.auto_create_products config).
    + destruct (create_succeeds_R name names None
                  (Config.product_active_flag config)
                  (Config.product_visible_to config) wd wd' wr' Ed HR')
        as (p & wr'' & Hc & HR'' & Hp).
      unfold try_except, bind. rewrite Hc.
      eexists _, _, _, _. repeat split; eauto. constructor. exact Hp.
    + eexists _, _, _, _. repeat split; eauto. constructor.
  - eexists _, _, _, _. repeat split; eauto. constructor.
Qed.

Lemma attach_new_product_sim company pd pr quantity price names wd wr :
  R names wd wr ->
  action_sim (R names)
    (_attach_new_product cl company pd quantity price deal_id true wd)
    (_attach_new_product cl company pr quantity price deal_id false wr).
Proof.
  intros HR. unfold _attach_new_product, try_except, bind, ret.
  destruct (attach_succeeds_R names deal_id (PipedriveProduct.id pr) price
              quantity
              (Some ("AUTO_ATTACHED|company:"
                     +:+ AdditionalCompany.company_legal_name company))
              wd wr HR) as (a & wr' & -> & HR').
  eexists _, _. cbn. repeat split. exact HR'.
Qed.

Lemma update_attachment_sim company product existing quantity price names
    wd wr :
  listed existing ->
  R names wd wr ->
  action_sim (R names)
    (_update_attachment cl config company product existing quantity price
       deal_id true wd)
    (_update_attachment cl config company product existing quantity price
       deal_id false wr).
Proof.
  intros Hl HR. unfold _update_attachment.
  destruct (update_selection config existing quantity price) as [[uq up]|].
  - destruct (negb uq && negb up).
    + eexists _, _. cbn. repeat split. exact HR.
    + unfold try_except, bind, ret.
      destruct (update_succeeds_R names existing
                  (if up then Some price else None)
                  (if uq then Some quantity else None) None wd wr Hl HR)
        as (a & wr' & -> & HR').
      eexists _, _. cbn. repeat split. exact HR'.
  - eexists _, _. cbn. repeat split. exact HR.
Qed.

Lemma handle_duplicate_sim company product existing quantity price names
    wd wr :
  listed existing ->
  R names wd wr ->
  action_sim (R names)
    (_handle_duplicate_attachment cl config company product existing
       quantity price deal_id true wd)
    (_handle_duplicate_attachment cl config company product existing
       quantity price deal_id false wr).
Proof.
  intros Hl HR. unfold _handle_duplicate_attachment.
  destruct (quantity_matches existing quantity && price_matches existing price).
  { eexists _, _. cbn. repeat split. exact HR. }
  destruct (Config.duplicate_attachment_action config).
  - apply update_attachment_sim; assumption.
  - eexists _, _. cbn. repeat split. exact HR.
  - eexists _, _. cbn. repeat split. exact HR.
  - apply attach_new_product_sim, HR.
Qed.

(** One company that passes validation, in the two runs. *)
Lemma process_company_sim company atts names wd wr :
  truthy_message (_validate_company config company) = false ->
  R (_format_product_name config
       (AdditionalCompany.company_legal_name company) :: names) wd wr ->
  Forall listed atts ->
  company_sim (R names)
    (_process_company cl config company deal_id atts true wd)
    (_process_company cl config company deal_id atts false wr).
Proof.
  intros Hv HR Hatts. unfold _process_company, try_except, bind.
  rewrite Hv.
  destruct (find_or_create_sim _ names wd wr HR)
    as (rd & rr & wd' & wr' & -> & -> & HR' & Hsim).
  destruct Hsim as [e | p | name p Hp | ].
  - destruct (isinstance_Exception e).
    + right. eexists _, _. cbn. repeat split. exact HR'.
    + left. exists e. split; reflexivity.
  - unfold lift.
    destruct (_calculate_quantity_and_price config
                (AdditionalCompany.w2_employee_count company))
      as [[quantity price]|e] eqn:C.
    2: { rewrite (calculate_quantity_and_price_raises config _ _ C).
         right. eexists _, _. cbn. repeat split. exact HR'. }
    destruct (_find_existing_attachment (PipedriveProduct.id p) atts)
      as [existing|] eqn:F.
    + assert (Hl : listed existing).
      { apply (proj1 (List.Forall_forall listed atts) Hatts).
        exact (proj1 (find_existing_attachment_In _ _ _ F)). }
      destruct (handle_duplicate_sim company p existing quantity price
                  names wd' wr' Hl HR') as (ad & ar & Hd & Hr & Hk & HR'').
      destruct (_handle_duplicate_attachment cl config company p existing
                  quantity price deal_id true wd') as [rd wd''].
      destruct (_handle_duplicate_attachment cl config company p existing
                  quantity price deal_id false wr') as [rr wr''].
      cbn in Hd, Hr, HR''. subst rd rr. cbn. rewrite Hk.
      destruct (ProductActionType.eqb (ProductAction.action_type ar)
                  ProductActionType.ERROR);
        right; eexists _, _; cbn; repeat split; trivial.
    + destruct (attach_new_product_sim company p p quantity price names
                  wd' wr' HR') as (ad & ar & Hd & Hr & Hk & HR'').
      destruct (_attach_new_product cl company p quantity price deal_id true
                  wd') as [rd wd''].
      destruct (_attach_new_product cl company p quantity price deal_id false
                  wr') as [rr wr''].
      cbn in Hd, Hr, HR''. subst rd rr. cbn. rewrite Hk.
      destruct (ProductActionType.eqb (ProductAction.action_type ar)
                  ProductActionType.ERROR);
        right; eexists _, _; cbn; repeat split; trivial.
  - unfold lift.
    destruct (_calculate_quantity_and_price config
                (AdditionalCompany.w2_employee_count company))
      as [[quantity price]|e] eqn:C.
    2: { rewrite (calculate_quantity_and_price_raises config _ _ C).
         right. eexists _, _. cbn. repeat split. exact HR'. }
    cbn [PipedriveProduct.id].
    rewrite (find_existing_not_attached 999999 atts Hatts
               placeholder_not_attached).
    rewrite (find_existing_not_attached (PipedriveProduct.id p) atts Hatts Hp).
    destruct (attach_new_product_sim company
                (PipedriveProduct.mk 999999 name None true []) p quantity
                price names wd' wr' HR')
      as (ad & ar & Hd & Hr & Hk & HR'').
    destruct (_attach_new_product cl company
                (PipedriveProduct.mk 999999 name None true []) quantity price
                deal_id true wd') as [rd wd''].
    destruct (_attach_new_product cl company p quantity price deal_id false
                wr') as [rr wr''].
    cbn in Hd, Hr, HR''. subst rd rr. cbn. rewrite Hk.
    destruct (ProductActionType.eqb (ProductAction.action_type ar)
                ProductActionType.ERROR);
      right; eexists _, _; cbn; repeat split; trivial.
  - right. eexists _, _. cbn. repeat split. exact HR'.
Qed.

Lemma process_companies_loop_sim companies atts :
  Forall listed atts ->
  forall actions_d actions_r total wd wr,
    R (searched_names config companies) wd wr ->
    List.map ProductAction.action_type actions_d
    = List.map ProductAction.action_type actions_r ->
    loop_sim total
      (process_companies_loop cl config companies deal_id atts true actions_d
         total wd)
      (process_companies_loop cl config companies deal_id atts false
         actions_r total wr).
Proof.
  intros Hatts.
  induction companies as [|c rest IH];
    intros actions_d actions_r total wd wr HR Hk.
  - cbn. repeat split. exact Hk.
  - rewrite searched_names_cons in HR.
    pose proof (process_company_outcome cl config c deal_id atts true wd)
      as Od.
    pose proof (process_company_outcome cl config c deal_id atts false wr)
      as Or.
    assert (S : company_sim (R (searched_names config rest))
                  (_process_company cl config c deal_id atts true wd)
                  (_process_company cl config c deal_id atts false wr)).
    { destruct (truthy_message (_validate_company config c)) eqn:V.
      - rewrite !(process_company_invalid cl config c deal_id atts _ _ V).
        right. eexists _, _. cbn. repeat split. exact HR.
      - apply process_company_sim; assumption. }
    destruct (_process_company cl config c deal_id atts true wd)
      as [rd wd1] eqn:Ed.
    destruct (_process_company cl config c deal_id atts false wr)
      as [rr wr1] eqn:Er.
    destruct S as [(e & Hd & Hr) | (ad & ar & Hd & Hr & Hkind & HR')];
      cbn in Hd, Hr; subst rd rr.
    + cbn [process_companies_loop].
      rewrite (bind_raise _ _ _ _ _ Ed), (bind_raise _ _ _ _ _ Er).
      reflexivity.
    + cbn in HR'.
      rewrite (process_companies_loop_step cl config c rest deal_id atts true
                 actions_d total wd ad wd1 Ed Od).
      rewrite (process_companies_loop_step cl config c rest deal_id atts false
                 actions_r total wr ar wr1 Er Or).
      apply IH; [exact HR'|].
      rewrite !map_app. cbn. congruence.
Qed.

Lemma link_submission_sim submission w :
  Submission.deal_id submission = Some deal_id ->
  (forall deal w1 atts w2,
      get_deal_by_id cl deal_id w = (Ret (Some deal), w1) ->
      get_deal_products cl deal_id w1 = (Ret atts, w2) ->
      Forall listed atts
      /\ R (searched_names config
              (_get_companies_to_process config submission)) w2 w2) ->
  same_outcome (fst (link_submission cl config submission true w))
    (fst (link_submission cl config submission false w)).
Proof.
  assert (Hsame : forall r, same_outcome (Ret r) (Ret r)).
  { intros r. repeat split. }
  intros Hd Hstart. unfold link_submission. rewrite Hd.
  destruct (_get_companies_to_process config submission) as [|c cs] eqn:C.
  { apply Hsame. }
  unfold try_except, bind.
  destruct (get_deal_by_id cl deal_id w) as [[[deal|]|e] w1] eqn:G.
  - cbn [ret].
    destruct (get_deal_products cl deal_id w1) as [[atts|e] w2] eqn:P.
    + cbn [ret].
      destruct (Hstart deal w1 atts w2 eq_refl P) as [Hatts HR].
      pose proof (process_companies_loop_sim (c :: cs) atts Hatts [] []
                    0%float w2 w2 HR eq_refl) as L.
      unfold loop_sim in L.
      destruct (process_companies_loop cl config (c :: cs) deal_id atts true
                  [] 0%float w2) as [[[ld td]|ed] wd3];
        destruct (process_companies_loop cl config (c :: cs) deal_id atts
                    false [] 0%float w2) as [[[lr tr]|er] wr3];
        cbn in L; try contradiction; [|exact L].
      destruct L as (Hk & -> & ->). cbn.
      repeat split; cbn; try (apply count_actions_kinds; exact Hk);
        try exact Hk.
      apply overall_status_kinds, Hk.
    + destruct (isinstance_APIError e); cbn;
        first [apply Hsame | reflexivity].
  - destruct (Config.skip_orphaned_deals config); cbn;
      first [apply Hsame | reflexivity].
  - destruct (isinstance_APIError e); cbn;
      first [apply Hsame | reflexivity].
Qed.
End DryRun.

(** *** A dry run only reads *)

Lemma reads_only_refl tr : reads_only tr tr.
Proof. exists []. split; [symmetry; apply app_nil_r | reflexivity]. Qed.

Lemma reads_only_trans tr1 tr2 tr3 :
  reads_only tr1 tr2 -> reads_only tr2 tr3 -> reads_only tr1 tr3.
Proof.
  intros (l & -> & H) (l' & -> & H'). exists (l ++ l').
  split; [symmetry; apply app_assoc|].
  unfold mutating_calls in *. rewrite List.filter_app, H, H'. reflexivity.
Qed.

Section Quiet.
Context {W : Type}.
Variable cl : Client W.
Variable config : Config.t.

Lemma quiet_ret {A} (a : A) : quiet (W := W) (ret a).
Proof. intros w tr. apply reads_only_refl. Qed.

Lemma quiet_raise {A} e : quiet (W := W) (A := A) (raise e).
Proof. intros w tr. apply reads_only_refl. Qed.

Lemma quiet_lift {A} (r : result A) : quiet (W := W) (lift r).
Proof. intros w tr. apply reads_only_refl. Qed.

Lemma quiet_bind {A B} (m : M (W * list call) A) (k : A -> M (W * list call) B) :
  quiet m -> (forall a, quiet (k a)) -> quiet (bind m k).
Proof.
  intros Hm Hk w tr. unfold bind. specialize (Hm w tr).
  destruct (m (w, tr)) as [[a|e] [w1 tr1]]; cbn in *; [|exact Hm].
  eapply reads_only_trans; [exact Hm | apply Hk].
Qed.

Lemma quiet_try_except {A} (m : M (W * list call) A) catches h :
  quiet m -> (forall e, quiet (h e)) -> quiet (try_except m catches h).
Proof.
  intros Hm Hh w tr. unfold try_except. specialize (Hm w tr).
  destruct (m (w, tr)) as [[a|e] [w1 tr1]]; cbn in *; [exact Hm|].
  destruct (catches e); [|exact Hm].
  eapply reads_only_trans; [exact Hm | apply Hh].
Qed.

Lemma quiet_traced_op {A} (c : call) (m : M W A) :
  is_mutating c = false -> quiet (traced_op c m).
Proof.
  intros Hc w tr. unfold traced_op. cbn. destruct (m w) as [r w1]. cbn.
  exists [c]. split; [reflexivity|]. unfold mutating_calls. cbn.
  rewrite Hc. reflexivity.
Qed.

Lemma find_or_create_product_quiet name :
  quiet (_find_or_create_product (traced cl) config name true).
Proof.
  unfold _find_or_create_product. apply quiet_bind.
  - apply quiet_traced_op. reflexivity.
  - intros [p|]; [apply quiet_ret|].
    destruct (Config.auto_create_products config); apply quiet_ret.
Qed.

Lemma attach_new_product_quiet company product quantity price deal_id :
  quiet (_attach_new_product (traced cl) company product quantity price
           deal_id true).
Proof. apply quiet_ret. Qed.

Lemma update_attachment_quiet company product existing quantity price
    deal_id :
  quiet (_update_attachment (traced cl) config company product existing
           quantity price deal_id true).
Proof.
  unfold _update_attachment.
  destruct (update_selection config existing quantity price) as [[uq up]|];
    [|apply quiet_ret].
  destruct (negb uq && negb up); apply quiet_ret.
Qed.

Lemma handle_duplicate_attachment_quiet company product existing quantity
    price deal_id :
  quiet (_handle_duplicate_attachment (traced cl) config company product
           existing quantity price deal_id true).
Proof.
  unfold _handle_duplicate_attachment.
  destruct (quantity_matches existing quantity && price_matches existing price);
    [apply quiet_ret|].
  destruct (Config.duplicate_attachment_action config);
    first [ apply quiet_ret | apply update_attachment_quiet
          | apply attach_new_product_quiet ].
Qed.

Lemma process_company_quiet company deal_id atts :
  quiet (_process_company (traced cl) config company deal_id atts true).
Proof.
  unfold _process_company. apply quiet_try_except; [|intros e; apply quiet_ret].
  destruct (truthy_message (_validate_company config company));
    [apply quiet_ret|].
  apply quiet_bind; [apply find_or_create_product_quiet|].
  intros [[product|] catalog_action]; [|apply quiet_ret].
  apply quiet_bind; [apply quiet_lift|]. intros [quantity price].
  apply quiet_bind.
  - destruct (_find_existing_attachment (PipedriveProduct.id product) atts);
      [apply handle_duplicate_attachment_quiet | apply attach_new_product_quiet].
  - intros action. destruct catalog_action as [k|]; [|apply quiet_ret].
    destruct (ProductActionType.truthy (Some k)
              && negb (ProductActionType.eqb (ProductAction.action_type action)
                         ProductActionType.ERROR)); apply quiet_ret.
Qed.

Lemma process_companies_loop_quiet companies deal_id atts :
  forall actions total,
    quiet (process_companies_loop (traced cl) config companies deal_id atts
             true actions total).
Proof.
  induction companies as [|c rest IH]; intros actions total; cbn.
  - apply quiet_ret.
  - apply quiet_bind; [apply process_company_quiet|]. intros action.
    apply quiet_bind; [|intros total'; apply IH].
    destruct (ProductActionType.is_attach_or_update
                (ProductAction.action_type action)); [|apply quiet_ret].
    destruct (ProductAction.new_quantity action) as [q|]; [|apply quiet_ret].
    destruct (ProductAction.new_price action) as [p|]; [|apply quiet_ret].
    apply quiet_bind; [apply quiet_lift | intros v; apply quiet_ret].
Qed.

Lemma link_submission_quiet submission :
  quiet (link_submission (traced cl) config submission true).
Proof.
  unfold link_submission.
  destruct (Submission.deal_id submission) as [deal_id|]; [|apply quiet_ret].
  destruct (_get_companies_to_process config submission) as [|c cs];
    [apply quiet_ret|].
  apply quiet_bind.
  - apply quiet_try_except; [|intros e; apply quiet_ret].
    apply quiet_bind; [apply quiet_traced_op; reflexivity|].
    intros [deal|]; [apply quiet_ret|].
    destruct (Config.skip_orphaned_deals config);
      [apply quiet_ret | apply quiet_raise].
  - intros [r|]; [apply quiet_ret|].
    apply quiet_bind.
    + apply quiet_try_except; [|intros e; apply quiet_ret].
      apply quiet_bind; [apply quiet_traced_op; reflexivity|].
      intros l. apply quiet_ret.
    + intros [atts|r]; [|apply quiet_ret].
      apply quiet_bind; [apply process_companies_loop_quiet|].
      intros [actions total]. apply quiet_ret.
Qed.
End Quiet.

(** *** The in-memory remote meets the assumptions *)

Lemma find_app {A} (f : A -> bool) (l1 l2 : list A) :
  List.find f (l1 ++ l2)
  = match List.find f l1 with
    | Some x => Some x
    | None => List.find f l2
    end.
Proof.
  induction l1 as [|x l1 IH]; cbn; [reflexivity|].
  destruct (f x); [reflexivity | exact IH].
Qed.

Section FakeRemoteFacts.
Variable start : FakeRemote.world.
Variable deal_id : Z.

Lemma fake_search_agrees : search_agrees FakeRemote.client (fake_R start).
Proof.
  intros name names wd wr (-> & Habs & (created & Hcat & Hcr) & Hid & Hatt).
  exists (Ret (List.find (named name) (FakeRemote.catalog start))), start, wr.
  split; [reflexivity|]. split.
  - cbn. unfold FakeRemote.fake_search_product_by_name.
    change (fun p : PipedriveProduct.t =>
              String.eqb (py_strip (PipedriveProduct.name p)) (py_strip name))
      with (named name).
    rewrite Hcat, find_app.
    pose proof (Forall_inv Hcr) as Hn. cbn in Hn. rewrite Hn.
    destruct (List.find (named name) (FakeRemote.catalog start)); reflexivity.
  - repeat split; trivial. exists created. split; assumption.
Qed.

Lemma fake_R_tail name names wd wr :
  fake_R start (name :: names) wd wr -> fake_R start names wd wr.
Proof.
  intros (-> & Habs & (created & Hcat & Hcr) & Hid & Hatt).
  cbn [absent_once] in Habs. apply andb_true_iff in Habs.
  repeat split; trivial; [apply Habs|].
  exists created. split; [exact Hcat | exact (Forall_inv_tail Hcr)].
Qed.

Lemma fake_R_start names :
  absent_once (FakeRemote.catalog start) names = true ->
  fake_R start names start start.
Proof.
  intros Habs. repeat split; trivial; [|lia|].
  - exists []. split; [symmetry; apply app_nil_r|].
    apply List.Forall_forall. intros n _. reflexivity.
  - intros a Ha. exists a. repeat split. exact Ha.
Qed.

Lemma fresh_ids_listed a :
  fresh_ids start = true -> fake_listed start deal_id a ->
  DealProductAttachment.product_id a < FakeRemote.next_id start
  /\ DealProductAttachment.product_id a <> 999999.
Proof.
  intros Hfresh [Hin _]. unfold fresh_ids in Hfresh.
  pose proof (proj1 (forallb_forall _ _) Hfresh a Hin) as H.
  apply andb_true_iff in H. destruct H as [H1 H2].
  apply Z.ltb_lt in H1. apply negb_true_iff, Z.eqb_neq in H2.
  split; assumption.
Qed.

Lemma fake_placeholder_not_attached :
  fresh_ids start = true ->
  ~ holds_product (fake_listed start deal_id) 999999.
Proof.
  intros Hfresh (a & Hl & Hp).
  destruct (fresh_ids_listed a Hfresh Hl) as [_ H]. contradiction.
Qed.

Lemma fake_create_succeeds :
  fresh_ids start = true ->
  create_succeeds FakeRemote.client (fake_R start) (fake_listed start deal_id).
Proof.
  intros Hfresh name names code active visible_to wd0 wd wr Hs
    (-> & Habs & (created & Hcat & Hcr) & Hid & Hatt).
  cbn in Hs. unfold FakeRemote.fake_search_product_by_name in Hs.
  injection Hs as Hfind ->.
  change (fun p : PipedriveProduct.t =>
            String.eqb (py_strip (PipedriveProduct.name p)) (py_strip name))
    with (named name) in Hfind.
  cbn [absent_once] in Habs. rewrite Hfind in Habs.
  apply andb_true_iff in Habs. destruct Habs as [Hother Habs].
  eexists _, _. split; [reflexivity|]. split.
  - repeat split; trivial.
    + exists (created
              ++ [PipedriveProduct.mk (FakeRemote.next_id wr) name code active
                    []]).
      cbn. rewrite Hcat, <- app_assoc. split; [reflexivity|].
      apply List.Forall_forall. intros n Hn.
      rewrite find_app.
      rewrite (proj1 (List.Forall_forall _ _) (Forall_inv_tail Hcr) n Hn).
      cbn [List.find]. unfold named. cbn [PipedriveProduct.name].
      pose proof (proj1 (forallb_forall _ _) Hother n Hn) as E.
      apply negb_true_iff in E. rewrite String.eqb_sym, E. reflexivity.
    + cbn. lia.
  - intros (a & Hl & Hp). cbn in Hp.
    destruct (fresh_ids_listed a Hfresh Hl) as [H _]. lia.
Qed.

Lemma fake_attach_succeeds : attach_succeeds FakeRemote.client (fake_R start).
Proof.
  intros names d product_id item_price quantity comments wd wr
    (-> & Habs & Hcat & Hid & Hatt).
  eexists _, _. split; [reflexivity|].
  repeat split; trivial; [cbn; lia|].
  intros a Ha. destruct (Hatt a Ha) as (a' & I & E).
  exists a'. split; [cbn; apply in_or_app; left; exact I | exact E].
Qed.

Lemma fake_update_succeeds :
  update_succeeds FakeRemote.client (fake_R start) (fake_listed start deal_id)
    deal_id.
Proof.
  intros names a item_price quantity comments wd wr [Hin Hdeal]
    (-> & Habs & Hcat & Hid & Hatt).
  cbn. unfold FakeRemote.fake_update_deal_product_attachment.
  destruct (Hatt a Hin) as (a' & I & E1 & E2).
  set (is_it := fun x : DealProductAttachment.t =>
                  (DealProductAttachment.id x =? DealProductAttachment.id a)
                  && (DealProductAttachment.deal_id x =? deal_id)).
  destruct (List.find is_it (FakeRemote.attachments wr)) as [x|] eqn:F.
  2: { exfalso. pose proof (List.find_none _ _ F a' I) as N.
       unfold is_it in N. rewrite E1, E2, Hdeal, !Z.eqb_refl in N.
       discriminate. }
  eexists _, _. split; [reflexivity|].
  repeat split; trivial.
  intros b Hb. destruct (Hatt b Hb) as (b' & Ib & Eb1 & Eb2).
  exists (if is_it b'
          then FakeRemote.updated x item_price quantity comments else b').
  split.
  - cbn. exact (in_map (fun y => if is_it y
                                 then FakeRemote.updated x item_price quantity
                                        comments
                                 else y) _ b' Ib).
  - destruct (is_it b') eqn:T; [|split; assumption].
    destruct (List.find_some _ _ F) as [_ Tx].
    unfold is_it in T, Tx.
    apply andb_true_iff in T, Tx. destruct T as [T1 T2], Tx as [X1 X2].
    apply Z.eqb_eq in T1, T2, X1, X2. cbn. split; congruence.
Qed.

Lemma fake_fetch_listed w atts w2 :
  get_deal_products FakeRemote.client deal_id w = (Ret atts, w2) ->
  w = start ->
  w2 = start /\ Forall (fake_listed start deal_id) atts.
Proof.
  cbn. unfold FakeRemote.fake_get_deal_products. intros [= <- <-] ->.
  split; [reflexivity|]. apply List.Forall_forall. intros a Ha.
  apply filter_In in Ha. destruct Ha as [Hin Hd].
  split; [exact Hin | apply Z.eqb_eq; exact Hd].
Qed.
End FakeRemoteFacts.

(** On the in-memory remote a dry run and a real run from the same world
    end alike whenever every product name that the catalog does not hold
    is searched once, and no attachment is of a product with the
    placeholder id or with an id that a create can return. *)
Lemma fake_remote_dry_run_agrees (config : Config.t)
    (submission : Submission.t) (w : FakeRemote.world) :
  fresh_ids w = true ->
  absent_once (FakeRemote.catalog w)
    (searched_names config (_get_companies_to_process config submission))
  = true ->
  same_outcome
    (fst (link_submission FakeRemote.client config submission true w))
    (fst (link_submission FakeRemote.client config submission false w)).
Proof.
  intros Hfresh Habs.
  destruct (Submission.deal_id submission) as [d|] eqn:Hd.
  2: { unfold link_submission. rewrite Hd. repeat split. }
  apply (link_submission_sim FakeRemote.client config (fake_R w)
           (fake_listed w d) d).
  - apply fake_search_agrees.
  - apply fake_R_tail.
  - apply fake_create_succeeds, Hfresh.
  - apply fake_attach_succeeds.
  - apply fake_update_succeeds.
  - apply fake_placeholder_not_attached, Hfresh.
  - exact Hd.
  - intros deal w1 atts w2 Hg Hp. cbn in Hg. injection Hg as _ <-.
    destruct (fake_fetch_listed w d w atts w2 Hp eq_refl) as [-> Hl].
    split; [exact Hl | apply fake_R_start, Habs].
Qed.

(** C9 (as amended): a dry run and a real run of a submission that start in
    the same world.  First part, any client.  Let the catalog search for a
    name answer alike in the two runs for as long as that name is still to
    be searched ([R] is what the worlds of the two runs have in common by
    then), whatever the real run has attached or updated, or created under
    a name it does not search again; let every create, attach and update
    of the real run succeed; and let neither the placeholder id 999999 nor
    the id of a product that the real run creates be the product id of an
    attachment in the list fetched for the deal.  Then the two runs end
    alike: they raise the same exception, or they return outcomes with the
    same status, the same action kinds in the same order, the same number
    of companies processed and the same counts.  Second part, the
    in-memory remote meets these conditions, so that the two runs end alike
    on it, for every configuration and submission, whenever no product
    name that the catalog lacks is searched twice and no attachment is of
    a product with the placeholder id or with an id not yet given out.
    Third part: a dry run, with any client, adds to the trace only calls
    that do not write. *)
Theorem dry_run_agrees_with_real_run :
  (forall W (cl : Client W) (config : Config.t)
          (R : list string -> W -> W -> Prop)
          (listed : DealProductAttachment.t -> Prop)
          (submission : Submission.t) (w : W),
      search_agrees cl R ->
      (forall name names wd wr, R (name :: names) wd wr -> R names wd wr) ->
      create_succeeds cl R listed ->
      attach_succeeds cl R ->
      (forall deal_id,
          Submission.deal_id submission = Some deal_id ->
          update_succeeds cl R listed deal_id) ->
      ~ holds_product listed 999999 ->
      (forall deal_id deal w1 atts w2,
          Submission.deal_id submission = Some deal_id ->
          get_deal_by_id cl deal_id w = (Ret (Some deal), w1) ->
          get_deal_products cl deal_id w1 = (Ret atts, w2) ->
          Forall listed atts
          /\ R (searched_names config
                  (_get_companies_to_process config submission)) w2 w2) ->
      same_outcome (fst (link_submission cl config submission true w))
        (fst (link_submission cl config submission false w)))
  /\ (forall (config : Config.t) (submission : Submission.t)
             (w : FakeRemote.world),
        fresh_ids w = true ->
        absent_once (FakeRemote.catalog w)
          (searched_names config
             (_get_companies_to_process config submission)) = true ->
        same_outcome
          (fst (link_submission FakeRemote.client config submission true w))
          (fst (link_submission FakeRemote.client config submission false
                  w)))
  /\ (forall W (cl : Client W) (config : Config.t)
             (submission : Submission.t) (w : W) (tr : list call),
        reads_only tr
          (snd (snd (link_submission (traced cl) config submission true
                       (w, tr))))).
Proof.
  split; [|split].
  - intros W cl config R listed submission w H1 H2 H3 H4 H5 H6 H7.
    destruct (Submission.deal_id submission) as [d|] eqn:Hd.
    + exact (link_submission_sim cl config R listed d H1 H2 H3 H4
               (H5 d eq_refl) H6 submission w Hd
               (fun deal w1 atts w2 => H7 d deal w1 atts w2 eq_refl)).
    + unfold link_submission. rewrite Hd. repeat split.
  - exact fake_remote_dry_run_agrees.
  - intros W cl config submission w tr. apply link_submission_quiet.
Qed.

(** The in-memory remote: Acme is in the catalog and attached to the deal
    with another quantity, so that the real run updates; Bolt is not in
    the catalog, so that the real run creates and attaches it. *)
Lemma dry_run_agrees_with_real_run_witness :
  let w := Scenario.world_found [Scenario.attachment 11 10 2.0%float] in
  let submission :=
    Scenario.submission [Scenario.company (Some 50);
                         Scenario.other_company (Some 3)] in
  same_outcome
    (fst (link_submission FakeRemote.client Scenario.config submission true
            w))
    (fst (link_submission FakeRemote.client Scenario.config submission false
            w))
  /\ mutating_calls
       (snd (snd (link_submission (traced FakeRemote.client) Scenario.config
                    submission true (w, [])))) = []
  /\ List.length
       (mutating_calls
          (snd (snd (link_submission (traced FakeRemote.client)
                       Scenario.config submission false (w, [])))))
     = 3%nat.
Proof.
  intros w submission.
  destruct dry_run_agrees_with_real_run as (Hany & _ & Hquiet).
  split; [|split].
  - apply (Hany _ FakeRemote.client Scenario.config (fake_R w)
             (fake_listed w 7) submission w).
    + apply fake_search_agrees.
    + apply fake_R_tail.
    + apply fake_create_succeeds. reflexivity.
    + apply fake_attach_succeeds.
    + intros d Hd. injection Hd as <-. apply fake_update_succeeds.
    + apply fake_placeholder_not_attached. reflexivity.
    + intros d deal w1 atts w2 Hd Hg Hp. injection Hd as <-.
      cbn in Hg. injection Hg as _ <-.
      destruct (fake_fetch_listed w 7 w atts w2 Hp eq_refl) as [-> Hl].
      split; [exact Hl | apply fake_R_start; reflexivity].
  - destruct (Hquiet _ FakeRemote.client Scenario.config submission w [])
      as (l & E & Hl).
    rewrite E. exact Hl.
  - vm_compute. reflexivity.
Defined.

(** C9, as stated, fails: two companies of the same name, on the in-memory
    remote.  Every write of the real run succeeds; its second search finds
    the product the first company created, a dry run creates nothing and so
    finds nothing: the kinds and the counts of the two runs differ. *)
Lemma dry_run_differs_once_a_create_is_visible :
  let submission :=
    Scenario.submission [Scenario.company (Some 50);
                         Scenario.company (Some 50)] in
  let dry :=
    link_submission (traced FakeRemote.client) Scenario.config submission
      true (Scenario.world_empty, []) in
  let real :=
    link_submission (traced FakeRemote.client) Scenario.config submission
      false (Scenario.world_empty, []) in
  (exists d r,
      fst dry = Ret d /\ fst real = Ret r
      /\ kinds d = [ProductActionType.CREATED_CATALOG;
                    ProductActionType.CREATED_CATALOG]
      /\ kinds r = [ProductActionType.CREATED_CATALOG;
                    ProductActionType.FOUND_CATALOG]
      /\ LinkResult.products_created d = 2
      /\ LinkResult.products_created r = 1)
  /\ mutating_calls (snd (snd real))
     = [Call_create_product "Acme Inc" None true 3;
        Call_attach_product_to_deal 7 100 2.0%float 50
          (Some "AUTO_ATTACHED|company:Acme Inc.");
        Call_attach_product_to_deal 7 100 2.0%float 50
          (Some "AUTO_ATTACHED|company:Acme Inc.")].
Proof.
  vm_compute. split; [|reflexivity]. eexists _, _. repeat split.
Qed.

(** They differ as well when the deal holds an attachment whose product id
    is the placeholder 999999. *)
Example dry_run_differs_when_the_placeholder_is_attached :
  let config :=
    Scenario.config_with 2.0%float DuplicateAction.ERROR
      W2ChangeAction.UPDATE_BOTH in
  let submission := Scenario.submission [Scenario.company (Some 50)] in
  let world :=
    FakeRemote.mkWorld [7] []
      [DealProductAttachment.mk 11 999999 7 2.0%float 10 0%float "Other" None]
      100 in
  let dry := link_submission FakeRemote.client config submission true world in
  let real := link_submission FakeRemote.client config submission false world in
  exists d r,
    fst dry = Ret d /\ fst real = Ret r
    /\ kinds d = [ProductActionType.ERROR]
    /\ kinds r = [ProductActionType.CREATED_CATALOG].
Proof. vm_compute. eexists _, _. repeat split. Qed.

(** ** What a run adds to the trace: budgets and shapes of calls *)

Section Emits.
Context {W : Type}.

Lemma emits_weaken {A} (Q Q' : list call -> Prop) (m : M (W * list call) A) :
  (forall l, Q l -> Q' l) -> emits Q m -> emits Q' m.
Proof.
  intros HQ Hm w tr. destruct (Hm w tr) as (l & E & Hl).
  exists l. split; [exact E | apply HQ, Hl].
Qed.

Lemma emits_pure {A} (Q : list call -> Prop) (r : result A) :
  Q [] -> emits (W := W) Q (lift r).
Proof.
  intros HQ w tr. exists []. split; [symmetry; apply app_nil_r | exact HQ].
Qed.

Lemma emits_bind {A B} (Q1 Q2 Q : list call -> Prop)
    (m : M (W * list call) A) (k : A -> M (W * list call) B) :
  emits Q1 m -> (forall a, emits Q2 (k a)) ->
  (forall l, Q1 l -> Q l) ->
  (forall l1 l2, Q1 l1 -> Q2 l2 -> Q (l1 ++ l2)) ->
  emits Q (bind m k).
Proof.
  intros Hm Hk Hraise Hcat w tr. unfold bind.
  destruct (Hm w tr) as (l1 & E1 & H1).
  destruct (m (w, tr)) as [[a|e] [w1 tr1]]; cbn in *; subst tr1.
  - destruct (Hk a w1 (tr ++ l1)) as (l2 & E2 & H2).
    exists (l1 ++ l2). split; [rewrite E2; symmetry; apply app_assoc|].
    apply Hcat; assumption.
  - exists l1. split; [reflexivity | apply Hraise, H1].
Qed.

Lemma emits_try_except {A} (Q1 Q2 Q : list call -> Prop)
    (m : M (W * list call) A) catches h :
  emits Q1 m -> (forall e, emits Q2 (h e)) ->
  (forall l, Q1 l -> Q l) ->
  (forall l1 l2, Q1 l1 -> Q2 l2 -> Q (l1 ++ l2)) ->
  emits Q (try_except m catches h).
Proof.
  intros Hm Hh Hpass Hcat w tr. unfold try_except.
  destruct (Hm w tr) as (l1 & E1 & H1).
  destruct (m (w, tr)) as [[a|e] [w1 tr1]]; cbn in *; subst tr1.
  - exists l1. split; [reflexivity | apply Hpass, H1].
  - destruct (catches e).
    + destruct (Hh e w1 (tr ++ l1)) as (l2 & E2 & H2).
      exists (l1 ++ l2). split; [rewrite E2; symmetry; apply app_assoc|].
      apply Hcat; assumption.
    + exists l1. split; [reflexivity | apply Hpass, H1].
Qed.

Lemma emits_traced_op {A} (Q : list call -> Prop) (c : call) (m : M W A) :
  Q [c] -> emits Q (traced_op c m).
Proof.
  intros HQ w tr. unfold traced_op. cbn. destruct (m w) as [r w1]. cbn.
  exists [c]. split; [reflexivity | exact HQ].
Qed.

Lemma count_calls_app sel l1 l2 :
  count_calls sel (l1 ++ l2) = (count_calls sel l1 + count_calls sel l2)%nat.
Proof.
  unfold count_calls. rewrite List.filter_app, List.length_app. reflexivity.
Qed.

Lemma at_most_weaken {A} sel n n' (m : M (W * list call) A) :
  (n <= n')%nat -> at_most sel n m -> at_most sel n' m.
Proof. intros Hn. apply emits_weaken. intros l Hl. lia. Qed.

Lemma at_most_pure {A} sel n (r : result A) : at_most (W := W) sel n (lift r).
Proof. apply emits_pure. cbn. lia. Qed.

Lemma at_most_ret {A} sel n (a : A) : at_most (W := W) sel n (ret a).
Proof. apply (at_most_pure sel n (Ret a)). Qed.

Lemma at_most_raise {A} sel n e : at_most (W := W) (A := A) sel n (raise e).
Proof. apply (at_most_pure sel n (Raise e)). Qed.

Lemma at_most_bind {A B} sel n1 n2 (m : M (W * list call) A)
    (k : A -> M (W * list call) B) :
  at_most sel n1 m -> (forall a, at_most sel n2 (k a)) ->
  at_most sel (n1 + n2)%nat (bind m k).
Proof.
  intros Hm Hk. eapply emits_bind; [exact Hm | exact Hk | |]; cbn.
  - intros l Hl. lia.
  - intros l1 l2 H1 H2. rewrite count_calls_app. lia.
Qed.

Lemma at_most_try_except {A} sel n1 n2 (m : M (W * list call) A) catches h :
  at_most sel n1 m -> (forall e, at_most sel n2 (h e)) ->
  at_most sel (n1 + n2)%nat (try_except m catches h).
Proof.
  intros Hm Hh. eapply emits_try_except; [exact Hm | exact Hh | |]; cbn.
  - intros l Hl. lia.
  - intros l1 l2 H1 H2. rewrite count_calls_app. lia.
Qed.

Lemma at_most_traced_op {A} sel (c : call) (m : M W A) :
  at_most sel (Nat.b2n (sel (kind_of c))) (traced_op c m).
Proof.
  apply emits_traced_op. unfold count_calls. cbn.
  destruct (sel (kind_of c)); cbn; lia.
Qed.

Variable cl : Client W.
Variable config : Config.t.
Variable sel : call_kind -> bool.

Lemma find_or_create_product_at_most name dry_run :
  at_most sel
    (Nat.b2n (sel SearchProduct)
     + (if Config.auto_create_products config && negb dry_run
        then Nat.b2n (sel CreateProduct) else 0))%nat
    (_find_or_create_product (traced cl) config name dry_run).
Proof.
  unfold _find_or_create_product. apply at_most_bind.
  - apply (at_most_traced_op sel (Call_search_product_by_name name true)).
  - intros [p|]; [apply at_most_ret|].
    destruct (Config.auto_create_products config); [|apply at_most_ret].
    destruct dry_run; [apply at_most_ret|]. cbn [andb negb].
    apply (at_most_weaken sel (Nat.b2n (sel CreateProduct) + 0 + 0)%nat);
      [lia|].
    apply at_most_try_except; [|intros e; apply at_most_ret].
    apply at_most_bind; [|intros p; apply at_most_ret].
    apply (at_most_traced_op sel (Call_create_product name None _ _)).
Qed.

Lemma attach_new_product_at_most company product quantity price deal_id
    (dry_run : bool) :
  at_most sel (if dry_run then 0%nat else Nat.b2n (sel AttachProduct))
    (_attach_new_product (traced cl) company product quantity price deal_id
       dry_run).
Proof.
  unfold _attach_new_product. destruct dry_run; [apply at_most_ret|].
  apply (at_most_weaken sel (Nat.b2n (sel AttachProduct) + 0 + 0)%nat); [lia|].
  apply at_most_try_except; [|intros e; apply at_most_ret].
  apply at_most_bind; [|intros a; apply at_most_ret].
  apply (at_most_traced_op sel (Call_attach_product_to_deal _ _ _ _ _)).
Qed.

Lemma update_attachment_at_most company product existing quantity price
    deal_id (dry_run : bool) :
  at_most sel (if dry_run then 0%nat else Nat.b2n (sel UpdateAttachment))
    (_update_attachment (traced cl) config company product existing quantity
       price deal_id dry_run).
Proof.
  unfold _update_attachment.
  destruct (update_selection config existing quantity price) as [[uq up]|];
    [|apply at_most_ret].
  destruct (negb uq && negb up); [apply at_most_ret|].
  destruct dry_run; [apply at_most_ret|].
  apply (at_most_weaken sel (Nat.b2n (sel UpdateAttachment) + 0 + 0)%nat); [lia|].
  apply at_most_try_except; [|intros e; apply at_most_ret].
  apply at_most_bind; [|intros a; apply at_most_ret].
  apply (at_most_traced_op sel
           (Call_update_deal_product_attachment _ _ _ _ _)).
Qed.

Lemma handle_duplicate_attachment_at_most company product existing quantity
    price deal_id (dry_run : bool) :
  at_most sel
    (if dry_run then 0%nat
     else match Config.duplicate_attachment_action config with
          | DuplicateAction.UPDATE => Nat.b2n (sel UpdateAttachment)
          | DuplicateAction.FORCE_NEW => Nat.b2n (sel AttachProduct)
          | _ => 0%nat
          end)
    (_handle_duplicate_attachment (traced cl) config company product
       existing quantity price deal_id dry_run).
Proof.
  unfold _handle_duplicate_attachment.
  destruct (quantity_matches existing quantity && price_matches existing price);
    [apply at_most_ret|].
  destruct (Config.duplicate_attachment_action config);
    first [ apply at_most_ret | apply update_attachment_at_most
          | apply attach_new_product_at_most ].
Qed.

Lemma process_company_at_most company deal_id atts dry_run :
  at_most sel (per_company sel config dry_run)
    (_process_company (traced cl) config company deal_id atts dry_run).
Proof.
  unfold _process_company, per_company.
  set (nf := (Nat.b2n (sel SearchProduct)
              + (if Config.auto_create_products config && negb dry_run
                 then Nat.b2n (sel CreateProduct) else 0))%nat).
  set (nw := if dry_run then 0%nat
             else Nat.max (Nat.b2n (sel AttachProduct))
                    (match Config.duplicate_attachment_action config with
                     | DuplicateAction.UPDATE =>
                         Nat.b2n (sel UpdateAttachment)
                     | _ => 0%nat
                     end)).
  apply (at_most_weaken sel (nf + (0 + (nw + 0)) + 0)%nat); [lia|].
  apply at_most_try_except; [|intros e; apply at_most_ret].
  destruct (truthy_message (_validate_company config company));
    [apply at_most_ret|].
  apply at_most_bind; [apply find_or_create_product_at_most|].
  intros [[product|] catalog_action]; [|apply at_most_ret].
  apply at_most_bind; [apply at_most_pure|]. intros [quantity price].
  apply at_most_bind.
  - destruct (_find_existing_attachment (PipedriveProduct.id product) atts).
    + eapply at_most_weaken; [|apply handle_duplicate_attachment_at_most].
      subst nw. destruct dry_run; [lia|].
      destruct (Config.duplicate_attachment_action config); lia.
    + eapply at_most_weaken; [|apply attach_new_product_at_most].
      subst nw. destruct dry_run; lia.
  - intros action. destruct catalog_action as [k|]; [|apply at_most_ret].
    destruct (ProductActionType.truthy (Some k)
              && negb (ProductActionType.eqb
                         (ProductAction.action_type action)
                         ProductActionType.ERROR)); apply at_most_ret.
Qed.

Lemma process_companies_loop_at_most companies deal_id atts dry_run :
  forall actions total,
    at_most sel (List.length companies * per_company sel config dry_run)%nat
      (process_companies_loop (traced cl) config companies deal_id atts
         dry_run actions total).
Proof.
  induction companies as [|c rest IH]; intros actions total; cbn.
  - apply at_most_ret.
  - apply at_most_bind; [apply process_company_at_most|]. intros action.
    apply (at_most_bind sel 0%nat); [|intros total'; apply IH].
    destruct (ProductActionType.is_attach_or_update
                (ProductAction.action_type action)); [|apply at_most_ret].
    destruct (ProductAction.new_quantity action) as [q|]; [|apply at_most_ret].
    destruct (ProductAction.new_price action) as [p|]; [|apply at_most_ret].
    apply (at_most_bind sel 0%nat 0%nat); [apply at_most_pure|].
    intros v; apply at_most_ret.
Qed.

Lemma link_submission_at_most submission dry_run :
  at_most sel
    (Nat.b2n (sel GetDeal) + Nat.b2n (sel GetDealProducts)
     + List.length (_get_companies_to_process config submission)
       * per_company sel config dry_run)%nat
    (link_submission (traced cl) config submission dry_run).
Proof.
  unfold link_submission.
  destruct (Submission.deal_id submission) as [deal_id|]; [|apply at_most_ret].
  destruct (_get_companies_to_process config submission) as [|c cs];
    [apply at_most_ret|].
  set (n := (List.length (c :: cs) * per_company sel config dry_run)%nat).
  apply (at_most_weaken sel
           ((Nat.b2n (sel GetDeal) + 0 + 0)
            + ((Nat.b2n (sel GetDealProducts) + 0 + 0) + (n + 0)))%nat);
    [lia|].
  apply at_most_bind.
  - apply at_most_try_except; [|intros e; apply at_most_ret].
    apply at_most_bind;
      [apply (at_most_traced_op sel (Call_get_deal_by_id deal_id))|].
    intros [deal|]; [apply at_most_ret|].
    destruct (Config.skip_orphaned_deals config);
      [apply at_most_ret | apply at_most_raise].
  - intros [r|]; [apply at_most_ret|].
    apply at_most_bind.
    + apply at_most_try_except; [|intros e; apply at_most_ret].
      apply at_most_bind;
        [apply (at_most_traced_op sel (Call_get_deal_products deal_id))|].
      intros l. apply at_most_ret.
    + intros [atts|r]; [|apply at_most_ret].
      apply at_most_bind; [apply process_companies_loop_at_most|].
      intros [actions total]. apply at_most_ret.
Qed.
End Emits.

Lemma at_most_unique {W A} (m : M (W * list call) A) w tr l :
  snd (snd (m (w, tr))) = tr ++ l ->
  forall sel n, at_most sel n m -> (count_calls sel l <= n)%nat.
Proof.
  intros E sel n H. destruct (H w tr) as (l' & E' & Hl').
  rewrite E in E'. apply app_inv_head in E'. subst l'. exact Hl'.
Qed.

(** X1: the calls of one run of [link_submission], counted by kind: at
    most one deal lookup and one fetch of the attachment list, whatever
    the number of companies; for [n] companies to process at most [n]
    catalog searches, at most [n] creates (none in a dry run or when
    products are not created automatically), at most [n] writes to the
    deal, attach and update together (none in a dry run), and no update
    unless the duplicate policy is [UPDATE]. *)

Theorem link_submission_call_budget {W} (cl : Client W) (config : Config.t)
    (submission : Submission.t) (dry_run : bool) (w : W) (tr : list call) :
  let n := List.length (_get_companies_to_process config submission) in
  exists l,
    snd (snd (link_submission (traced cl) config submission dry_run (w, tr)))
    = tr ++ l
    /\ (count_calls (is_kind GetDeal) l <= 1)%nat
    /\ (count_calls (is_kind GetDealProducts) l <= 1)%nat
    /\ (count_calls (is_kind SearchProduct) l <= n)%nat
    /\ (count_calls (is_kind CreateProduct) l
        <= if Config.auto_create_products config && negb dry_run
           then n else 0)%nat
    /\ (count_calls writes_to_deal l <= if dry_run then 0 else n)%nat
    /\ (count_calls (is_kind UpdateAttachment) l
        <= match Config.duplicate_attachment_action config with
           | DuplicateAction.UPDATE => n
           | _ => 0
           end)%nat.
Proof.
  intros n.
  destruct (link_submission_at_most cl config (is_kind GetDeal) submission
              dry_run w tr) as (l & E & H1).
  exists l. split; [exact E|].
  pose proof (fun sel =>
    at_most_unique _ w tr l E sel _
      (link_submission_at_most cl config sel submission dry_run)) as H.
  fold n in H.
  repeat split.
  - specialize (H (is_kind GetDeal)). unfold per_company in H. cbn in H.
    destruct (Config.auto_create_products config && negb dry_run),
      dry_run, (Config.duplicate_attachment_action config); cbn in H; lia.
  - specialize (H (is_kind GetDealProducts)). unfold per_company in H.
    cbn in H.
    destruct (Config.auto_create_products config && negb dry_run),
      dry_run, (Config.duplicate_attachment_action config); cbn in H; lia.
  - specialize (H (is_kind SearchProduct)). unfold per_company in H.
    cbn in H.
    destruct (Config.auto_create_products config && negb dry_run),
      dry_run, (Config.duplicate_attachment_action config); cbn in H; lia.
  - specialize (H (is_kind CreateProduct)). unfold per_company in H.
    cbn in H.
    destruct (Config.auto_create_products config && negb dry_run),
      dry_run, (Config.duplicate_attachment_action config); cbn in H; lia.
  - specialize (H writes_to_deal). unfold per_company in H.
    cbn in H.
    destruct (Config.auto_create_products config && negb dry_run),
      dry_run, (Config.duplicate_attachment_action config); cbn in H; lia.
  - specialize (H (is_kind UpdateAttachment)). unfold per_company in H.
    cbn in H.
    destruct (Config.auto_create_products config && negb dry_run),
      dry_run, (Config.duplicate_attachment_action config); cbn in H; lia.
Qed.

Section Shapes.
Context {W : Type}.
Variable cl : Client W.
Variable config : Config.t.

Lemma only_pure {A} (P : call -> Prop) (r : result A) :
  emits (W := W) (Forall P) (lift r).
Proof. apply emits_pure. constructor. Qed.

Lemma only_ret {A} (P : call -> Prop) (a : A) :
  emits (W := W) (Forall P) (ret a).
Proof. apply (only_pure P (Ret a)). Qed.

Lemma only_bind {A B} (P : call -> Prop) (m : M (W * list call) A)
    (k : A -> M (W * list call) B) :
  emits (Forall P) m -> (forall a, emits (Forall P) (k a)) ->
  emits (Forall P) (bind m k).
Proof.
  intros Hm Hk. eapply emits_bind; [exact Hm | exact Hk | auto |].
  intros l1 l2 H1 H2. apply Forall_app. split; assumption.
Qed.

Lemma only_try_except {A} (P : call -> Prop) (m : M (W * list call) A)
    catches h :
  emits (Forall P) m -> (forall e, emits (Forall P) (h e)) ->
  emits (Forall P) (try_except m catches h).
Proof.
  intros Hm Hh. eapply emits_try_except; [exact Hm | exact Hh | auto |].
  intros l1 l2 H1 H2. apply Forall_app. split; assumption.
Qed.

Lemma only_traced_op {A} (P : call -> Prop) (c : call) (m : M W A) :
  P c -> emits (Forall P) (traced_op c m).
Proof. intros Hc. apply emits_traced_op. repeat constructor. exact Hc. Qed.

Variable company : AdditionalCompany.t.
Variable deal_id : Z.
Variable atts : list DealProductAttachment.t.

Lemma find_or_create_product_calls dry_run :
  emits (Forall (company_call config company deal_id atts))
    (_find_or_create_product (traced cl) config
       (_format_product_name config
          (AdditionalCompany.company_legal_name company)) dry_run).
Proof.
  unfold _find_or_create_product. apply only_bind.
  - apply only_traced_op. cbn. split; reflexivity.
  - intros [p|]; [apply only_ret|].
    destruct (Config.auto_create_products config) eqn:Hauto; [|apply only_ret].
    destruct dry_run; [apply only_ret|].
    apply only_try_except; [|intros e; apply only_ret].
    apply only_bind; [|intros p; apply only_ret].
    apply only_traced_op. cbn. rewrite Hauto. repeat split.
Qed.

Lemma attach_new_product_calls product quantity price dry_run :
  Config.duplicate_attachment_action config = DuplicateAction.FORCE_NEW
  \/ _find_existing_attachment (PipedriveProduct.id product) atts = None ->
  _calculate_quantity_and_price config
    (AdditionalCompany.w2_employee_count company) = Ret (quantity, price) ->
  emits (Forall (company_call config company deal_id atts))
    (_attach_new_product (traced cl) company product quantity price deal_id
       dry_run).
Proof.
  intros Hnew Hqp. unfold _attach_new_product.
  destruct dry_run; [apply only_ret|].
  apply only_try_except; [|intros e; apply only_ret].
  apply only_bind; [|intros a; apply only_ret].
  apply only_traced_op. cbn. repeat split; assumption.
Qed.

Lemma update_attachment_calls product existing quantity price dry_run :
  Config.duplicate_attachment_action config = DuplicateAction.UPDATE ->
  In existing atts ->
  _calculate_quantity_and_price config
    (AdditionalCompany.w2_employee_count company) = Ret (quantity, price) ->
  emits (Forall (company_call config company deal_id atts))
    (_update_attachment (traced cl) config company product existing quantity
       price deal_id dry_run).
Proof.
  intros Hdup Hin Hqp. unfold _update_attachment.
  destruct (update_selection config existing quantity price) as [[uq up]|];
    [|apply only_ret].
  destruct (negb uq && negb up); [apply only_ret|].
  destruct dry_run; [apply only_ret|].
  apply only_try_except; [|intros e; apply only_ret].
  apply only_bind; [|intros a; apply only_ret].
  apply only_traced_op. cbn. repeat split; try assumption.
  - exists existing. split; [exact Hin | reflexivity].
  - exists quantity, price. split; [exact Hqp|].
    split; [destruct up | destruct uq]; auto.
Qed.

Lemma handle_duplicate_attachment_calls product existing quantity price
    dry_run :
  In existing atts ->
  _calculate_quantity_and_price config
    (AdditionalCompany.w2_employee_count company) = Ret (quantity, price) ->
  emits (Forall (company_call config company deal_id atts))
    (_handle_duplicate_attachment (traced cl) config company product
       existing quantity price deal_id dry_run).
Proof.
  intros Hin Hqp. unfold _handle_duplicate_attachment.
  destruct (quantity_matches existing quantity && price_matches existing price);
    [apply only_ret|].
  destruct (Config.duplicate_attachment_action config) eqn:Hdup;
    try apply only_ret.
  - apply update_attachment_calls; assumption.
  - apply attach_new_product_calls; [left; exact Hdup | exact Hqp].
Qed.

Lemma emits_bind_lift {A B} (Q : list call -> Prop) (r : result A)
    (k : A -> M (W * list call) B) :
  Q [] -> (forall a, r = Ret a -> emits Q (k a)) -> emits Q (bind (lift r) k).
Proof.
  intros Hnil Hk. destruct r as [a|e].
  - intros w tr. exact (Hk a eq_refl w tr).
  - intros w tr. exists []. split; [symmetry; apply app_nil_r | exact Hnil].
Qed.

Lemma process_company_calls dry_run :
  emits (Forall (company_call config company deal_id atts))
    (_process_company (traced cl) config company deal_id atts dry_run).
Proof.
  unfold _process_company.
  apply only_try_except; [|intros e; apply only_ret].
  destruct (truthy_message (_validate_company config company));
    [apply only_ret|].
  apply only_bind; [apply find_or_create_product_calls|].
  intros [[product|] catalog_action]; [|apply only_ret].
  apply emits_bind_lift; [constructor|]. intros [quantity price] Hqp.
  apply only_bind.
  - destruct (_find_existing_attachment (PipedriveProduct.id product) atts)
      as [existing|] eqn:Hfind.
    + apply handle_duplicate_attachment_calls; [|exact Hqp].
      apply (find_existing_attachment_In _ _ _ Hfind).
    + apply attach_new_product_calls; [right; exact Hfind | exact Hqp].
  - intros action. destruct catalog_action as [k|]; [|apply only_ret].
    destruct (ProductActionType.truthy (Some k)
              && negb (ProductActionType.eqb
                         (ProductAction.action_type action)
                         ProductActionType.ERROR)); apply only_ret.
Qed.
End Shapes.

(** X2: every call that the loop over the companies issues belongs to one
    of the companies and has the shape of [company_call]: a search for the
    formatted name of the company, exact match asked; a create of that
    name without code, with the configured flags, only when products are
    created automatically; an attach to the deal of the submission, of a
    product that the fetched list does not hold unless the policy is
    [FORCE_NEW], with the computed quantity and price and the tracking
    comment; an update, under the policy [UPDATE] only, of an attachment
    of the fetched list, each field absent or the computed one.  The loop
    never looks up the deal nor fetches the list again. *)

Theorem process_companies_loop_calls {W} (cl : Client W) (config : Config.t)
    (companies : list AdditionalCompany.t) (deal_id : Z)
    (atts : list DealProductAttachment.t) (dry_run : bool)
    (actions : list ProductAction.t) (total : float) :
  emits
    (Forall (fun c => exists company,
               In company companies
               /\ company_call config company deal_id atts c))
    (process_companies_loop (traced cl) config companies deal_id atts dry_run
       actions total).
Proof.
  revert actions total.
  induction companies as [|c rest IH]; intros actions total; cbn.
  - apply only_ret.
  - apply only_bind.
    + eapply emits_weaken; [|apply process_company_calls].
      intros l Hl. eapply List.Forall_impl; [|exact Hl].
      intros x Hx. exists c. split; [left; reflexivity | exact Hx].
    + intros action. apply only_bind.
      * destruct (ProductActionType.is_attach_or_update
                    (ProductAction.action_type action)); [|apply only_ret].
        destruct (ProductAction.new_quantity action) as [q|];
          [|apply only_ret].
        destruct (ProductAction.new_price action) as [p|]; [|apply only_ret].
        apply only_bind; [apply only_pure | intros v; apply only_ret].
      * intros total'. eapply emits_weaken; [|apply IH].
        intros l Hl. eapply List.Forall_impl; [|exact Hl].
        intros x (company & Hin & Hx). exists company.
        split; [right; exact Hin | exact Hx].
Qed.
(** ** What [_process_company] and [link_submission] report *)

Section ActionFacts.
Context {W : Type}.
Variable cl : Client W.
Variable config : Config.t.
Variable company : AdditionalCompany.t.

Lemma updated_action_type_not_error uq up :
  updated_action_type uq up <> ProductActionType.ERROR.
Proof. destruct uq, up; discriminate. Qed.

Ltac about_tac :=
  intros [= <- _]; repeat split; cbn; try congruence;
  try (intros H; exfalso; revert H; apply updated_action_type_not_error).

Lemma attach_new_product_about product quantity price deal_id dry_run w a w' :
  _attach_new_product cl company product quantity price deal_id dry_run w
  = (Ret a, w') -> about company a.
Proof.
  unfold _attach_new_product, try_except, bind, ret.
  destruct dry_run; [about_tac|].
  destruct (attach_product_to_deal cl deal_id _ price quantity _ w)
    as [[x|e] w1]; [about_tac|].
  destruct (isinstance_APIError e); [about_tac | discriminate].
Qed.

Lemma update_attachment_about product existing quantity price deal_id dry_run
    w a w' :
  _update_attachment cl config company product existing quantity price
    deal_id dry_run w = (Ret a, w') -> about company a.
Proof.
  unfold _update_attachment, try_except, bind, ret.
  destruct (update_selection config existing quantity price) as [[uq up]|];
    [|about_tac].
  destruct (negb uq && negb up); [about_tac|].
  destruct dry_run; [about_tac|].
  destruct (update_deal_product_attachment cl deal_id _ _ _ None w)
    as [[x|e] w1]; [about_tac|].
  destruct (isinstance_APIError e); [about_tac | discriminate].
Qed.

Lemma handle_duplicate_attachment_about product existing quantity price
    deal_id dry_run w a w' :
  _handle_duplicate_attachment cl config company product existing quantity
    price deal_id dry_run w = (Ret a, w') -> about company a.
Proof.
  unfold _handle_duplicate_attachment.
  destruct (quantity_matches existing quantity && price_matches existing price);
    [unfold ret; about_tac|].
  destruct (Config.duplicate_attachment_action config).
  - apply update_attachment_about.
  - unfold ret; about_tac.
  - unfold ret; about_tac.
  - apply attach_new_product_about.
Qed.

Lemma about_set_action_type k a :
  about company a -> k <> ProductActionType.ERROR ->
  ProductAction.action_type a <> ProductActionType.ERROR ->
  about company (ProductAction.set_action_type k a).
Proof.
  intros (Hn & Hw & He) Hk Ha. repeat split; cbn; try assumption.
  - intros K. contradiction.
  - intros M. exfalso. apply Ha, He, M.
Qed.
End ActionFacts.

Lemma process_company_about {W} (cl : Client W)
    (config : Config.t) (company : AdditionalCompany.t) (deal_id : Z)
    (atts : list DealProductAttachment.t) (dry_run : bool) (w w' : W)
    (a : ProductAction.t) :
  _process_company cl config company deal_id atts dry_run w = (Ret a, w') ->
  about company a.
Proof.
  unfold _process_company, try_except.
  match goal with |- context [match ?m w with _ => _ end] =>
    destruct (m w) as [[b|e] w1] eqn:E end.
  2: { destruct (isinstance_Exception e); [|discriminate].
       intros [= <- _]. repeat split; cbn; congruence. }
  intros [= <- <-]. revert E.
  unfold bind, ret, lift.
  destruct (_validate_company config company) as [msg|] eqn:V.
  - destruct (truthy_message (Some msg)) eqn:T.
    + intros [= <- _]. repeat split; cbn; congruence.
    + rewrite (validate_company_message_truthy _ _ _ V) in T. discriminate.
  - cbn [truthy_message].
    destruct (_find_or_create_product cl config _ dry_run w)
      as [[[po ca]|e] w2] eqn:F; [|discriminate].
    destruct po as [p|].
    2: { intros [= <- _]. repeat split; cbn; congruence. }
    apply find_or_create_catalog_action in F.
    destruct (_calculate_quantity_and_price config _) as [[q pr]|e];
      [|discriminate].
    match goal with |- context [match ?m w2 with _ => _ end] =>
      destruct (m w2) as [[c|e] w3] eqn:B end; [|discriminate].
    assert (Hb : about company c).
    { destruct (_find_existing_attachment (PipedriveProduct.id p) atts).
      - eapply handle_duplicate_attachment_about; exact B.
      - eapply attach_new_product_about; exact B. }
    destruct F as [-> | ->]; cbn;
      destruct (ProductActionType.eqb (ProductAction.action_type c)
                  ProductActionType.ERROR) eqn:K;
      cbn; intros [= <- _]; try exact Hb;
      (apply about_set_action_type; [exact Hb | discriminate |]);
      intros Kb; rewrite Kb in K; discriminate.
Qed.

(** X3: [_process_company] handles every [Exception], whatever the client
    does.  Either it returns one action, which names the company and its W2
    count, carries an error message exactly when its kind is [ERROR], and
    whose kind is a catalog kind or [ERROR]; or it lets through an
    exception that is not an [Exception] (a keyboard interrupt, a system
    exit) and that the search, the create, the attach or the update of the
    client raised.  So it always returns when the calls of the client raise
    nothing but [Exception]s. *)

Theorem process_company_always_reports {W} (cl : Client W)
    (config : Config.t) (company : AdditionalCompany.t) (deal_id : Z)
    (atts : list DealProductAttachment.t) (dry_run : bool) (w : W) :
  match _process_company cl config company deal_id atts dry_run w with
  | (Ret a, _) =>
      about company a /\ catalog_or_error (ProductAction.action_type a)
  | (Raise e, _) =>
      isinstance_Exception e = false /\ company_call_raises cl e
  end
  /\ (raises_exceptions_only cl ->
      exists a w',
        _process_company cl config company deal_id atts dry_run w
        = (Ret a, w')).
Proof.
  pose proof (process_company_outcome cl config company deal_id atts dry_run
                w) as O.
  pose proof (process_company_about cl config company deal_id atts dry_run w)
    as A.
  destruct (_process_company cl config company deal_id atts dry_run w)
    as [[a|e] w'].
  - split; [split; [exact (A w' a eq_refl) | exact O]|].
    intros _. exists a, w'. reflexivity.
  - split; [exact O|]. intros H. destruct O as [K C].
    rewrite (H e C) in K. discriminate.
Qed.

(** X4: [_find_existing_attachment] returns the first attachment of the
    list that has the product, and [None] exactly when no attachment has
    it. *)

Theorem find_existing_attachment_first_match (product_id : Z)
    (atts : list DealProductAttachment.t) :
  match _find_existing_attachment product_id atts with
  | Some a => first_match product_id atts a
  | None =>
      Forall (fun x => DealProductAttachment.product_id x <> product_id) atts
  end.
Proof.
  induction atts as [|x rest IH]; cbn; [constructor|].
  destruct (DealProductAttachment.product_id x =? product_id) eqn:E.
  - exists [], rest. repeat split; [lia | constructor].
  - destruct (_find_existing_attachment product_id rest) as [a|].
    + destruct IH as (before & after & -> & Hp & Hb).
      exists (x :: before), after. repeat split; [exact Hp|].
      constructor; [lia | exact Hb].
    + constructor; [lia | exact IH].
Qed.

Lemma counters_partition (r : LinkResult.t) :
  counters_sum r = Z.of_nat (List.length (LinkResult.actions r)).
Proof.
  unfold counters_sum, LinkResult.products_created,
    LinkResult.products_found, LinkResult.attachments_created,
    LinkResult.attachments_updated, LinkResult.attachments_skipped,
    LinkResult.errors, LinkResult.count_actions.
  induction (LinkResult.actions r) as [|a l IH]; [reflexivity|].
  cbn [List.filter List.length].
  destruct (ProductAction.action_type a); cbn [ProductActionType.eqb orb];
    cbn [List.length]; lia.
Qed.

Lemma catalog_or_error_no_attachment_kind (actions : list ProductAction.t) :
  Forall (fun a => catalog_or_error (ProductAction.action_type a)) actions ->
  forall p,
    p ProductActionType.CREATED_CATALOG = false ->
    p ProductActionType.FOUND_CATALOG = false ->
    p ProductActionType.ERROR = false ->
    List.filter (fun a => p (ProductAction.action_type a)) actions = []
    /\ any_action p actions = false.
Proof.
  intros H p Hc Hf He. induction H as [|a l Ha Hl IH]; [split; reflexivity|].
  destruct IH as [IH1 IH2]. unfold any_action in *. cbn. rewrite IH1, IH2.
  destruct Ha as [-> | [-> | ->]]; rewrite ?Hc, ?Hf, ?He; split; reflexivity.
Qed.

Lemma overall_status_catalog_or_error (actions : list ProductAction.t) :
  Forall (fun a => catalog_or_error (ProductAction.action_type a)) actions ->
  overall_status actions = LinkStatus.FAILED_ERROR.
Proof.
  intros H. unfold overall_status.
  rewrite (proj2 (catalog_or_error_no_attachment_kind actions H
                    ProductActionType.is_attach_or_update
                    eq_refl eq_refl eq_refl)).
  rewrite (proj2 (catalog_or_error_no_attachment_kind actions H
                    (fun k => ProductActionType.eqb k
                                ProductActionType.SKIPPED_EXISTS)
                    eq_refl eq_refl eq_refl)).
  destruct (any_action _ actions); reflexivity.
Qed.

Lemma count_actions_catalog_or_error p (r : LinkResult.t) :
  Forall (fun a => catalog_or_error (ProductAction.action_type a))
    (LinkResult.actions r) ->
  p ProductActionType.CREATED_CATALOG = false ->
  p ProductActionType.FOUND_CATALOG = false ->
  p ProductActionType.ERROR = false ->
  LinkResult.count_actions p r = 0.
Proof.
  intros F Hc Hf He. unfold LinkResult.count_actions.
  rewrite (proj1 (catalog_or_error_no_attachment_kind _ F p Hc Hf He)).
  reflexivity.
Qed.

Lemma process_companies_loop_about {W} (cl : Client W) (config : Config.t)
    companies deal_id atts dry_run :
  forall actions total w l t w',
    process_companies_loop cl config companies deal_id atts dry_run actions
      total w = (Ret (l, t), w') ->
    exists actions',
      l = actions ++ actions' /\ t = total
      /\ Forall2 about companies actions'
      /\ Forall (fun a => catalog_or_error (ProductAction.action_type a))
           actions'.
Proof.
  induction companies as [|c rest IH]; intros actions total w l t w'.
  - cbn. intros [= <- <- _]. exists []. rewrite app_nil_r.
    repeat split; constructor.
  - pose proof (process_company_outcome cl config c deal_id atts dry_run w)
      as K.
    destruct (_process_company cl config c deal_id atts dry_run w)
      as [[a|e] w1] eqn:E.
    + rewrite (process_companies_loop_step cl config c rest deal_id atts
                 dry_run actions total w a w1 E K).
      intros H. destruct (IH _ _ _ _ _ _ H) as (l' & -> & -> & L & F).
      exists (a :: l'). rewrite <- app_assoc. cbn.
      repeat split; constructor; try assumption.
      eapply process_company_about; exact E.
    + cbn [process_companies_loop]. unfold bind at 1. rewrite E.
      discriminate.
Qed.

(** The shape of every outcome record. *)
Lemma link_submission_result {W} (cl : Client W) (config : Config.t)
    (submission : Submission.t) (dry_run : bool) (w w' : W)
    (r : LinkResult.t) :
  link_submission cl config submission dry_run w = (Ret r, w') ->
  (exists deal_id status msg,
      r = early_result submission deal_id status msg
      /\ before_the_loop status)
  \/ (exists deal_id actions,
        r = LinkResult.mk (Submission.id submission) (Some deal_id)
              LinkStatus.FAILED_ERROR
              (Z.of_nat (List.length
                           (_get_companies_to_process config submission)))
              actions 0%float None
        /\ Forall2 about (_get_companies_to_process config submission)
             actions
        /\ Forall (fun a => catalog_or_error (ProductAction.action_type a))
             actions).
Proof.
  unfold link_submission.
  destruct (Submission.deal_id submission) as [deal_id|].
  2: { intros [= <- _]. left. eexists _, _, _. split; [reflexivity|].
       left; reflexivity. }
  destruct (_get_companies_to_process config submission) as [|c cs].
  { intros [= <- _]. left. eexists _, _, _. split; [reflexivity|].
    right; left; reflexivity. }
  unfold bind, try_except, ret, raise.
  destruct (get_deal_by_id cl deal_id w) as [[[deal|]|e] w1].
  - destruct (get_deal_products cl deal_id w1) as [[atts|e] w2].
    + destruct (process_companies_loop cl config (c :: cs) deal_id atts
                  dry_run [] 0%float w2) as [[[l t]|e] w3] eqn:E;
        [|discriminate].
      destruct (process_companies_loop_about cl config (c :: cs) deal_id
                  atts dry_run [] 0%float w2 l t w3 E)
        as (l' & -> & -> & L & F).
      intros [= <- _]. right. exists deal_id, l'. cbn [app].
      rewrite (overall_status_catalog_or_error l' F).
      repeat split; assumption.
    + destruct (isinstance_APIError e); [|discriminate].
      intros [= <- _]. left. eexists _, _, _. split; [reflexivity|].
      right; right; right; reflexivity.
  - destruct (Config.skip_orphaned_deals config); [|discriminate].
    intros [= <- _]. left. eexists _, _, _. split; [reflexivity|].
    right; right; left; reflexivity.
  - destruct (isinstance_APIError e); [|discriminate].
    intros [= <- _]. left. eexists _, _, _. split; [reflexivity|].
    right; right; right; reflexivity.
Qed.

(** X5: an outcome that [link_submission] returns has one of the statuses
    no-deal-id, no-companies, orphaned and failed-error, a total value
    added of 0.0 and no attachment counted as created, updated or skipped:
    the kinds that would make it a success or a skip never reach the action
    list. *)

Theorem link_submission_never_reports_success {W} (cl : Client W)
    (config : Config.t) (submission : Submission.t) (dry_run : bool)
    (w w' : W) (r : LinkResult.t) :
  link_submission cl config submission dry_run w = (Ret r, w') ->
  before_the_loop (LinkResult.status r)
  /\ LinkResult.total_value_added r = 0%float
  /\ LinkResult.attachments_created r = 0
  /\ LinkResult.attachments_updated r = 0
  /\ LinkResult.attachments_skipped r = 0.
Proof.
  intros H. apply link_submission_result in H.
  destruct H as [(d & st & msg & -> & Hst)
                | (d & actions & -> & L & F)].
  - repeat split; trivial.
  - split; [right; right; right; reflexivity|]. split; [reflexivity|].
    repeat split;
      apply count_actions_catalog_or_error; solve [exact F | reflexivity].
Qed.

Lemma link_submission_never_reports_success_witness :
  let r :=
    LinkResult.mk "s1" (Some 7) LinkStatus.FAILED_ERROR 1
      [ProductAction.mk "Acme Inc." (Some 50)
         ProductActionType.FOUND_CATALOG (Some 5) (Some 100) None (Some 50)
         None (Some 2.0%float) None]
      0%float None in
  before_the_loop (LinkResult.status r)
  /\ LinkResult.total_value_added r = 0%float
  /\ LinkResult.attachments_created r = 0
  /\ LinkResult.attachments_updated r = 0
  /\ LinkResult.attachments_skipped r = 0.
Proof.
  apply (link_submission_never_reports_success FakeRemote.client
           Scenario.config
           (Scenario.submission [Scenario.company (Some 50)]) false
           (Scenario.world_found [])
           (snd (link_submission FakeRemote.client Scenario.config
                   (Scenario.submission [Scenario.company (Some 50)]) false
                   (Scenario.world_found [])))).
  vm_compute. reflexivity.
Defined.

(** X6: in an outcome that [link_submission] returns, the number of
    actions is [companies_processed], the six counters of the outcome add
    up to it, and the actions, when there are any, are one for each company
    to process, in order, each naming its company. *)

Theorem link_submission_counts_every_company {W} (cl : Client W)
    (config : Config.t) (submission : Submission.t) (dry_run : bool)
    (w w' : W) (r : LinkResult.t) :
  link_submission cl config submission dry_run w = (Ret r, w') ->
  Z.of_nat (List.length (LinkResult.actions r))
  = LinkResult.companies_processed r
  /\ counters_sum r = LinkResult.companies_processed r
  /\ (LinkResult.actions r = []
      \/ Forall2 about (_get_companies_to_process config submission)
           (LinkResult.actions r)).
Proof.
  intros H. rewrite counters_partition.
  apply link_submission_result in H.
  destruct H as [(d & st & msg & -> & Hst)
                | (d & actions & -> & L & F)].
  - repeat split. left; reflexivity.
  - cbn. rewrite (Forall2_length _ _ _ L). repeat split. right; exact L.
Qed.

Lemma link_submission_counts_every_company_witness :
  let r :=
    LinkResult.mk "s1" (Some 7) LinkStatus.FAILED_ERROR 1
      [ProductAction.mk "Acme Inc." (Some 50)
         ProductActionType.FOUND_CATALOG (Some 5) (Some 100) None (Some 50)
         None (Some 2.0%float) None]
      0%float None in
  Z.of_nat (List.length (LinkResult.actions r))
  = LinkResult.companies_processed r
  /\ counters_sum r = LinkResult.companies_processed r
  /\ (LinkResult.actions r = []
      \/ Forall2 about
           (_get_companies_to_process Scenario.config
              (Scenario.submission [Scenario.company (Some 50)]))
           (LinkResult.actions r)).
Proof.
  apply (link_submission_counts_every_company FakeRemote.client
           Scenario.config
           (Scenario.submission [Scenario.company (Some 50)]) false
           (Scenario.world_found [])
           (snd (link_submission FakeRemote.client Scenario.config
                   (Scenario.submission [Scenario.company (Some 50)]) false
                   (Scenario.world_found [])))).
  vm_compute. reflexivity.
Defined.

(** X7: the exceptions that escape [link_submission].  A run that raises
    had a deal id and a company to process, and either the deal lookup
    raised something that is not an [APIError], or it returned [None] with
    skip-orphans off (the [OrphanedDealError] with the deal and submission
    ids), or the fetch of the attachment list raised something that is not
    an [APIError], or the loop over the companies let through what a
    search, a create, an attach or an update of the client raised and that
    is not an [Exception] (a keyboard interrupt, a system exit).  No
    [Exception] that is raised while a company is processed escapes. *)

Theorem link_submission_raises {W} (cl : Client W) (config : Config.t)
    (submission : Submission.t) (dry_run : bool) (w w' : W) (e : exn) :
  link_submission cl config submission dry_run w = (Raise e, w') ->
  exists deal_id,
    Submission.deal_id submission = Some deal_id
    /\ _get_companies_to_process config submission <> []
    /\ ((get_deal_by_id cl deal_id w = (Raise e, w')
         /\ isinstance_APIError e = false)
        \/ (get_deal_by_id cl deal_id w = (Ret None, w')
            /\ Config.skip_orphaned_deals config = false
            /\ e = OrphanedDealError
                     ("Deal " +:+ pretty deal_id +:+ " not found") deal_id
                     (Submission.id submission))
        \/ (exists deal w1,
              get_deal_by_id cl deal_id w = (Ret (Some deal), w1)
              /\ get_deal_products cl deal_id w1 = (Raise e, w')
              /\ isinstance_APIError e = false)
        \/ (exists deal w1 atts w2,
              get_deal_by_id cl deal_id w = (Ret (Some deal), w1)
              /\ get_deal_products cl deal_id w1 = (Ret atts, w2)
              /\ process_companies_loop cl config
                   (_get_companies_to_process config submission) deal_id
                   atts dry_run [] 0%float w2 = (Raise e, w')
              /\ isinstance_Exception e = false
              /\ company_call_raises cl e)).
Proof.
  unfold link_submission.
  destruct (Submission.deal_id submission) as [deal_id|]; [|discriminate].
  destruct (_get_companies_to_process config submission) as [|c cs] eqn:C;
    [discriminate|].
  intros H. exists deal_id. split; [reflexivity|]. split; [discriminate|].
  revert H. unfold bind, try_except, ret, raise.
  destruct (get_deal_by_id cl deal_id w) as [[[deal|]|e0] w1].
  - destruct (get_deal_products cl deal_id w1) as [[atts|e1] w2] eqn:P.
    + pose proof (process_companies_loop_outcome cl config (c :: cs) deal_id
                    atts dry_run [] 0%float w2) as O.
      destruct (process_companies_loop cl config (c :: cs) deal_id atts
                  dry_run [] 0%float w2) as [[[l t]|e1] w3] eqn:E;
        [discriminate|].
      intros [= <- <-]. right; right; right. exists deal, w1, atts, w2.
      destruct O as [K R]. repeat split; trivial.
    + destruct (isinstance_APIError e1) eqn:K; [discriminate|].
      intros [= <- <-]. right; right; left. exists deal, w1.
      repeat split; trivial.
  - destruct (Config.skip_orphaned_deals config); [discriminate|].
    cbn. intros [= <- <-]. right; left. repeat split.
  - destruct (isinstance_APIError e0) eqn:K; [discriminate|].
    intros [= <- <-]. left. split; trivial.
Qed.

Lemma link_submission_raises_witness :
  exists deal_id,
    Submission.deal_id (Scenario.submission [Scenario.company (Some 50)])
    = Some deal_id
    /\ _get_companies_to_process (Scenario.gateway_config false)
         (Scenario.submission [Scenario.company (Some 50)]) <> []
    /\ ((get_deal_by_id FakeRemote.client deal_id
           (FakeRemote.mkWorld [] [] [] 100)
         = (Raise (OrphanedDealError "Deal 7 not found" 7 "s1"),
            FakeRemote.mkWorld [] [] [] 100)
         /\ isinstance_APIError
              (OrphanedDealError "Deal 7 not found" 7 "s1") = false)
        \/ (get_deal_by_id FakeRemote.client deal_id
              (FakeRemote.mkWorld [] [] [] 100)
            = (Ret None, FakeRemote.mkWorld [] [] [] 100)
            /\ Config.skip_orphaned_deals (Scenario.gateway_config false)
               = false
            /\ OrphanedDealError "Deal 7 not found" 7 "s1"
               = OrphanedDealError
                   ("Deal " +:+ pretty deal_id +:+ " not found") deal_id
                   (Submission.id
                      (Scenario.submission [Scenario.company (Some 50)])))
        \/ (exists deal w1,
              get_deal_by_id FakeRemote.client deal_id
                (FakeRemote.mkWorld [] [] [] 100) = (Ret (Some deal), w1)
              /\ get_deal_products FakeRemote.client deal_id w1
                 = (Raise (OrphanedDealError "Deal 7 not found" 7 "s1"),
                    FakeRemote.mkWorld [] [] [] 100)
              /\ isinstance_APIError
                   (OrphanedDealError "Deal 7 not found" 7 "s1") = false)
        \/ (exists deal w1 atts w2,
              get_deal_by_id FakeRemote.client deal_id
                (FakeRemote.mkWorld [] [] [] 100) = (Ret (Some deal), w1)
              /\ get_deal_products FakeRemote.client deal_id w1
                 = (Ret atts, w2)
              /\ process_companies_loop FakeRemote.client
                   (Scenario.gateway_config false)
                   (_get_companies_to_process (Scenario.gateway_config false)
                      (Scenario.submission [Scenario.company (Some 50)]))
                   deal_id atts false [] 0%float w2
                 = (Raise (OrphanedDealError "Deal 7 not found" 7 "s1"),
                    FakeRemote.mkWorld [] [] [] 100)
              /\ isinstance_Exception
                   (OrphanedDealError "Deal 7 not found" 7 "s1") = false
              /\ company_call_raises FakeRemote.client
                   (OrphanedDealError "Deal 7 not found" 7 "s1"))).
Proof.
  apply (link_submission_raises FakeRemote.client
           (Scenario.gateway_config false)
           (Scenario.submission [Scenario.company (Some 50)]) false
           (FakeRemote.mkWorld [] [] [] 100)
           (FakeRemote.mkWorld [] [] [] 100)
           (OrphanedDealError "Deal 7 not found" 7 "s1")).
  vm_compute. reflexivity.
Defined.

(** X8: a submission without deal id, or without company to process, is
    answered with no remote call at all (world and trace are left as they
    were); any other run starts with the lookup of the deal. *)

Theorem link_submission_first_call {W} (cl : Client W) (config : Config.t)
    (submission : Submission.t) (dry_run : bool) (w : W) (tr : list call) :
  let run := link_submission (traced cl) config submission dry_run (w, tr) in
  match Submission.deal_id submission,
        _get_companies_to_process config submission with
  | None, _ =>
      run = (Ret (early_result submission None LinkStatus.NO_DEAL_ID
                    "No dealId in submission"), (w, tr))
  | Some deal_id, [] =>
      run = (Ret (early_result submission (Some deal_id)
                    LinkStatus.NO_COMPANIES "No companies to process"),
             (w, tr))
  | Some deal_id, _ :: _ =>
      exists l, snd (snd run) = tr ++ Call_get_deal_by_id deal_id :: l
  end.
Proof.
  cbn zeta. unfold link_submission.
  destruct (Submission.deal_id submission) as [deal_id|]; [|reflexivity].
  destruct (_get_companies_to_process config submission) as [|c cs];
    [reflexivity|].
  match goal with |- exists l, snd (snd (?m (w, tr))) = _ =>
    assert (H : emits (fun l => exists l',
                         l = Call_get_deal_by_id deal_id :: l') m)
  end.
  2: { destruct (H w tr) as (l & E & l' & ->). exists l'. exact E. }
  apply (emits_bind (fun l => l = [Call_get_deal_by_id deal_id])
           (Forall (fun _ => True))).
  - apply (emits_try_except (fun l => l = [Call_get_deal_by_id deal_id])
             (fun l => l = [])).
    + apply (emits_bind (fun l => l = [Call_get_deal_by_id deal_id])
               (fun l => l = [])).
      * apply emits_traced_op. reflexivity.
      * intros [deal|]; [apply (emits_pure _ (Ret _)); reflexivity|].
        destruct (Config.skip_orphaned_deals config).
        -- apply (emits_pure _ (Ret _)); reflexivity.
        -- apply (emits_pure _ (Raise _)); reflexivity.
      * auto.
      * intros l1 l2 -> ->. reflexivity.
    + intros e. apply (emits_pure _ (Ret _)); reflexivity.
    + auto.
    + intros l1 l2 -> ->. reflexivity.
  - intros [r|]; [apply only_ret|].
    apply only_bind.
    + apply only_try_except; [|intros e; apply only_ret].
      apply only_bind; [apply only_traced_op; exact I|].
      intros l. apply only_ret.
    + intros [atts|r]; [|apply only_ret].
      apply only_bind.
      * eapply emits_weaken;
          [|apply (process_companies_loop_at_most cl config (fun _ => true))].
        intros l _. apply List.Forall_forall. intros x _. exact I.
      * intros [actions total]. apply only_ret.
  - intros l ->. eexists. reflexivity.
  - intros l1 l2 -> _. eexists. reflexivity.
Qed.
(** ** The gateway: every failure it retries, and what comes out *)

(** The deal lookup of a client object built by [with_get_deal_by_id] is the
    lookup it was given. *)
Lemma with_get_deal_by_id_lookup {W} (lookup : Z -> M W (option Deal.t))
  (rest : Client W) (deal_id : Z) :
  get_deal_by_id (with_get_deal_by_id lookup rest) deal_id = lookup deal_id.
Proof. reflexivity. Qed.

Module GatewayRetries.
Import PipedriveClient.

Section Retried.
Variable session : list Request.t -> Request.t -> outcome.
Variable rq : Request.t.

(** One attempt, by the answer it gets. *)
Lemma attempt_once_retried c attempt max_retries :
  retried (session (sent c) rq) ->
  if attempt <? max_retries - 1
  then exists nap,
         attempt_once session rq attempt max_retries c
         = (Ret Continue, after_attempt rq c [nap])
         /\ (nap = 2 ^ attempt \/ nap = attempt + 1)
  else exists e,
         attempt_once session rq attempt max_retries c
         = (Raise e, after_attempt rq c [])
         /\ isinstance_APIError e = true.
Proof.
  unfold retried. destruct (session (sent c) rq) as [r|e] eqn:Hs.
  - intros Hbad. destruct (Z.eq_dec (Response.status_code r) 429) as [E|E].
    + rewrite (Gateway.attempt_once_rate_limited session rq c r attempt
                 max_retries Hs E).
      destruct (attempt <? max_retries - 1).
      * eexists. split; [reflexivity | left; reflexivity].
      * eexists. split; reflexivity.
    + destruct (http_error_status (Response.status_code r)) eqn:Hh.
      * destruct (Gateway.attempt_once_http_error session rq c r attempt
                    max_retries Hs E Hh) as (msg & _ & ->).
        destruct (attempt <? max_retries - 1).
        -- eexists. split; [reflexivity | right; lia].
        -- eexists. split; reflexivity.
      * destruct Hbad as [Hbad | (message & Hm)]; [discriminate|].
        rewrite (Gateway.attempt_once_not_json session rq c r message
                   attempt max_retries Hs Hh Hm).
        destruct (attempt <? max_retries - 1).
        -- eexists. split; [reflexivity | right; lia].
        -- eexists. split; reflexivity.
  - intros He. unfold attempt_once, try_excepts, bind, count_call,
      session_request, sleep, ret, raise, lift, after_attempt. cbn.
    rewrite Hs. cbn.
    destruct (isinstance_Timeout e); [|rewrite He];
      destruct (attempt <? max_retries - 1); cbn; rewrite ?app_nil_r;
      eexists; (split; [reflexivity|]); try reflexivity; right; lia.
Qed.

Lemma attempt_once_accepted_answer c r body attempt max_retries :
  session (sent c) rq = Responds r -> accepted r ->
  Response.body r = inl body ->
  attempt_once session rq attempt max_retries c
  = (Ret (Return body), after_attempt rq c []).
Proof.
  intros Hs Hok Hb.
  apply (Gateway.attempt_once_accepted session rq c r body);
    [exact Hs | | exact Hok | exact Hb].
  intros E. unfold accepted in Hok. rewrite E in Hok. discriminate.
Qed.

Lemma attempt_once_foreign c e attempt max_retries :
  session (sent c) rq = Fails e -> isinstance_RequestException e = false ->
  attempt_once session rq attempt max_retries c
  = (Raise e, after_attempt rq c []).
Proof.
  intros Hs He. unfold attempt_once, try_excepts, bind, count_call,
    session_request, sleep, ret, raise, lift, after_attempt. cbn.
  rewrite Hs. cbn.
  assert (Ht : isinstance_Timeout e = false) by (destruct e; try reflexivity; discriminate).
  rewrite Ht, He. cbn. rewrite app_nil_r. reflexivity.
Qed.

Lemma retried_dec (o : outcome) :
  retried o
  \/ (exists r body,
        o = Responds r /\ accepted r /\ Response.body r = inl body)
  \/ (exists e, o = Fails e /\ isinstance_RequestException e = false).
Proof.
  destruct o as [r|e]; cbn; unfold accepted.
  - destruct (http_error_status (Response.status_code r)) eqn:E;
      [left; left; reflexivity|].
    destruct (Response.body r) as [body|message] eqn:B.
    + right; left. exists r, body. repeat split; assumption.
    + left; right. exists message. reflexivity.
  - destruct (isinstance_RequestException e) eqn:E;
      [left; reflexivity | right; right; exists e; split; trivial].
Qed.

Lemma sent_after_attempt c naps k :
  sent (after_attempt rq c naps) ++ repeat rq k = sent c ++ repeat rq (S k).
Proof. cbn. rewrite <- app_assoc. reflexivity. Qed.

Lemma attempts_outcome remaining :
  forall c attempt max_retries,
    match attempts session remaining rq attempt max_retries c with
    | (Ret b, c') =>
        exists k r,
          (k < remaining)%nat
          /\ answer_to session rq c k = Responds r
          /\ accepted r
          /\ Response.body r = inl b
          /\ sent c' = sent c ++ repeat rq (S k)
    | (Raise e, c') =>
        isinstance_APIError e = true
        \/ (exists k,
              (k < remaining)%nat
              /\ answer_to session rq c k = Fails e
              /\ isinstance_RequestException e = false)
    end.
Proof.
  unfold answer_to.
  induction remaining as [|n IH]; intros c attempt max_retries.
  - cbn. left; reflexivity.
  - cbn [attempts]. unfold bind at 1.
    destruct (retried_dec (session (sent c) rq))
      as [Hr | [(r & body & Hs & Hok & Hbody) | (e & Hs & He)]].
    + pose proof (attempt_once_retried c attempt max_retries Hr) as H.
      destruct (attempt <? max_retries - 1).
      * destruct H as (nap & -> & _).
        specialize (IH (after_attempt rq c [nap]) (attempt + 1) max_retries).
        destruct (attempts session n rq (attempt + 1) max_retries
                    (after_attempt rq c [nap])) as [[b|e] c'].
        -- destruct IH as (k & r & Hk & Ha & Hok & Hb & Hsent).
           rewrite sent_after_attempt in Ha.
           exists (S k), r. repeat split; try assumption; [lia|].
           rewrite Hsent. cbn. rewrite <- app_assoc. reflexivity.
        -- destruct IH as [IH | (k & Hk & Ha & He)]; [left; exact IH|].
           rewrite sent_after_attempt in Ha.
           right. exists (S k). repeat split; try assumption. lia.
      * destruct H as (e & -> & He). left; exact He.
    + rewrite (attempt_once_accepted_answer c r body attempt max_retries Hs
                 Hok Hbody).
      exists 0%nat, r. cbn. rewrite app_nil_r.
      repeat split; try assumption. lia.
    + rewrite (attempt_once_foreign c e attempt max_retries Hs He).
      right. exists 0%nat. cbn. rewrite app_nil_r.
      repeat split; try assumption. lia.
Qed.

Lemma attempts_retried_step c remaining attempt max_retries :
  retried (session (sent c) rq) ->
  (attempt <? max_retries - 1) = true ->
  exists nap,
    (nap = 2 ^ attempt \/ nap = attempt + 1)
    /\ attempts session (S remaining) rq attempt max_retries c
       = attempts session remaining rq (attempt + 1) max_retries
           (after_attempt rq c [nap]).
Proof.
  intros Hr Hlt. pose proof (attempt_once_retried c attempt max_retries Hr) as H.
  rewrite Hlt in H. destruct H as (nap & E & Hnap).
  exists nap. split; [exact Hnap|].
  cbn [attempts]. unfold bind at 1. rewrite E. reflexivity.
Qed.

Lemma attempts_retried_last c remaining attempt max_retries :
  retried (session (sent c) rq) ->
  (attempt <? max_retries - 1) = false ->
  exists e,
    attempts session (S remaining) rq attempt max_retries c
    = (Raise e, after_attempt rq c [])
    /\ isinstance_APIError e = true.
Proof.
  intros Hr Hlt. pose proof (attempt_once_retried c attempt max_retries Hr) as H.
  rewrite Hlt in H. destruct H as (e & E & He).
  exists e. split; [|exact He].
  cbn [attempts]. unfold bind at 1. rewrite E. reflexivity.
Qed.

Lemma attempts_not_retried c remaining attempt max_retries :
  ~ retried (session (sent c) rq) ->
  exists res,
    attempts session (S remaining) rq attempt max_retries c
    = (res, after_attempt rq c []).
Proof.
  intros Hn. cbn [attempts]. unfold bind at 1.
  destruct (retried_dec (session (sent c) rq))
    as [Hr | [(r & body & Hs & Hok & Hbody) | (e & Hs & He)]];
    [contradiction | |].
  - rewrite (attempt_once_accepted_answer c r body attempt max_retries Hs Hok
               Hbody).
    eexists. reflexivity.
  - rewrite (attempt_once_foreign c e attempt max_retries Hs He).
    eexists. reflexivity.
Qed.

Lemma retried_or_not (o : outcome) : retried o \/ ~ retried o.
Proof.
  destruct o as [r|e]; cbn.
  - destruct (http_error_status (Response.status_code r));
      [left; left; reflexivity|].
    destruct (Response.body r) as [body|message].
    + right. intros [H | (m & H)]; discriminate.
    + left; right. exists message. reflexivity.
  - destruct (isinstance_RequestException e);
      [left; reflexivity | right; discriminate].
Qed.

Lemma after_attempts_3 c n1 n2 n3 :
  after_attempt rq (after_attempt rq (after_attempt rq c n1) n2) n3
  = mkState (api_call_count c + 3) (sent c ++ [rq; rq; rq])
      (slept c ++ n1 ++ n2 ++ n3).
Proof.
  unfold after_attempt. cbn. rewrite <- !app_assoc. f_equal. lia.
Qed.

Lemma first_nap nap : nap = 2 ^ 0 \/ nap = 0 + 1 -> nap = 1.
Proof. intros [-> | ->]; reflexivity. Qed.

Lemma second_nap nap : nap = 2 ^ (0 + 1) \/ nap = 0 + 1 + 1 -> nap = 2.
Proof. intros [-> | ->]; reflexivity. Qed.

Lemma attempts_schedule c :
  exists k,
    (1 <= k <= 3)%nat
    /\ snd (attempts session 3 rq 0 3 c)
       = mkState (api_call_count c + Z.of_nat k) (sent c ++ repeat rq k)
           (slept c ++ naps (k - 1)).
Proof.
  destruct (retried_or_not (session (sent c) rq)) as [H0|H0].
  2: { destruct (attempts_not_retried c 2 0 3 H0) as (res & ->).
       exists 1%nat. split; [lia|]. reflexivity. }
  destruct (attempts_retried_step c 2 0 3 H0 eq_refl) as (n1 & Hn1 & ->).
  apply first_nap in Hn1. subst n1.
  set (c1 := after_attempt rq c [1]).
  destruct (retried_or_not (session (sent c1) rq)) as [H1|H1].
  2: { destruct (attempts_not_retried c1 1 (0 + 1) 3 H1) as (res & ->).
       exists 2%nat. split; [lia|]. subst c1. cbn [snd].
       rewrite Gateway.after_attempt_twice. reflexivity. }
  destruct (attempts_retried_step c1 1 (0 + 1) 3 H1 eq_refl)
    as (n2 & Hn2 & ->).
  apply second_nap in Hn2. subst n2.
  set (c2 := after_attempt rq c1 [2]).
  exists 3%nat. split; [lia|].
  destruct (retried_or_not (session (sent c2) rq)) as [H2|H2].
  - destruct (attempts_retried_last c2 0 (0 + 1 + 1) 3 H2 eq_refl)
      as (e & -> & _).
    subst c2 c1. cbn [snd]. rewrite after_attempts_3. reflexivity.
  - destruct (attempts_not_retried c2 0 (0 + 1 + 1) 3 H2) as (res & ->).
    subst c2 c1. cbn [snd]. rewrite after_attempts_3. reflexivity.
Qed.

Lemma attempts_retried_then_accepted c r body :
  forall n, (n <= 2)%nat ->
  (forall i, (i < n)%nat -> retried (answer_to session rq c i)) ->
  answer_to session rq c n = Responds r -> accepted r ->
  Response.body r = inl body ->
  attempts session 3 rq 0 3 c
  = (Ret body,
     mkState (api_call_count c + Z.of_nat (S n)) (sent c ++ repeat rq (S n))
       (slept c ++ naps n)).
Proof.
  intros n Hn Hre Hr Hok Hbody. unfold answer_to in *.
  assert (H0 : sent c ++ repeat rq 0 = sent c) by apply app_nil_r.
  destruct n as [|[|[|n]]]; try lia.
  - rewrite H0 in Hr. cbn [attempts]. unfold bind at 1.
    rewrite (attempt_once_accepted_answer c r body _ _ Hr Hok Hbody).
    reflexivity.
  - pose proof (Hre 0%nat ltac:(lia)) as A0. rewrite H0 in A0.
    destruct (attempts_retried_step c 2 0 3 A0 eq_refl) as (n1 & Hn1 & ->).
    apply first_nap in Hn1. subst n1.
    cbn [attempts]. unfold bind at 1.
    rewrite (attempt_once_accepted_answer (after_attempt rq c [1]) r body _ _
               Hr Hok Hbody).
    cbn [ret]. rewrite Gateway.after_attempt_twice. reflexivity.
  - pose proof (Hre 0%nat ltac:(lia)) as A0. rewrite H0 in A0.
    pose proof (Hre 1%nat ltac:(lia)) as A1.
    destruct (attempts_retried_step c 2 0 3 A0 eq_refl) as (n1 & Hn1 & ->).
    apply first_nap in Hn1. subst n1.
    destruct (attempts_retried_step (after_attempt rq c [1]) 1 (0 + 1) 3
                A1 eq_refl) as (n2 & Hn2 & ->).
    apply second_nap in Hn2. subst n2.
    cbn [attempts]. unfold bind at 1.
    rewrite (attempt_once_accepted_answer
               (after_attempt rq (after_attempt rq c [1]) [2]) r body _ _).
    + cbn [ret]. rewrite after_attempts_3. reflexivity.
    + cbn. rewrite <- app_assoc. exact Hr.
    + exact Hok.
    + exact Hbody.
Qed.

Lemma attempts_retried_thrice c :
  (forall i, (i < 3)%nat -> retried (answer_to session rq c i)) ->
  exists e,
    attempts session 3 rq 0 3 c
    = (Raise e,
       mkState (api_call_count c + 3) (sent c ++ [rq; rq; rq])
         (slept c ++ [1; 2]))
    /\ isinstance_APIError e = true.
Proof.
  intros Hre. unfold answer_to in Hre.
  assert (H0 : sent c ++ repeat rq 0 = sent c) by apply app_nil_r.
  pose proof (Hre 0%nat ltac:(lia)) as A0. rewrite H0 in A0.
  pose proof (Hre 1%nat ltac:(lia)) as A1.
  pose proof (Hre 2%nat ltac:(lia)) as A2.
  destruct (attempts_retried_step c 2 0 3 A0 eq_refl) as (n1 & Hn1 & ->).
  apply first_nap in Hn1. subst n1.
  destruct (attempts_retried_step (after_attempt rq c [1]) 1 (0 + 1) 3
              A1 eq_refl) as (n2 & Hn2 & ->).
  apply second_nap in Hn2. subst n2.
  destruct (attempts_retried_last
              (after_attempt rq (after_attempt rq c [1]) [2]) 0 (0 + 1 + 1) 3)
    as (e & -> & He).
  - cbn. rewrite <- app_assoc. exact A2.
  - reflexivity.
  - exists e. split; [|exact He]. rewrite after_attempts_3. reflexivity.
Qed.

End Retried.

(** X9: the gateway retries every failure it recognises, not only rate
    limiting: an answer with a status from 400 to 599, an answer whose
    status is let through and whose body [response.json()] does not decode,
    and an exception of [requests] (a timeout, a refused connection)
    alike.  With the budget of three attempts, [n <= 2] such failures
    followed by an answer whose status is let through and whose body
    decodes return the decoded body after [n + 1] requests, the call
    counter moved by [n + 1], and naps of 1s, ..., [n]s; three such
    failures raise an [APIError] (of which [RateLimitError] is a kind)
    after three requests and naps of 1s and 2s. *)

Theorem make_request_retries_every_failure (config : Config.t)
    (session : list Request.t -> Request.t -> outcome)
    (method endpoint : string) (params json_data : option (gmap string json))
    (c : state) :
  let rq := request_of config method endpoint params json_data in
  let run := _make_request config session method endpoint params json_data 3 c in
  (forall n r body,
      (n <= 2)%nat ->
      (forall i, (i < n)%nat -> retried (answer_to session rq c i)) ->
      answer_to session rq c n = Responds r -> accepted r ->
      Response.body r = inl body ->
      run = (Ret body,
             mkState (api_call_count c + Z.of_nat (S n))
               (sent c ++ repeat rq (S n)) (slept c ++ naps n)))
  /\ ((forall i, (i < 3)%nat -> retried (answer_to session rq c i)) ->
      exists e,
        run = (Raise e,
               mkState (api_call_count c + 3) (sent c ++ [rq; rq; rq])
                 (slept c ++ [1; 2]))
        /\ isinstance_APIError e = true).
Proof.
  cbn zeta. unfold _make_request.
  fold (request_of config method endpoint params json_data).
  change (Z.to_nat 3) with 3%nat. split.
  - intros n r body. apply attempts_retried_then_accepted.
  - apply attempts_retried_thrice.
Qed.

(** A timeout, then a 200 whose body is not JSON, then a 200 whose body
    is. *)
Lemma make_request_retries_every_failure_witness :
  _make_request (Scenario.gateway_config true)
    (Scenario.scripted [Fails (Timeout "Read timed out");
                        Scenario.not_json 200 "OK";
                        Scenario.response 200 "OK" Scenario.ok_body])
    "GET" "deals/7" None None 3 Scenario.fresh_client
  = (Ret Scenario.ok_body,
     mkState 3
       [Scenario.deal_request; Scenario.deal_request; Scenario.deal_request]
       [1; 2]).
Proof.
  apply (proj1 (make_request_retries_every_failure
                  (Scenario.gateway_config true)
                  (Scenario.scripted
                     [Fails (Timeout "Read timed out");
                      Scenario.not_json 200 "OK";
                      Scenario.response 200 "OK" Scenario.ok_body])
                  "GET" "deals/7" None None Scenario.fresh_client)
           2%nat
           (Response.mk 200 "OK" "https://acme.pipedrive.com/api/v1/deals/7"
              (inl Scenario.ok_body))
           Scenario.ok_body).
  - lia.
  - intros i Hi. destruct i as [|[|i]]; [reflexivity | | lia].
    right. eexists. reflexivity.
  - reflexivity.
  - reflexivity.
  - reflexivity.
Defined.

(** X10: whatever the remote end answers, a call with the budget of three
    makes [k] attempts, [k] from 1 to 3, counts [k] calls, sends the same
    request [k] times and sleeps 1s after the first attempt and 2s after
    the second when they are followed by another: never more than 3s in
    all. *)

Theorem make_request_sleep_schedule (config : Config.t)
    (session : list Request.t -> Request.t -> outcome)
    (method endpoint : string) (params json_data : option (gmap string json))
    (c : state) :
  let rq := request_of config method endpoint params json_data in
  let run := _make_request config session method endpoint params json_data 3 c in
  exists k,
    (1 <= k <= 3)%nat
    /\ snd run = mkState (api_call_count c + Z.of_nat k)
                   (sent c ++ repeat rq k) (slept c ++ naps (k - 1)).
Proof.
  cbn zeta. unfold _make_request.
  fold (request_of config method endpoint params json_data).
  change (Z.to_nat 3) with 3%nat. apply attempts_schedule.
Qed.

(** X11: what comes out of [_make_request], for any budget.  A body it
    returns is the decoded body of an answer with a status outside 400 to
    599, the answer to its last request.  An exception it raises is an
    [APIError] (of which [RateLimitError] is a kind), or is an exception
    that [session.request] itself raised and that is not one of
    [requests]: an [HTTPError] never comes out.  With a budget of zero or
    less it sends nothing and raises "Unexpected error in request
    handling". *)

Theorem make_request_outcome (config : Config.t)
    (session : list Request.t -> Request.t -> outcome)
    (method endpoint : string) (params json_data : option (gmap string json))
    (max_retries : Z) (c : state) :
  let rq := request_of config method endpoint params json_data in
  let run :=
    _make_request config session method endpoint params json_data
      max_retries c in
  (max_retries <= 0 ->
   run = (Raise (APIError "Unexpected error in request handling" None), c))
  /\
  match run with
  | (Ret b, c') =>
      exists k r,
        Z.of_nat k < max_retries
        /\ answer_to session rq c k = Responds r
        /\ accepted r
        /\ Response.body r = inl b
        /\ sent c' = sent c ++ repeat rq (S k)
  | (Raise e, c') =>
      isinstance_APIError e = true
      \/ (exists k,
            Z.of_nat k < max_retries
            /\ answer_to session rq c k = Fails e
            /\ isinstance_RequestException e = false)
  end.
Proof.
  cbn zeta. unfold _make_request.
  fold (request_of config method endpoint params json_data). split.
  { intros H. replace (Z.to_nat max_retries) with 0%nat by lia. reflexivity. }
  pose proof (attempts_outcome session
                (request_of config method endpoint params json_data)
                (Z.to_nat max_retries) c 0 max_retries) as H.
  destruct (attempts session (Z.to_nat max_retries) _ 0 max_retries c)
    as [[b|e] c'].
  - destruct H as (k & r & Hk & H). exists k, r. split; [lia | exact H].
  - destruct H as [H | (k & Hk & H)]; [left; exact H|].
    right. exists k. split; [lia | exact H].
Qed.

(** X12: the deal lookup on an answer that is accepted at once, whose body
    decodes to a dictionary.  One request is sent, no nap taken.  When the body
    has no true "success" or no non-empty "data", the lookup returns
    [None], and [link_submission] reports the submission as orphaned (or
    raises [OrphanedDealError] when orphans are not skipped).  When "data"
    is a non-empty dictionary, the lookup returns the deal it holds, the
    absent fields defaulted; without "id" in it the lookup raises
    [KeyError], which [link_submission] does not catch: no outcome is
    produced for the submission. *)
Theorem deal_lookup_reads_the_body (config : Config.t)
    (session : list Request.t -> Request.t -> outcome)
    (rest : Client state) (submission : Submission.t) (deal_id : Z)
    (dry_run : bool) (c : state) (r : Response.t) (d : gmap string json) :
  let rq := request_of config "GET" ("deals/" +:+ pretty deal_id) None None in
  let lookup := get_deal_by_id config session deal_id c in
  let run :=
    link_submission
      (with_get_deal_by_id (get_deal_by_id config session) rest) config
      submission dry_run c in
  answer_to session rq c 0 = Responds r ->
  accepted r ->
  Response.body r = inl (JDict d) ->
  snd lookup = after_attempt rq c []
  /\ (falsy_field d "success" (JBool false) \/ falsy_field d "data" JNull ->
      fst lookup = Ret None
      /\ (Submission.deal_id submission = Some deal_id ->
          _get_companies_to_process config submission <> [] ->
          run
          = (if Config.skip_orphaned_deals config
             then Ret (early_result submission (Some deal_id)
                         LinkStatus.ORPHANED
                         ("Deal " +:+ pretty deal_id
                          +:+ " not found in Pipedrive"))
             else Raise (OrphanedDealError
                           ("Deal " +:+ pretty deal_id +:+ " not found")
                           deal_id (Submission.id submission)),
             after_attempt rq c [])))
  /\ (forall data,
        py_truthy (default (JBool false) (d !! "success")) = true ->
        d !! "data" = Some (JDict data) ->
        py_truthy (JDict data) = true ->
        fst lookup
        = match data !! "id" with
          | Some id =>
              Ret (Some (Deal.mk id
                           (default (JStr "") (data !! "title"))
                           (default JNull (data !! "value"))
                           (default (JInt 0) (data !! "stage_id"))
                           (default (JInt 0) (data !! "pipeline_id"))
                           (default JNull (data !! "org_id"))))
          | None => Raise (BuiltinError "KeyError" "'id'")
          end
        /\ (data !! "id" = None ->
            Submission.deal_id submission = Some deal_id ->
            _get_companies_to_process config submission <> [] ->
            run = (Raise (BuiltinError "KeyError" "'id'"),
                   after_attempt rq c []))).
Proof.
  cbn zeta. intros Hr Hok Hbody.
  assert (Hrun : forall res,
            get_deal_by_id config session deal_id c
            = (res, after_attempt
                      (request_of config "GET" ("deals/" +:+ pretty deal_id)
                         None None) c []) ->
            Submission.deal_id submission = Some deal_id ->
            _get_companies_to_process config submission <> [] ->
            link_submission
              (with_get_deal_by_id (get_deal_by_id config session) rest)
              config submission dry_run c
            = match res with
              | Ret (Some _) =>
                  link_submission
                    (with_get_deal_by_id (get_deal_by_id config session) rest)
                    config submission dry_run c
              | Ret None =>
                  (if Config.skip_orphaned_deals config
                   then Ret (early_result submission (Some deal_id)
                               LinkStatus.ORPHANED
                               ("Deal " +:+ pretty deal_id
                                +:+ " not found in Pipedrive"))
                   else Raise (OrphanedDealError
                                 ("Deal " +:+ pretty deal_id +:+ " not found")
                                 deal_id (Submission.id submission)),
                   after_attempt
                     (request_of config "GET" ("deals/" +:+ pretty deal_id)
                        None None) c [])
              | Raise e =>
                  if isinstance_APIError e
                  then link_submission
                         (with_get_deal_by_id (get_deal_by_id config session)
                            rest) config submission dry_run c
                  else (Raise e,
                        after_attempt
                          (request_of config "GET"
                             ("deals/" +:+ pretty deal_id) None None) c [])
              end).
  { intros res Hres Hd Hc.
    destruct res as [[deal|]|e]; [reflexivity | |].
    - unfold link_submission. rewrite Hd.
      destruct (_get_companies_to_process config submission) as [|x xs];
        [congruence|].
      unfold bind at 1. unfold try_except at 1. unfold bind at 1.
      rewrite with_get_deal_by_id_lookup, Hres.
      destruct (Config.skip_orphaned_deals config); reflexivity.
    - destruct (isinstance_APIError e) eqn:K; [reflexivity|].
      unfold link_submission. rewrite Hd.
      destruct (_get_companies_to_process config submission) as [|x xs];
        [congruence|].
      unfold bind at 1. unfold try_except at 1. unfold bind at 1.
      rewrite with_get_deal_by_id_lookup, Hres, K.
      reflexivity. }
  assert (G : snd (get_deal_by_id config session deal_id c)
              = after_attempt
                  (request_of config "GET" ("deals/" +:+ pretty deal_id)
                     None None) c []
              /\ (falsy_field d "success" (JBool false)
                  \/ falsy_field d "data" JNull ->
                  fst (get_deal_by_id config session deal_id c) = Ret None)
              /\ (forall data,
                    py_truthy (default (JBool false) (d !! "success")) = true ->
                    d !! "data" = Some (JDict data) ->
                    py_truthy (JDict data) = true ->
                    fst (get_deal_by_id config session deal_id c)
                    = match data !! "id" with
                      | Some id =>
                          Ret (Some (Deal.mk id
                                       (default (JStr "") (data !! "title"))
                                       (default JNull (data !! "value"))
                                       (default (JInt 0) (data !! "stage_id"))
                                       (default (JInt 0)
                                          (data !! "pipeline_id"))
                                       (default JNull (data !! "org_id"))))
                      | None => Raise (BuiltinError "KeyError" "'id'")
                      end)).
  { unfold get_deal_by_id. unfold try_except, bind.
    rewrite (attempts_retried_then_accepted session _ c r (JDict d) 0%nat
               Nat.le_0_2 (fun i Hi => ltac:(lia)) Hr Hok Hbody
             : _make_request config session "GET" _ None None 3 c = _).
    change (mkState (api_call_count c + Z.of_nat 1)
              (sent c ++ repeat
                           (request_of config "GET"
                              ("deals/" +:+ pretty deal_id) None None) 1)
              (slept c ++ naps 0))
      with (after_attempt
              (request_of config "GET" ("deals/" +:+ pretty deal_id)
                 None None) c []).
    unfold lift, py_get, ret. cbn [fst snd].
    unfold falsy_field.
    destruct (py_truthy (default (JBool false) (d !! "success"))) eqn:Hs.
    2: { cbn [negb fst snd]. repeat split; trivial.
         intros data H. discriminate. }
    cbn [negb].
    destruct (py_truthy (default JNull (d !! "data"))) eqn:Hd.
    2: { cbn [negb fst snd]. repeat split; trivial.
         intros data _ E T. rewrite E in Hd.
         change (py_truthy (JDict data) = false) in Hd. congruence. }
    cbn [negb]. split; [|split].
    - destruct (_parse_deal (default JNull (d !! "data"))) as [x|e];
        [reflexivity|].
      cbn [fst snd]. unfold raise.
      destruct (isinstance_HTTPError e);
        [destruct (response_status_code e =? 404)|]; reflexivity.
    - intros [H|H]; discriminate.
    - intros data _ E _. rewrite E.
      change (default JNull (Some (JDict data))) with (JDict data).
      unfold _parse_deal, py_getitem.
      destruct (data !! "id"); reflexivity. }
  destruct G as (Gs & Gn & Gd).
  split; [exact Gs|]. split.
  - intros H. split; [exact (Gn H)|]. intros Hd Hc.
    apply (Hrun (Ret None)); trivial.
    rewrite (surjective_pairing (get_deal_by_id config session deal_id c)).
    rewrite Gs, (Gn H). reflexivity.
  - intros data Hs E T. split; [exact (Gd data Hs E T)|].
    intros Hid Hd Hc.
    apply (Hrun (Raise (BuiltinError "KeyError" "'id'"))); trivial.
    rewrite (surjective_pairing (get_deal_by_id config session deal_id c)).
    rewrite Gs, (Gd data Hs E T), Hid. reflexivity.
Qed.

(** A body with "success" false, under skip-orphans. *)
Lemma deal_lookup_reads_the_body_witness :
  let d : gmap string json := <["success" := JBool false]> ∅ in
  let session := Scenario.scripted [Scenario.response 200 "OK" (JDict d)] in
  let rest : Client state :=
    mkClient (fun _ => ret None) (fun _ => ret [])
      (fun _ _ => ret None)
      (fun _ _ _ _ => raise (APIError "no catalog" None))
      (fun _ _ _ _ _ => raise (APIError "no deal" None))
      (fun _ _ _ _ _ => raise (APIError "no deal" None)) in
  link_submission
    (with_get_deal_by_id
       (get_deal_by_id (Scenario.gateway_config true) session) rest)
    (Scenario.gateway_config true)
    (Scenario.submission [Scenario.company (Some 50)]) false
    Scenario.fresh_client
  = (Ret (LinkResult.mk "s1" (Some 7) LinkStatus.ORPHANED 0 [] 0%float
            (Some "Deal 7 not found in Pipedrive")),
     mkState 1 [Scenario.deal_request] []).
Proof.
  cbv zeta.
  exact (proj2
           (proj1 (proj2
                     (deal_lookup_reads_the_body
                        (Scenario.gateway_config true)
                        (Scenario.scripted
                           [Scenario.response 200 "OK"
                              (JDict (<["success" := JBool false]> ∅))])
                        (mkClient (fun _ => ret None) (fun _ => ret [])
                           (fun _ _ => ret None)
                           (fun _ _ _ _ => raise (APIError "no catalog" None))
                           (fun _ _ _ _ _ => raise (APIError "no deal" None))
                           (fun _ _ _ _ _ => raise (APIError "no deal" None)))
                        (Scenario.submission [Scenario.company (Some 50)])
                        7 false Scenario.fresh_client
                        (Response.mk 200 "OK"
                           "https://acme.pipedrive.com/api/v1/deals/7"
                           (inl (JDict (<["success" := JBool false]> ∅))))
                        (<["success" := JBool false]> ∅)
                        eq_refl eq_refl eq_refl))
                  (or_introl eq_refl))
           eq_refl ltac:(discriminate)).
Defined.
End GatewayRetries.
(** ** Product names *)

Lemma append_cons c s t : String c s +:+ t = String c (s +:+ t).
Proof. reflexivity. Qed.

Lemma append_nil t : EmptyString +:+ t = t.
Proof. reflexivity. Qed.

Lemma lstrip_with_spec p s :
  exists t,
    s = t +:+ lstrip_with p s
    /\ string_forallb p t = true
    /\ no_leading p (lstrip_with p s).
Proof.
  induction s as [|c s IH]; cbn [lstrip_with].
  - exists EmptyString. repeat split. intros c r H. discriminate.
  - destruct (p c) eqn:E.
    + destruct IH as (t & Ht & Hall & Hlead).
      exists (String c t). split; [|split].
      * rewrite append_cons. f_equal. exact Ht.
      * cbn. rewrite E. exact Hall.
      * exact Hlead.
    + exists EmptyString. repeat split. intros c' r [= <- <-]. exact E.
Qed.

Lemma append_singleton_inv r c r' c' :
  r +:+ String c EmptyString = r' +:+ String c' EmptyString ->
  r = r' /\ c = c'.
Proof.
  revert r'. induction r as [|a r IH]; intros [|a' r'];
    rewrite ?append_cons, ?append_nil.
  - intros [= ->]. split; reflexivity.
  - intros [= -> H]. destruct r'; discriminate.
  - intros [= -> H]. destruct r; discriminate.
  - intros [= -> H]. destruct (IH r' H) as [-> ->]. split; reflexivity.
Qed.

Lemma rstrip_with_spec p s :
  exists t,
    s = rstrip_with p s +:+ t
    /\ string_forallb p t = true
    /\ no_trailing p (rstrip_with p s).
Proof.
  induction s as [|c s IH]; cbn [rstrip_with].
  - exists EmptyString. repeat split. intros [|a r] c H; discriminate.
  - destruct IH as (t & Ht & Hall & Htrail).
    destruct (rstrip_with p s) as [|d r] eqn:R.
    + destruct (p c) eqn:E.
      * exists (String c t). split; [|split].
        -- rewrite ?append_cons, ?append_nil in *. f_equal. exact Ht.
        -- cbn. rewrite E. exact Hall.
        -- intros [|a r] c' H; discriminate.
      * exists t. split; [|split].
        -- rewrite ?append_cons, ?append_nil in *. f_equal. exact Ht.
        -- exact Hall.
        -- intros r c' H.
           destruct (append_singleton_inv EmptyString c r c' H) as [_ <-].
           exact E.
    + exists t. split; [|split].
      * rewrite ?append_cons, ?append_nil in *. f_equal. exact Ht.
      * exact Hall.
      * intros [|a r'] c' H; [discriminate|].
        rewrite append_cons in H. injection H as -> H.
        apply (Htrail r' c'). exact H.
Qed.

Lemma rstrip_with_no_leading p q s :
  no_leading q s -> no_leading q (rstrip_with p s).
Proof.
  intros H c r E. destruct s as [|a s]; [discriminate|].
  cbn [rstrip_with] in E. rewrite (H a s eq_refl) || idtac.
  destruct (rstrip_with p s); [destruct (p a); [discriminate|]|];
    injection E as <- _; apply (H a s eq_refl).
Qed.

Lemma py_strip_spec (s : string) :
  exists ws1 ws2,
    s = ws1 +:+ py_strip s +:+ ws2
    /\ string_forallb py_isspace ws1 = true
    /\ string_forallb py_isspace ws2 = true
    /\ no_leading py_isspace (py_strip s)
    /\ no_trailing py_isspace (py_strip s).
Proof.
  unfold py_strip.
  destruct (lstrip_with_spec py_isspace s) as (ws1 & E1 & H1 & L).
  destruct (rstrip_with_spec py_isspace (lstrip_with py_isspace s))
    as (ws2 & E2 & H2 & T).
  exists ws1, ws2. repeat split; try assumption.
  - rewrite <- E2. exact E1.
  - apply rstrip_with_no_leading. exact L.
Qed.

(** X13: the product name of a company.  The company name is some
    whitespace, a core, some periods, some whitespace, where the core
    followed by the periods neither starts nor ends with whitespace and
    the core does not end with a period; the product name is the core,
    behind the configured prefix when the format asks for it. *)

Theorem format_product_name_trims (config : Config.t)
    (company_name : string) :
  exists ws1 core dots ws2,
    company_name = ws1 +:+ (core +:+ dots) +:+ ws2
    /\ string_forallb py_isspace ws1 = true
    /\ string_forallb py_isspace ws2 = true
    /\ string_forallb is_dot dots = true
    /\ no_leading py_isspace (core +:+ dots)
    /\ no_trailing py_isspace (core +:+ dots)
    /\ no_trailing is_dot core
    /\ _format_product_name config company_name
       = match Config.product_name_format config with
         | COMPANY_NAME_WITH_PREFIX =>
             Config.product_name_prefix config +:+ core
         | _ => core
         end.
Proof.
  destruct (py_strip_spec company_name) as (ws1 & ws2 & E & H1 & H2 & L & T).
  destruct (rstrip_with_spec is_dot (py_strip company_name))
    as (dots & Ed & Hd & Td).
  exists ws1, (py_rstrip_dot (py_strip company_name)), dots, ws2.
  unfold py_rstrip_dot. fold is_dot. rewrite <- Ed.
  repeat split; assumption.
Qed.

(** ** The submissions that reach the linker *)

Lemma lstrip_with_no_leading p s : no_leading p s -> lstrip_with p s = s.
Proof.
  intros H. destruct s as [|c s]; [reflexivity|].
  cbn. rewrite (H c s eq_refl). reflexivity.
Qed.

Lemma rstrip_with_no_trailing p s : no_trailing p s -> rstrip_with p s = s.
Proof.
  induction s as [|c s IH]; intros H; [reflexivity|].
  cbn [rstrip_with]. destruct s as [|d s].
  - cbn. rewrite (H EmptyString c eq_refl). reflexivity.
  - rewrite IH; [reflexivity|].
    intros r x E. apply (H (String c r) x). rewrite append_cons, <- E.
    reflexivity.
Qed.

Lemma py_strip_idempotent s : py_strip (py_strip s) = py_strip s.
Proof.
  destruct (py_strip_spec s) as (ws1 & ws2 & _ & _ & _ & L & T).
  unfold py_strip at 1. rewrite (lstrip_with_no_leading _ _ L).
  apply rstrip_with_no_trailing. exact T.
Qed.

Section Parsers.
Variable int_of_str : string -> Z + string.

Lemma py_strip_of_ret x name :
  py_strip_of x = Ret name -> exists s, x = JStr s /\ name = py_strip s.
Proof.
  destruct x; cbn; try discriminate. intros [= <-]. eexists. split; reflexivity.
Qed.

Lemma named_entry (d : gmap string json) name w2 :
  py_strip_of (default (JStr "") (d !! "companyLegalName")) = Ret name ->
  String.eqb name "" = false ->
  w2_count_of int_of_str d = Ret w2 ->
  parsed_from int_of_str (AdditionalCompany.mk name w2 d)
  /\ well_named (AdditionalCompany.mk name w2 d).
Proof.
  intros Hn He Hw. apply py_strip_of_ret in Hn. destruct Hn as (s & Hs & ->).
  apply String.eqb_neq in He.
  destruct (d !! "companyLegalName") as [x|] eqn:K; cbn in Hs.
  - subst x. split; [split|split]; cbn; trivial.
    + exists s. split; trivial.
    + apply py_strip_idempotent.
  - injection Hs as <-. exfalso. apply He. reflexivity.
Qed.

Lemma parse_companies_loop_spec entries :
  forall companies l,
    parse_companies_loop int_of_str entries companies = Ret l ->
    exists l',
      l = companies ++ l'
      /\ sublist (List.map (fun c => JDict (AdditionalCompany.raw_data c)) l')
           entries
      /\ Forall (parsed_from int_of_str) l'
      /\ Forall well_named l'.
Proof.
  induction entries as [|x rest IH]; intros companies l; cbn.
  - intros [= <-]. exists []. rewrite app_nil_r.
    repeat split; constructor.
  - assert (Hskip : parse_companies_loop int_of_str rest companies = Ret l ->
                    exists l',
                      l = companies ++ l'
                      /\ sublist
                           (List.map
                              (fun c => JDict (AdditionalCompany.raw_data c))
                              l') (x :: rest)
                      /\ Forall (parsed_from int_of_str) l'
                      /\ Forall well_named l').
    { intros H. destruct (IH _ _ H) as (l' & -> & S & P & N).
      exists l'. repeat split; trivial. apply sublist_cons. exact S. }
    destruct x as [| | | | | |d]; try exact Hskip.
    destruct (py_strip_of (default (JStr "") (d !! "companyLegalName")))
      as [name|e] eqn:Hn; [|discriminate].
    destruct (String.eqb name "") eqn:He; [exact Hskip|].
    destruct (w2_count_of int_of_str d) as [w2|e] eqn:Hw; [|discriminate].
    intros H. destruct (IH _ _ H) as (l' & -> & S & P & N).
    destruct (named_entry d name w2 Hn He Hw) as [Hp Hwn].
    exists (AdditionalCompany.mk name w2 d :: l').
    rewrite <- app_assoc. repeat split.
    + cbn. apply sublist_skip. exact S.
    + constructor; assumption.
    + constructor; assumption.
Qed.
End Parsers.

(** X14: the companies that [_parse_additional_companies] returns are
    entries of the list "additionalCompanies" of the data, in their order
    (entries that are not dictionaries or have no name are dropped); the
    name of each is the stripped "companyLegalName" of its entry, is not
    empty and has no whitespace around it; the W2 count is what the block
    "Extract W2 count" makes of the entry. *)

Theorem parse_additional_companies_keeps_named_entries
    (int_of_str : string -> Z + string) (data : json)
    (l : list AdditionalCompany.t) :
  _parse_additional_companies int_of_str data = Ret l ->
  Forall (parsed_from int_of_str) l
  /\ Forall well_named l
  /\ (l <> [] ->
      exists d entries,
        data = JDict d
        /\ d !! "additionalCompanies" = Some (JList entries)
        /\ sublist (List.map (fun c => JDict (AdditionalCompany.raw_data c)) l)
             entries).
Proof.
  unfold _parse_additional_companies, py_get.
  destruct data as [| | | | | |d]; try discriminate.
  destruct (d !! "additionalCompanies") as [x|] eqn:K; cbn [from_option id].
  2: { intros [= <-]. repeat split; try constructor. congruence. }
  destruct x as [| | | | |entries|];
    try (intros [= <-]; repeat split; try constructor; congruence).
  destruct entries as [|x rest];
    [intros [= <-]; repeat split; try constructor; congruence|].
  intros H. apply parse_companies_loop_spec in H.
  destruct H as (l' & -> & S & P & N). cbn [app].
  repeat split; trivial. intros _. exists d, (x :: rest).
  repeat split; trivial.
Qed.

(** Two entries with a name, one without, one that is no dictionary. *)
Lemma parse_additional_companies_keeps_named_entries_witness :
  let refuse : string -> Z + string := fun s => inr s in
  let acme : gmap string json :=
    <["companyLegalName" := JStr "  Acme Inc. "]>
      (<["w2EmployeeCount" := JInt 50]> ∅) in
  let blank : gmap string json := <["companyLegalName" := JStr "   "]> ∅ in
  let bolt : gmap string json := <["companyLegalName" := JStr "Bolt LLC"]> ∅ in
  let data :=
    JDict (<["additionalCompanies" :=
               JList [JDict acme; JStr "x"; JDict blank; JDict bolt]]> ∅) in
  let l := [AdditionalCompany.mk "Acme Inc." (Some 50) acme;
            AdditionalCompany.mk "Bolt LLC" None bolt] in
  Forall (parsed_from refuse) l
  /\ Forall well_named l
  /\ (l <> [] ->
      exists d entries,
        data = JDict d
        /\ d !! "additionalCompanies" = Some (JList entries)
        /\ sublist (List.map (fun c => JDict (AdditionalCompany.raw_data c)) l)
             entries).
Proof.
  cbv zeta.
  apply (parse_additional_companies_keeps_named_entries (fun s => inr s)).
  vm_compute. reflexivity.
Defined.

(** X15: the company that [_parse_primary_company] returns is the
    dictionary "primaryCompany" of the data: its name is the stripped
    "companyLegalName", not empty, with no whitespace around it, and its
    W2 count what the block "Extract W2 count" makes of the dictionary. *)

Theorem parse_primary_company_keeps_a_named_company
    (int_of_str : string -> Z + string) (data : json)
    (c : AdditionalCompany.t) :
  _parse_primary_company int_of_str data = Ret (Some c) ->
  parsed_from int_of_str c
  /\ well_named c
  /\ exists d,
       data = JDict d
       /\ d !! "primaryCompany" = Some (JDict (AdditionalCompany.raw_data c)).
Proof.
  unfold _parse_primary_company, py_get, py_dict.
  destruct data as [| | | | | |d]; try discriminate.
  destruct (d !! "primaryCompany") as [x|] eqn:K; cbn [from_option id].
  2: { unfold py_truthy. rewrite map_to_list_empty. cbn. discriminate. }
  destruct (negb (py_truthy x)); [discriminate|].
  destruct x as [| | | | | |pc]; try discriminate.
  destruct (py_strip_of (default (JStr "") (pc !! "companyLegalName")))
    as [name|e] eqn:Hn; [|discriminate].
  destruct (String.eqb name "") eqn:He; [discriminate|].
  destruct (w2_count_of int_of_str pc) as [w2|e] eqn:Hw; [|discriminate].
  intros [= <-].
  destruct (named_entry int_of_str pc name w2 Hn He Hw) as [Hp Hwn].
  repeat split; try apply Hp; try apply Hwn. exists d. split; trivial.
Qed.

(** A primary company whose W2 count is the float 12.7. *)
Lemma parse_primary_company_keeps_a_named_company_witness :
  let refuse : string -> Z + string := fun s => inr s in
  let acme : gmap string json :=
    <["companyLegalName" := JStr " Acme Inc."]>
      (<["w2EmployeeCount" := JFloat 12.7%float]> ∅) in
  let c := AdditionalCompany.mk "Acme Inc." (Some 12) acme in
  parsed_from refuse c
  /\ well_named c
  /\ exists d,
       JDict (<["primaryCompany" := JDict acme]> ∅) = JDict d
       /\ d !! "primaryCompany" = Some (JDict (AdditionalCompany.raw_data c)).
Proof.
  cbv zeta.
  apply (parse_primary_company_keeps_a_named_company (fun s => inr s)).
  vm_compute. reflexivity.
Defined.

(** X16: the filter that [get_submissions_with_additional_companies]
    applies agrees with the linker: [_should_include_submission] keeps a
    submission exactly when [_get_companies_to_process] finds a company in
    it, so that a submission the filter would drop, and that has a deal
    id, is answered no-companies without any remote call. *)

Theorem should_include_iff_a_company_to_process (config : Config.t)
    (submission : Submission.t) :
  (_should_include_submission config submission = true
   <-> _get_companies_to_process config submission <> [])
  /\ (forall W (cl : Client W) dry_run w tr deal_id,
        Submission.deal_id submission = Some deal_id ->
        _should_include_submission config submission = false ->
        link_submission (traced cl) config submission dry_run (w, tr)
        = (Ret (early_result submission (Some deal_id)
                  LinkStatus.NO_COMPANIES "No companies to process"),
           (w, tr))).
Proof.
  assert (H : _should_include_submission config submission = true
              <-> _get_companies_to_process config submission <> []).
  { unfold _should_include_submission, _get_companies_to_process.
    destruct (Config.process_companies config),
      (Submission.primary_company submission) as [p|],
      (Submission.additional_companies submission) as [|c cs];
      cbn; (split; [intros H; first [discriminate H | discriminate]
                   | intros H; first [reflexivity | congruence]]). }
  split; [exact H|].
  intros W cl dry_run w tr deal_id Hd Hs. unfold link_submission. rewrite Hd.
  destruct (_get_companies_to_process config submission) as [|c cs];
    [reflexivity|].
  exfalso. assert (T : _should_include_submission config submission = true)
    by (apply H; discriminate).
  congruence.
Qed.

(** X17: the block "Extract W2 count" of the two parsers raises in one
    case only, a W2 count that is an infinite float ([int] raises
    [OverflowError], which the clause for [ValueError] and [TypeError]
    does not catch); every other value gives a count or [None]. *)

Theorem w2_count_of_raises_on_infinity_only
    (int_of_str : string -> Z + string) (d : gmap string json) (e : exn) :
  w2_count_of int_of_str d = Raise e
  <-> exists f s,
        d !! "w2EmployeeCount" = Some (JFloat f)
        /\ Prim2SF f = S754_infinity s
        /\ e = BuiltinError "OverflowError"
                 "cannot convert float infinity to integer".
Proof.
  unfold w2_count_of.
  destruct (d !! "w2EmployeeCount") as [x|] eqn:K; cbn [from_option id].
  2: { split; [discriminate | intros (f & s & D & _); discriminate]. }
  destruct x as [|b|z|f|s|l|m]; cbn;
    try (split; [discriminate | intros (? & ? & D & _); discriminate]).
  - unfold py_int_of_float. destruct (Prim2SF f) as [s|s| |s m ex] eqn:P; cbn.
    + split; [discriminate | intros (f0 & s1 & D & Q & _)].
      injection D as <-. congruence.
    + split.
      * intros [= <-]. exists f, s. repeat split; trivial.
      * intros (f0 & s1 & D & Q & ->). reflexivity.
    + split; [discriminate | intros (f0 & s1 & D & Q & _)].
      injection D as <-. congruence.
    + split; [discriminate | intros (f0 & s1 & D & Q & _)].
      injection D as <-. congruence.
  - destruct (int_of_str s); cbn;
      (split; [discriminate | intros (? & ? & D & _); discriminate]).
Qed.

(** ** Validation of the configuration *)

Lemma In_snoc_if {A} (x y : A) (c : bool) (l : list A) :
  In x (if c then l ++ [y] else l) <-> In x l \/ (c = true /\ x = y).
Proof.
  destruct c.
  - rewrite in_app_iff. cbn. intuition congruence.
  - intuition congruence.
Qed.

Lemma In_snoc_if_other {A} (x y : A) (c : bool) (l : list A) :
  x <> y -> In x (if c then l ++ [y] else l) <-> In x l.
Proof. intros H. rewrite In_snoc_if. intuition congruence. Qed.

Lemma validate_range_error config mm mf md :
  In range_error (validate config mm mf md)
  <-> (0 <? Config.max_w2_count config)
      && (Config.max_w2_count config <? Config.min_w2_count config) = true.
Proof.
  unfold validate. cbv zeta.
  rewrite In_snoc_if_other by discriminate.
  rewrite In_snoc_if_other by discriminate.
  rewrite In_snoc_if.
  match goal with |- In _ ?l \/ _ <-> _ =>
    assert (H : ~ In range_error l)
  end.
  { destruct (Config.auto_create_products config),
      (Config.process_companies config),
      (Config.duplicate_attachment_action config),
      (Config.quantity_mode config),
      (Config.value_calculation_mode config),
      (mm && String.eqb mf ""); cbn; intuition discriminate. }
  intuition.
Qed.

(** X18: [Config.validate] reports "MAX_W2_COUNT must be greater than
    MIN_W2_COUNT" exactly for the configurations under which
    [_validate_company] rejects every company that has a W2 count,
    whatever the count. *)

Theorem validate_range_error_rejects_every_count (config : Config.t)
    (migration_mode : bool) (migration_from : string)
    (migration_delete_old : bool) :
  In range_error
    (validate config migration_mode migration_from migration_delete_old)
  <-> (forall company n,
         AdditionalCompany.w2_employee_count company = Some n ->
         _validate_company config company <> None).
Proof.
  rewrite validate_range_error. split.
  - intros H company n Hn. apply validate_company_some_iff. rewrite Hn.
    apply andb_true_iff in H. destruct H as [H1 H2].
    apply Z.ltb_lt in H1, H2.
    destruct (Z.lt_ge_cases n (Config.min_w2_count config)).
    + right; right; left. exists n. repeat split; lia.
    + right; right; right. exists n. repeat split; lia.
  - intros H.
    destruct ((0 <? Config.max_w2_count config)
              && (Config.max_w2_count config <? Config.min_w2_count config))
      eqn:E; [reflexivity|]. exfalso.
    set (n := if 0 <? Config.max_w2_count config
              then Config.max_w2_count config
              else Z.max (Config.min_w2_count config) 1).
    apply (H (AdditionalCompany.mk "" (Some n) ∅) n eq_refl).
    destruct (_validate_company config (AdditionalCompany.mk "" (Some n) ∅))
      as [msg|] eqn:V; [|reflexivity]. exfalso.
    assert (F : validation_fails config (Some n)).
    { apply (validate_company_some_iff config
               (AdditionalCompany.mk "" (Some n) ∅)). congruence. }
    apply andb_false_iff in E. subst n.
    destruct (Z.ltb_spec 0 (Config.max_w2_count config)) as [Hm|Hm];
      destruct (Z.ltb_spec (Config.max_w2_count config)
                  (Config.min_w2_count config)) as [Hr|Hr];
      destruct E as [E|E]; try discriminate;
      destruct F as [[D _]|[[D _]|[(m & D & ? & ?)|(m & D & ? & ?)]]];
      try discriminate; injection D as D; lia.
Qed.

(** ** The bodies of the create and attach requests *)

(** [s[:n]] is the longest prefix of at most [n] characters. *)
Lemma py_slice_to_spec n s :
  String.length (py_slice_to n s) = Nat.min n (String.length s)
  /\ exists t, s = py_slice_to n s +:+ t.
Proof.
  revert s. induction n as [|n IH]; intros s.
  - split; [reflexivity | exists s; reflexivity].
  - destruct s as [|c s]; cbn.
    + split; [reflexivity | exists EmptyString; reflexivity].
    + destruct (IH s) as (L & t & E). split; [rewrite L; reflexivity|].
      exists t. change (String c s = String c (py_slice_to n s +:+ t)).
      f_equal. exact E.
Qed.

Lemma company_call_wire_body config company deal_id atts c :
  company_call config company deal_id atts c -> wire_body config company c.
Proof.
  destruct c as [| | |name code active visible_to
                 |d product_id item_price quantity comments|]; cbn; trivial.
  - intros (_ & -> & -> & -> & ->).
    unfold body_field, write_body, product_data.
    destruct (py_slice_to_spec 255
                (_format_product_name config
                   (AdditionalCompany.company_legal_name company)))
      as (L & t & E).
    split; [|repeat split].
    exists (py_slice_to 255
              (_format_product_name config
                 (AdditionalCompany.company_legal_name company))), t.
    split; [reflexivity|]. split; [|exact E].
    rewrite L. apply Nat.le_min_l.
  - intros (_ & _ & _ & ->).
    unfold body_field, write_body, attachment_data. repeat split.
Qed.

(** X19: what goes over the wire for a company.  The body of every create
    request holds as "name" the first 255 characters at most of the
    formatted name, no "code", and the configured flags; the body of every
    attach request holds the product, the price and the quantity of the
    call, discount 0, duration 1, the enabled flag, and as "comments" the
    tracking comment that names the company. *)

Theorem process_company_request_bodies {W} (cl : Client W)
    (config : Config.t) (company : AdditionalCompany.t) (deal_id : Z)
    (atts : list DealProductAttachment.t) (dry_run : bool) :
  emits (Forall (wire_body config company))
    (_process_company (traced cl) config company deal_id atts dry_run).
Proof.
  eapply emits_weaken; [|apply process_company_calls].
  intros l Hl. eapply List.Forall_impl; [|exact Hl].
  intros c. apply company_call_wire_body.
Qed.

(** ** The statistics of a run *)

Lemma sum_over_from f results : forall acc,
  List.fold_left (fun acc r => acc + f r) results acc
  = acc + sum_over f results.
Proof.
  unfold sum_over. induction results as [|r rest IH]; intros acc; cbn.
  - lia.
  - rewrite IH, (IH (0 + f r)). lia.
Qed.

Lemma sum_over_cons f r rest :
  sum_over f (r :: rest) = f r + sum_over f rest.
Proof. unfold sum_over at 1. cbn. rewrite sum_over_from. lia. Qed.

Lemma count_status_cons status r rest :
  count_status status (r :: rest)
  = (if LinkStatus_eqb (LinkResult.status r) status then 1 else 0)
    + count_status status rest.
Proof.
  unfold count_status. cbn [List.filter].
  destruct (LinkStatus_eqb (LinkResult.status r) status); cbn [List.length];
    lia.
Qed.

(** X20: the statistics of a list of outcomes of [link_submission]: no
    success and no skip is counted, no attachment created, updated or
    skipped; the outcomes are all counted under no-deal-id, no-companies,
    orphaned or failed; the products created and found are no more than
    the companies processed. *)

Theorem statistics_of_a_run (py_sum : list float -> json)
    (results : list LinkResult.t) :
  Forall outcome_of_link_submission results ->
  let stats := _calculate_statistics py_sum results in
  Statistics.success stats = 0
  /\ Statistics.skipped stats = 0
  /\ Statistics.attachments_created stats = 0
  /\ Statistics.attachments_updated stats = 0
  /\ Statistics.attachments_skipped stats = 0
  /\ Statistics.total stats
     = Statistics.no_deal_id stats + Statistics.no_companies stats
       + Statistics.orphaned stats + Statistics.failed stats
  /\ Statistics.products_created stats + Statistics.products_found stats
     <= Statistics.companies_processed stats.
Proof.
  intros H. cbn zeta. unfold _calculate_statistics. cbn.
  induction H as [|r rest Hr Hrest IH].
  - repeat split; reflexivity || lia.
  - destruct IH as (I1 & I2 & I3 & I4 & I5 & I6 & I7).
    destruct Hr as (W & cl & config & submission & dry_run & w & w' & Hr).
    apply link_submission_result in Hr.
    rewrite !sum_over_cons, !count_status_cons.
    change (List.length (r :: rest)) with (S (List.length rest)).
    rewrite Nat2Z.inj_succ, I1, I2, I3, I4, I5.
    destruct Hr as [(d & st & msg & -> & Hst) | (d & actions & -> & L & F)].
    + unfold early_result.
      cbn [LinkResult.status LinkResult.companies_processed].
      change (LinkResult.attachments_created (LinkResult.mk _ _ _ _ [] _ _))
        with 0.
      change (LinkResult.attachments_updated (LinkResult.mk _ _ _ _ [] _ _))
        with 0.
      change (LinkResult.attachments_skipped (LinkResult.mk _ _ _ _ [] _ _))
        with 0.
      change (LinkResult.products_created (LinkResult.mk _ _ _ _ [] _ _))
        with 0.
      change (LinkResult.products_found (LinkResult.mk _ _ _ _ [] _ _))
        with 0.
      destruct Hst as [-> | [-> | [-> | ->]]]; cbn [LinkStatus_eqb];
        repeat split; lia.
    + set (r := LinkResult.mk _ _ _ _ actions _ _).
      assert (A1 : LinkResult.attachments_created r = 0)
        by (apply count_actions_catalog_or_error; solve [exact F | reflexivity]).
      assert (A2 : LinkResult.attachments_updated r = 0)
        by (apply count_actions_catalog_or_error; solve [exact F | reflexivity]).
      assert (A3 : LinkResult.attachments_skipped r = 0)
        by (apply count_actions_catalog_or_error; solve [exact F | reflexivity]).
      pose proof (counters_partition r) as C. unfold counters_sum in C.
      assert (E : LinkResult.errors r >= 0)
        by (unfold LinkResult.errors, LinkResult.count_actions; lia).
      assert (P : Z.of_nat (List.length (LinkResult.actions r))
                  = LinkResult.companies_processed r).
      { subst r. cbn. rewrite (Forall2_length _ _ _ L). reflexivity. }
      rewrite A1, A2, A3.
      change (LinkResult.status r) with LinkStatus.FAILED_ERROR.
      cbn [LinkStatus_eqb]. repeat split; lia.
Qed.

(** A submission without deal id, and one whose company is found. *)
Lemma statistics_of_a_run_witness :
  let found :=
    LinkResult.mk "s1" (Some 7) LinkStatus.FAILED_ERROR 1
      [ProductAction.mk "Acme Inc." (Some 50)
         ProductActionType.FOUND_CATALOG (Some 5) (Some 100) None (Some 50)
         None (Some 2.0%float) None]
      0%float None in
  let no_deal :=
    LinkResult.mk "s1" None LinkStatus.NO_DEAL_ID 0 [] 0%float
      (Some "No dealId in submission") in
  let stats := _calculate_statistics fold_sum [no_deal; found] in
  Statistics.success stats = 0
  /\ Statistics.skipped stats = 0
  /\ Statistics.attachments_created stats = 0
  /\ Statistics.attachments_updated stats = 0
  /\ Statistics.attachments_skipped stats = 0
  /\ Statistics.total stats
     = Statistics.no_deal_id stats + Statistics.no_companies stats
       + Statistics.orphaned stats + Statistics.failed stats
  /\ Statistics.products_created stats + Statistics.products_found stats
     <= Statistics.companies_processed stats.
Proof.
  cbv zeta.
  apply (statistics_of_a_run fold_sum).
  repeat constructor.
  - exists FakeRemote.world, FakeRemote.client, Scenario.config,
      (Submission.mk "s1" None None [Scenario.company (Some 50)]
         "client@example.com" ∅), false, Scenario.world_empty,
      Scenario.world_empty.
    reflexivity.
  - exists FakeRemote.world, FakeRemote.client, Scenario.config,
      (Scenario.submission [Scenario.company (Some 50)]), false,
      (Scenario.world_found []),
      (snd (link_submission FakeRemote.client Scenario.config
              (Scenario.submission [Scenario.company (Some 50)]) false
              (Scenario.world_found []))).
    vm_compute. reflexivity.
Defined.

(** ** The conservative profile *)

(** X21: under the conservative profile (no automatic creation, duplicate
    policy [SKIP]) a run of [link_submission] never creates a product in
    the catalog and never updates an attachment, whatever the submission
    and the remote end. *)
Theorem conservative_profile_never_creates_nor_updates {W} (cl : Client W)
    (submission : Submission.t) (dry_run : bool) (w : W) (tr : list call) :
  exists l,
    snd (snd (link_submission (traced cl) _get_conservative_profile
                submission dry_run (w, tr))) = tr ++ l
    /\ count_calls (is_kind CreateProduct) l = 0%nat
    /\ count_calls (is_kind UpdateAttachment) l = 0%nat.
Proof.
  destruct (link_submission_at_most cl _get_conservative_profile
              (is_kind CreateProduct) submission dry_run w tr)
    as (l & E & H1).
  exists l. split; [exact E|].
  pose proof (at_most_unique _ w tr l E (is_kind UpdateAttachment) _
                (link_submission_at_most cl _get_conservative_profile
                   (is_kind UpdateAttachment) submission dry_run)) as H2.
  unfold per_company in H1, H2. cbn in H1, H2.
  destruct dry_run; cbn in H1, H2; lia.
Qed.

(** ** The other methods of the client *)

Module MethodFacts.
Import PipedriveClient.
Import PipedriveMethods.

Lemma stateless_lift {A} (r : result A) : stateless (lift r).
Proof. intros c. reflexivity. Qed.

Lemma stateless_ret {A} (a : A) : stateless (ret a).
Proof. intros c. reflexivity. Qed.

Lemma stateless_raise {A} e : stateless (A := A) (raise e).
Proof. intros c. reflexivity. Qed.

Lemma stateless_bind {A B} (m : M state A) (k : A -> M state B) :
  stateless m -> (forall a, stateless (k a)) -> stateless (bind m k).
Proof.
  intros Hm Hk c. unfold bind. specialize (Hm c).
  destruct (m c) as [[a|e] c1]; cbn in *; subst c1; [apply Hk | reflexivity].
Qed.

Lemma stateless_on_http_error {A} (a : A) what e :
  stateless (on_http_error a what e).
Proof.
  unfold on_http_error. destruct (response_status_code e =? 404);
    [apply stateless_ret | apply stateless_raise].
Qed.

Lemma one_call_bind {A B} rq (m : M state A) (k : A -> M state B) :
  one_call rq m -> (forall a, stateless (k a)) -> one_call rq (bind m k).
Proof.
  intros Hm Hk c. destruct (Hm c) as (n & Hn & E). exists n.
  split; [exact Hn|]. unfold bind.
  destruct (m c) as [[a|e] c1]; cbn in *; [rewrite Hk|]; exact E.
Qed.

Lemma one_call_try_except {A} rq (m : M state A) catches h :
  one_call rq m -> (forall e, stateless (h e)) ->
  one_call rq (try_except m catches h).
Proof.
  intros Hm Hh c. destruct (Hm c) as (n & Hn & E). exists n.
  split; [exact Hn|]. unfold try_except.
  destruct (m c) as [[a|e] c1]; cbn in *; [exact E|].
  destruct (catches e); [rewrite Hh|]; exact E.
Qed.

Lemma one_call_make_request config session method endpoint params json_data :
  one_call (request_of config method endpoint params json_data)
    (_make_request config session method endpoint params json_data 3).
Proof.
  intros c. unfold _make_request.
  fold (request_of config method endpoint params json_data).
  change (Z.to_nat 3) with 3%nat. apply GatewayRetries.attempts_schedule.
Qed.

Ltac stateless_tac :=
  repeat first
    [ apply stateless_ret | apply stateless_raise | apply stateless_lift
    | apply stateless_on_http_error
    | apply stateless_bind; [|intros ?]
    | match goal with
      | |- stateless (if ?b then _ else _) => destruct b
      | |- stateless (match ?x with _ => _ end) => destruct x
      end ].

Section Methods.
Variable config : Config.t.
Variable session : list Request.t -> Request.t -> outcome.
Variable int_of_str : string -> Z + string.
Variable float_of_str : string -> float + string.

(** X22: every method of the client is one call of [_make_request] and
    does nothing else to the client: it sends between one and three
    requests, all the same, and the call counter moves by one for each of
    them; it sleeps 1s after the first and 2s after the second when
    another follows. *)
Theorem every_method_is_one_call :
  (forall name (exact_match : bool),
      one_call
        (request_of config "GET" "products/search"
           (Some (<["exact_match" := JInt (if exact_match then 1 else 0)]>
                    (<["term" := JStr (py_strip name)]> ∅))) None)
        (search_product_by_name config session name exact_match))
  /\ (forall name code active visible_to,
        one_call
          (request_of config "POST" "products" None
             (Some (product_data name code active visible_to)))
          (create_product config session name code active visible_to))
  /\ (forall product_id,
        one_call
          (request_of config "GET" ("products/" +:+ pretty product_id)
             None None)
          (get_product_by_id config session product_id))
  /\ (forall product_id name code active,
        one_call
          (request_of config "PUT" ("products/" +:+ pretty product_id) None
             (Some (product_update_data name code active)))
          (update_product config session product_id name code active))
  /\ (forall deal_id,
        one_call
          (request_of config "GET" ("deals/" +:+ pretty deal_id) None None)
          (get_deal_by_id config session deal_id))
  /\ (forall deal_id,
        one_call
          (request_of config "GET"
             ("deals/" +:+ pretty deal_id +:+ "/products") None None)
          (get_deal_products config session int_of_str float_of_str deal_id))
  /\ (forall deal_id product_id item_price quantity comments,
        one_call
          (request_of config "POST"
             ("deals/" +:+ pretty deal_id +:+ "/products") None
             (Some (attachment_data product_id item_price quantity comments)))
          (attach_product_to_deal config session int_of_str float_of_str
             deal_id product_id item_price quantity comments))
  /\ (forall deal_id attachment_id item_price quantity comments,
        one_call
          (request_of config "PUT"
             ("deals/" +:+ pretty deal_id +:+ "/products/"
              +:+ pretty attachment_id) None
             (Some (update_data item_price quantity comments)))
          (update_deal_product_attachment config session int_of_str
             float_of_str deal_id attachment_id item_price quantity comments))
  /\ (forall deal_id attachment_id,
        one_call
          (request_of config "DELETE"
             ("deals/" +:+ pretty deal_id +:+ "/products/"
              +:+ pretty attachment_id) None None)
          (delete_deal_product_attachment config session deal_id
             attachment_id)).
Proof.
  repeat split; intros.
  - unfold search_product_by_name.
    apply one_call_try_except; [|intros e; stateless_tac].
    apply one_call_bind; [apply one_call_make_request|].
    intros response. stateless_tac.
  - unfold create_product.
    apply one_call_bind; [apply one_call_make_request|].
    intros response. stateless_tac.
  - unfold get_product_by_id.
    apply one_call_try_except; [|intros e; stateless_tac].
    apply one_call_bind; [apply one_call_make_request|].
    intros response. stateless_tac.
  - unfold update_product.
    apply one_call_bind; [apply one_call_make_request|].
    intros response. stateless_tac.
  - unfold get_deal_by_id.
    apply one_call_try_except.
    + apply one_call_bind; [apply one_call_make_request|].
      intros response. stateless_tac.
    + intros e. destruct (response_status_code e =? 404);
        [apply stateless_ret | apply stateless_raise].
  - unfold get_deal_products.
    apply one_call_try_except; [|intros e; stateless_tac].
    apply one_call_bind; [apply one_call_make_request|].
    intros response. stateless_tac.
  - unfold attach_product_to_deal.
    apply one_call_bind; [apply one_call_make_request|].
    intros response. stateless_tac.
  - unfold update_deal_product_attachment.
    apply one_call_bind; [apply one_call_make_request|].
    intros response. stateless_tac.
  - unfold delete_deal_product_attachment.
    apply one_call_bind; [apply one_call_make_request|].
    intros response. stateless_tac.
Qed.
End Methods.
Section Parsing.
Variable config : Config.t.
Variable session : list Request.t -> Request.t -> outcome.
Variable int_of_str : string -> Z + string.
Variable float_of_str : string -> float + string.

Lemma search_loop_exact term items p :
  search_loop true term items = Ret (Some p) ->
  exists s, ParsedProduct.name p = JStr s /\ py_strip s = term.
Proof.
  induction items as [|item rest IH]; cbn [search_loop]; [discriminate|].
  destruct (py_get item "item" (JDict ∅)) as [item_data|e]; [|discriminate].
  destruct item_data as [| | | | | |dd]; try discriminate.
  cbn [py_get].
  destruct (py_strip_of (default (JStr "") (dd !! "name")))
    as [stripped|e] eqn:Hn; [|discriminate].
  destruct (String.eqb stripped term) eqn:He; [|exact IH].
  apply String.eqb_eq in He. subst term.
  unfold _parse_product, py_getitem.
  destruct (dd !! "id") as [id|]; [|discriminate].
  intros [= <-]. cbn [ParsedProduct.name].
  destruct (default (JStr "") (dd !! "name")); cbn in Hn; try discriminate.
  injection Hn as <-. eexists. split; reflexivity.
Qed.

Lemma on_http_error_none {A} what e c (p : A) c' :
  on_http_error (A := option A) None what e c <> (Ret (Some p), c').
Proof.
  unfold on_http_error. destruct (response_status_code e =? 404); discriminate.
Qed.

(** X23: a product that a search with exact match returns has the name
    searched for, whitespace around either aside: whatever the remote end
    answers, no other product comes back. *)
Theorem exact_search_returns_the_name_searched (product_name : string)
    (c c' : state) (p : ParsedProduct.t) :
  search_product_by_name config session product_name true c
  = (Ret (Some p), c') ->
  exists s,
    ParsedProduct.name p = JStr s /\ py_strip s = py_strip product_name.
Proof.
  unfold search_product_by_name, try_except.
  match goal with |- context [match ?m c with _ => _ end] =>
    destruct (m c) as [[found|e] c1] eqn:E end.
  2: { destruct (isinstance_HTTPError e); [|discriminate].
       intros H. exfalso. exact (on_http_error_none _ _ _ _ _ H). }
  intros [= -> ->]. revert E. unfold bind, lift, ret, raise.
  destruct (_make_request config session "GET" "products/search" _ None 3 c)
    as [[response|e] c2]; [|discriminate].
  destruct (py_get response "success" (JBool false)) as [success|e];
    [|discriminate].
  destruct (negb (py_truthy success)); [discriminate|].
  destruct (py_get response "data" (JDict ∅)) as [data|e]; [|discriminate].
  destruct (py_get data "items" (JList [])) as [items|e]; [|discriminate].
  destruct (negb (py_truthy items)); [discriminate|].
  destruct (py_iter items) as [l| |e]; [|discriminate|discriminate].
  destruct (search_loop true (py_strip product_name) l) as [[q|]|e] eqn:L;
    [|discriminate|discriminate].
  intros [= <- _]. exact (search_loop_exact _ _ _ L).
Qed.

Lemma py_float_of_int_builtin n e :
  py_float_of_int n = Raise e -> is_builtin e = true.
Proof.
  unfold py_float_of_int.
  destruct (PrimFloat.eqb _ _); [intros [= <-]; reflexivity | discriminate].
Qed.

Lemma py_float_builtin x e :
  py_float float_of_str x = Raise e -> is_builtin e = true.
Proof.
  destruct x as [|b|z|f|s|l|m]; cbn; try (intros [= <-]; reflexivity).
  - apply py_float_of_int_builtin.
  - destruct (float_of_str s); [discriminate | intros [= <-]; reflexivity].
Qed.

Lemma py_int_builtin x e :
  py_int int_of_str x = Raise e -> is_builtin e = true.
Proof.
  destruct x as [|b|z|f|s|l|m]; cbn; try (intros [= <-]; reflexivity).
  - unfold py_int_of_float. destruct (Prim2SF f);
      try discriminate; intros [= <-]; reflexivity.
  - destruct (int_of_str s); [discriminate | intros [= <-]; reflexivity].
Qed.

Lemma py_getitem_builtin x k e :
  py_getitem x k = Raise e -> is_builtin e = true.
Proof.
  destruct x as [|b|z|f|s|l|m]; cbn; try (intros [= <-]; reflexivity).
  destruct (m !! k); [discriminate | intros [= <-]; reflexivity].
Qed.

Lemma parse_attachment_builtin raw e :
  _parse_deal_product_attachment int_of_str float_of_str raw = Raise e ->
  is_builtin e = true.
Proof.
  unfold _parse_deal_product_attachment.
  destruct (py_getitem raw "id") as [id|e0] eqn:G.
  2: { intros [= <-]. exact (py_getitem_builtin _ _ _ G). }
  destruct raw as [| | | | | |d]; try (intros [= <-]; reflexivity).
  destruct (py_float float_of_str (default (JInt 0) (d !! "item_price")))
    as [ip|e0] eqn:F1.
  2: { intros [= <-]. exact (py_float_builtin _ _ F1). }
  destruct (py_int int_of_str (default (JInt 0) (d !! "quantity")))
    as [q|e0] eqn:F2.
  2: { intros [= <-]. exact (py_int_builtin _ _ F2). }
  destruct (py_float float_of_str (default (JInt 0) (d !! "sum")))
    as [sm|e0] eqn:F3.
  2: { intros [= <-]. exact (py_float_builtin _ _ F3). }
  discriminate.
Qed.

Lemma is_builtin_classes e :
  is_builtin e = true ->
  isinstance_HTTPError e = false /\ isinstance_APIError e = false.
Proof. destruct e; cbn; try discriminate. split; reflexivity. Qed.

Lemma parse_attachments_loop_spec entries :
  forall acc,
    match parse_attachments_loop int_of_str float_of_str entries acc with
    | Ret l =>
        exists l',
          l = acc ++ l'
          /\ Forall2
               (fun entry a =>
                  _parse_deal_product_attachment int_of_str float_of_str
                    entry = Ret a) entries l'
    | Raise e =>
        is_builtin e = true
        /\ exists entry,
             In entry entries
             /\ _parse_deal_product_attachment int_of_str float_of_str entry
                = Raise e
    end.
Proof.
  induction entries as [|x rest IH]; intros acc; cbn [parse_attachments_loop].
  - exists []. rewrite app_nil_r. split; [reflexivity | constructor].
  - destruct (_parse_deal_product_attachment int_of_str float_of_str x)
      as [a|e] eqn:P.
    + specialize (IH (acc ++ [a])).
      destruct (parse_attachments_loop int_of_str float_of_str rest
                  (acc ++ [a])) as [l|e].
      * destruct IH as (l' & -> & F). exists (a :: l').
        rewrite <- app_assoc. split; [reflexivity|].
        constructor; assumption.
      * destruct IH as (H & entry & I & E). split; [exact H|].
        exists entry. split; [right; exact I | exact E].
    + split; [exact (parse_attachment_builtin _ _ P)|].
      exists x. split; [left; reflexivity | exact P].
Qed.

Lemma parsed_entries_unique entries :
  forall l l',
    Forall2 (fun entry a =>
               _parse_deal_product_attachment int_of_str float_of_str entry
               = Ret a) entries l ->
    Forall2 (fun entry a =>
               _parse_deal_product_attachment int_of_str float_of_str entry
               = Ret a) entries l' ->
    l = l'.
Proof.
  induction entries as [|x rest IH]; intros l l' F F';
    inversion F; inversion F'; subst; [reflexivity|].
  f_equal; [congruence | apply IH; assumption].
Qed.

Lemma parsed_entries_In entries l entry :
  Forall2 (fun entry a =>
             _parse_deal_product_attachment int_of_str float_of_str entry
             = Ret a) entries l ->
  In entry entries ->
  exists a,
    _parse_deal_product_attachment int_of_str float_of_str entry = Ret a.
Proof.
  intros F. induction F as [|x a rest l' P F IH]; intros I; [destruct I|].
  destruct I as [<- | I]; [exists a; exact P | apply IH, I].
Qed.

(** X24: the fetch of the attachments of a deal, on an answer accepted at
    once whose body decodes to a dictionary.  Without a true "success", or with no
    or an empty "data", the list is empty.  With a list as "data", the
    fetch returns one attachment for each entry, each the parse of its
    entry, in order, or raises, if some entry cannot be parsed, the error
    of that parse, which is not an [APIError]: one bad entry loses the
    whole list. *)
Theorem get_deal_products_reads_every_entry (deal_id : Z) (c : state)
    (r : Response.t) (d : gmap string json) :
  let rq :=
    request_of config "GET" ("deals/" +:+ pretty deal_id +:+ "/products")
      None None in
  let run :=
    get_deal_products config session int_of_str float_of_str deal_id c in
  answer_to session rq c 0 = Responds r ->
  accepted r ->
  Response.body r = inl (JDict d) ->
  (falsy_field d "success" (JBool false) \/ falsy_field d "data" (JList []) ->
   run = (Ret [], after_attempt rq c []))
  /\ (forall entries,
        py_truthy (default (JBool false) (d !! "success")) = true ->
        d !! "data" = Some (JList entries) ->
        snd run = after_attempt rq c []
        /\ (forall l,
              fst run = Ret l
              <-> Forall2
                    (fun entry a =>
                       _parse_deal_product_attachment int_of_str float_of_str
                         entry = Ret a) entries l)
        /\ (forall e,
              fst run = Raise e ->
              isinstance_APIError e = false
              /\ exists entry,
                   In entry entries
                   /\ _parse_deal_product_attachment int_of_str float_of_str
                        entry = Raise e)).
Proof.
  cbn zeta. intros Hr Hok Hbody. unfold get_deal_products.
  unfold try_except, bind.
  rewrite (GatewayRetries.attempts_retried_then_accepted session _ c r
             (JDict d) 0%nat Nat.le_0_2 (fun i Hi => ltac:(lia)) Hr Hok Hbody
           : _make_request config session "GET" _ None None 3 c = _).
  change (mkState (api_call_count c + Z.of_nat 1)
            (sent c ++ repeat
                         (request_of config "GET"
                            ("deals/" +:+ pretty deal_id +:+ "/products")
                            None None) 1)
            (slept c ++ naps 0))
    with (after_attempt
            (request_of config "GET"
               ("deals/" +:+ pretty deal_id +:+ "/products") None None)
            c []).
  unfold lift, py_get, ret. cbn [fst snd].
  unfold falsy_field.
  destruct (py_truthy (default (JBool false) (d !! "success"))) eqn:Hs.
  2: { cbn [negb]. split; [reflexivity|]. intros entries H. discriminate. }
  cbn [negb]. split.
  - intros [H|H]; [discriminate|]. rewrite H. reflexivity.
  - intros entries _ E. rewrite E.
    change (default (JList []) (Some (JList entries))) with (JList entries).
    destruct entries as [|x rest].
    + cbn. repeat split.
      * intros [= <-]. constructor.
      * intros F. inversion F. reflexivity.
      * discriminate.
      * discriminate.
    + cbn [py_truthy negb py_iter].
      pose proof (parse_attachments_loop_spec (x :: rest) []) as L.
      destruct (parse_attachments_loop int_of_str float_of_str (x :: rest) [])
        as [l0|e0].
      * destruct L as (l' & -> & F). cbn [app fst snd].
        split; [reflexivity|]. split.
        -- intros l. split.
           ++ intros [= <-]. exact F.
           ++ intros F'. f_equal. exact (parsed_entries_unique _ _ _ F F').
        -- discriminate.
      * destruct L as (H & entry & I & P).
        destruct (is_builtin_classes _ H) as [H1 H2]. rewrite H1.
        cbn [fst snd]. split; [reflexivity|]. split.
        -- intros l. split; [discriminate|]. intros F. exfalso.
           destruct (parsed_entries_In _ _ _ F I) as (a & Pa). congruence.
        -- intros e [= <-]. split; [exact H2|].
           exists entry; split; assumption.
Qed.
End Parsing.

(** One item, its name with whitespace around it. *)
Lemma exact_search_returns_the_name_searched_witness :
  exists s,
    ParsedProduct.name
      (ParsedProduct.mk (JInt 5) (JStr " Acme Inc ") JNull (JBool true)
         (JList []))
    = JStr s
    /\ py_strip s = py_strip "Acme Inc".
Proof.
  apply (exact_search_returns_the_name_searched
           (Scenario.gateway_config true)
           (Scenario.scripted
              [Scenario.response 200 "OK"
                 (JDict
                    (<["success" := JBool true]>
                       (<["data" :=
                            JDict
                              (<["items" :=
                                   JList
                                     [JDict
                                        (<["item" :=
                                             JDict
                                               (<["id" := JInt 5]>
                                                  (<["name" :=
                                                       JStr " Acme Inc "]>
                                                     ∅))]> ∅)]]> ∅)]> ∅)))])
           "Acme Inc" Scenario.fresh_client
           (snd (search_product_by_name (Scenario.gateway_config true)
                   (Scenario.scripted
                      [Scenario.response 200 "OK"
                         (JDict
                            (<["success" := JBool true]>
                               (<["data" :=
                                    JDict
                                      (<["items" :=
                                           JList
                                             [JDict
                                                (<["item" :=
                                                     JDict
                                                       (<["id" := JInt 5]>
                                                          (<["name" :=
                                                               JStr
                                                                 " Acme Inc "]>
                                                             ∅))]> ∅)]]> ∅)]>
                                  ∅)))])
                   "Acme Inc" true Scenario.fresh_client))).
  vm_compute. reflexivity.
Defined.

(** A list of one attachment, its quantity a float. *)
Lemma get_deal_products_reads_every_entry_witness :
  let entry : gmap string json :=
    <["id" := JInt 9]>
      (<["product_id" := JInt 5]>
         (<["item_price" := JInt 2]> (<["quantity" := JFloat 50]> ∅))) in
  let d : gmap string json :=
    <["success" := JBool true]> (<["data" := JList [JDict entry]]> ∅) in
  fst (get_deal_products (Scenario.gateway_config true)
         (Scenario.scripted [Scenario.response 200 "OK" (JDict d)])
         (fun s => inr s) (fun s => inr s) 7 Scenario.fresh_client)
  = Ret [ParsedAttachment.mk (JInt 9) (JInt 5) (JInt 0) 2 50 0 (JStr "")
           JNull].
Proof.
  intros entry d.
  assert (Hr : answer_to
                 (Scenario.scripted [Scenario.response 200 "OK" (JDict d)])
                 (request_of (Scenario.gateway_config true) "GET"
                    ("deals/" +:+ pretty 7 +:+ "/products") None None)
                 Scenario.fresh_client 0
               = Responds
                   (Response.mk 200 "OK"
                      "https://acme.pipedrive.com/api/v1/deals/7"
                      (inl (JDict d))))
    by reflexivity.
  destruct (get_deal_products_reads_every_entry
              (Scenario.gateway_config true)
              (Scenario.scripted [Scenario.response 200 "OK" (JDict d)])
              (fun s => inr s) (fun s => inr s) 7 Scenario.fresh_client
              (Response.mk 200 "OK"
                 "https://acme.pipedrive.com/api/v1/deals/7" (inl (JDict d)))
              d Hr eq_refl eq_refl) as [_ H].
  destruct (H [JDict entry]) as (_ & H2 & _);
    [vm_compute; reflexivity | vm_compute; reflexivity |].
  apply H2. repeat constructor.
Defined.
End MethodFacts.
